(** * The engine bridge of the library search system (flask_app/app.py)

    A shallow embedding of the bridge between the web layer and the
    compiled catalogue engine: module globals, the MongoDB/CSV
    synchronisation ([initial_migration], [rehydrate_from_mongodb]), the
    process supervisor ([start_backend]), the protocol channel
    ([send_to_backend]) and the retry wrapper ([send_with_retry]); and of
    the view functions of the web layer that call it (module [Views]),
    [api_reserve] apart.

    Python code is written in a small free monad [prog] whose operations
    are the side effects of the source (globals, files, the document
    store, the child process, the lock).  The monad has two readings: a
    sequential one ([run], state passing over a [world]) and an
    interleaved one ([cstep], several request threads sharing one world
    and one lock). *)

From stdpp Require Import base option list strings gmap pretty.
From Stdlib Require Import ZArith Ascii String Lia.

Local Open Scope string_scope.
Local Open Scope Z_scope.
Local Open Scope list_scope.

(** ** Python values *)

(** Scalar field values of a stored document (BSON) or of a CSV cell.
    Floating-point and nested values are outside the model, and so are
    stored integers beyond eight bytes, which the driver never lets
    in. *)
Inductive value :=
| VNone
| VBool (b : bool)
| VInt (z : Z)
| VStr (s : string).

#[global] Instance value_eq_dec : EqDecision value.
Proof. solve_decision. Defined.

(** A document / a Python dict with string keys, in insertion order. *)
Definition doc := list (string * value).

(** [d.get(k)] as an option: [None] when the key is absent. *)
Fixpoint doc_lookup (k : string) (d : doc) : option value :=
  match d with
  | [] => None
  | (k', v) :: d' => if String.eqb k k' then Some v else doc_lookup k d'
  end.

(** [d.get(k)]: Python's [None] when the key is absent. *)
Definition doc_get (k : string) (d : doc) : value :=
  default VNone (doc_lookup k d).

(** [d.get(k, dflt)]: the default only replaces an absent key. *)
Definition doc_get_default (k : string) (dflt : value) (d : doc) : value :=
  default dflt (doc_lookup k d).

(** JSON values as [json.loads] builds them and [json.dumps] takes them
    (numbers restricted to integers). *)
#[warnings="-register-all"]
Inductive json :=
| JNull
| JBool (b : bool)
| JInt (z : Z)
| JStr (s : string)
| JArr (l : list json)
| JObj (kv : list (string * json)).

Fixpoint obj_lookup (k : string) (kv : list (string * json)) : option json :=
  match kv with
  | [] => None
  | (k', v) :: kv' => if String.eqb k k' then Some v else obj_lookup k kv'
  end.

(** Python truth value of a JSON value ([not x] is its negation). *)
Definition truthy (j : json) : bool :=
  match j with
  | JNull => false
  | JBool b => b
  | JInt z => negb (z =? 0)
  | JStr s => negb (String.eqb s "")
  | JArr l => match l with [] => false | _ => true end
  | JObj kv => match kv with [] => false | _ => true end
  end.

(** [type(x).__name__], as it appears in attribute-error messages. *)
Definition type_name (j : json) : string :=
  match j with
  | JNull => "NoneType"
  | JBool _ => "bool"
  | JInt _ => "int"
  | JStr _ => "str"
  | JArr _ => "list"
  | JObj _ => "dict"
  end.

(** ** Exceptions *)

Inductive exn_class :=
| AttributeError | KeyError | TypeError | ValueError | OverflowError
| OSError | JSONDecodeError | CsvError | StoreError | NotImplementedError.

(** An exception: its class and the text [str(e)] yields. *)
Record exn := Exn { exn_cls : exn_class; exn_str : string }.

Definition no_attribute (ty attr : string) : exn :=
  Exn AttributeError ("'" +:+ ty +:+ "' object has no attribute '" +:+ attr +:+ "'").

(** ** String helpers of the Python standard library

    A string is a sequence of characters with code points below 256;
    text with other characters is outside the model. On such strings
    the helpers are those of CPython 3.11. *)

(** [needle in hay] for two strings. *)
Fixpoint contains (needle hay : string) : bool :=
  String.prefix needle hay ||
  match hay with
  | EmptyString => false
  | String _ rest => contains needle rest
  end.

(** [s.split(',')]: always at least one part. *)
Fixpoint split_on (sep : ascii) (s : string) : list string :=
  match s with
  | EmptyString => [EmptyString]
  | String c rest =>
      if Ascii.eqb c sep then EmptyString :: split_on sep rest
      else match split_on sep rest with
           | [] => [String c EmptyString]
           | p :: ps => String c p :: ps
           end
  end.

(** The line boundaries of [str.splitlines] below code point 256: LF,
    VT, FF, CR, FS, GS, RS and NEL. *)
Definition is_line_boundary (c : ascii) : bool :=
  let n := nat_of_ascii c in
  (Nat.leb 10 n && Nat.leb n 13) || (Nat.leb 28 n && Nat.leb n 30) || Nat.eqb n 133.

(** The lines of a text, without their ends: a line ends at a
    boundary, CR LF counts as one, and the end of the text ends a line
    that is not empty. *)
Fixpoint lines_go (boundary : ascii -> bool) (cur : string) (s : string) : list string :=
  match s with
  | EmptyString => if String.eqb cur "" then [] else [String.rev cur]
  | String c rest =>
      if boundary c then
        String.rev cur ::
          match rest with
          | String c' rest' =>
              if Ascii.eqb c "013" && Ascii.eqb c' "010"
              then lines_go boundary "" rest'
              else lines_go boundary "" rest
          | EmptyString => []
          end
      else lines_go boundary (String c cur) rest
  end.

(** [s.splitlines()]. *)
Definition splitlines (s : string) : list string := lines_go is_line_boundary "" s.

(** [c.isprintable()]. *)
Definition is_printable (c : ascii) : bool :=
  let n := nat_of_ascii c in
  (Nat.leb 32 n && Nat.leb n 126) || (Nat.leb 161 n && negb (Nat.eqb n 173)).

Definition hex_digit (n : nat) : ascii :=
  default "0"%char (list_ascii_of_string "0123456789abcdef" !! n).

Definition QUOTE : ascii := ascii_of_nat 39.
Definition DOUBLE_QUOTE : ascii := ascii_of_nat 34.
Definition BACKSLASH : ascii := ascii_of_nat 92.

(** One character of [repr(s)] between the quotes [quote]. *)
Definition repr_char (quote c : ascii) : string :=
  let n := nat_of_ascii c in
  if Ascii.eqb c BACKSLASH || Ascii.eqb c quote then String BACKSLASH (String c "")
  else if Nat.eqb n 9 then String BACKSLASH "t"
  else if Nat.eqb n 10 then String BACKSLASH "n"
  else if Nat.eqb n 13 then String BACKSLASH "r"
  else if is_printable c then String c ""
  else String BACKSLASH
         (String "x" (String (hex_digit (n / 16)) (String (hex_digit (n mod 16)) ""))).

Definition has_char (c : ascii) (s : string) : bool :=
  existsb (Ascii.eqb c) (list_ascii_of_string s).

(** [repr(s)]: in double quotes when [s] holds a quote and no double
    quote, in quotes otherwise. *)
Definition py_repr (s : string) : string :=
  let quote := if has_char QUOTE s && negb (has_char DOUBLE_QUOTE s)
               then DOUBLE_QUOTE else QUOTE in
  String quote
    (String.concat "" (repr_char quote <$> list_ascii_of_string s) +:+ String quote "").

Definition is_digit (c : ascii) : bool :=
  (48 <=? Z.of_nat (nat_of_ascii c)) && (Z.of_nat (nat_of_ascii c) <=? 57).

(** The white space [int()] skips around a literal: TAB to CR, the
    space, NEL and the no-break space. *)
Definition is_int_space (c : ascii) : bool :=
  let n := nat_of_ascii c in
  (Nat.leb 9 n && Nat.leb n 13) || Nat.eqb n 32 || Nat.eqb n 133 || Nat.eqb n 160.

Fixpoint skip_space (s : string) : string :=
  match s with
  | String c rest => if is_int_space c then skip_space rest else s
  | EmptyString => EmptyString
  end.

(** The digits of a decimal literal read from the left, with single
    underscores between digits: the value, the number of digits and
    what follows them; [None] for two underscores in a row and for an
    underscore at the end. *)
Fixpoint scan_digits (acc digits : Z) (after_underscore : bool) (s : string)
  : option (Z * Z * string) :=
  match s with
  | String c rest =>
      if is_digit c
      then scan_digits (10 * acc + (Z.of_nat (nat_of_ascii c) - 48)) (digits + 1) false rest
      else if Ascii.eqb c "_"
      then (if after_underscore then None else scan_digits acc digits true rest)
      else if after_underscore then None else Some (acc, digits, s)
  | EmptyString => if after_underscore then None else Some (acc, digits, s)
  end.

(** [sys.get_int_max_str_digits()], as it is by default. *)
Definition MAX_STR_DIGITS : Z := 4300.

Definition invalid_literal (s : string) : exn :=
  Exn ValueError
      ("invalid literal for int() with base 10: " +:+ String.substring 0 200 (py_repr s)).

Definition too_many_digits (digits : Z) : exn :=
  Exn ValueError
      ("Exceeds the limit (" +:+ pretty MAX_STR_DIGITS
       +:+ " digits) for integer string conversion: value has " +:+ pretty digits
       +:+ " digits; use sys.set_int_max_str_digits() to increase the limit").

(** [int(s)] on a string: white space, an optional sign, the digits,
    white space. The digits are counted against the limit before
    anything that follows them is looked at. *)
Definition int_of_string (s : string) : exn + Z :=
  let t := skip_space s in
  let '(negative, t) :=
    match t with
    | String c rest =>
        if Ascii.eqb c "-" then (true, rest)
        else if Ascii.eqb c "+" then (false, rest) else (false, t)
    | EmptyString => (false, t)
    end in
  match t with
  | String "_" _ => inl (invalid_literal s)
  | _ =>
      match scan_digits 0 0 false t with
      | None => inl (invalid_literal s)
      | Some (n, digits, rest) =>
          if MAX_STR_DIGITS <? digits then inl (too_many_digits digits)
          else if digits =? 0 then inl (invalid_literal s)
          else match skip_space rest with
               | EmptyString => inr (if negative then - n else n)
               | _ => inl (invalid_literal s)
               end
      end
  end.

(** [int(x)]. *)
Definition py_int (v : value) : exn + Z :=
  match v with
  | VNone => inl (Exn TypeError
      "int() argument must be a string, a bytes-like object or a real number, not 'NoneType'")
  | VBool b => inr (if b then 1 else 0)
  | VInt z => inr z
  | VStr s => int_of_string s
  end.

(** The text the csv writer puts in a cell: [None] is the empty cell,
    anything that is not a string goes through [str()]. *)
Definition cell_text (v : value) : string :=
  match v with
  | VNone => ""
  | VBool b => if b then "True" else "False"
  | VInt z => pretty z
  | VStr s => s
  end.

(** ** The outside world *)

Definition path := string.
Definition pid := nat.

(** A file-system entry. *)
Inductive node :=
| File (content : string)
| Dir.

(** The three collections of the [library_system] database. *)
Inductive coll := Books | Users | Transactions.

#[global] Instance coll_eq_dec : EqDecision coll.
Proof. solve_decision. Defined.

(** The document store behind [db]. Documents are kept without their
    [_id] field, which every read of the source projects away. While
    [reachable] is false every operation raises [unreachable_error].
    [truth_error] is what the truth test of the handle ([not db]) raises,
    if it raises: pymongo's [Database] objects are true up to release
    3.x, and from release 4.0 on the test raises [NotImplementedError]. *)
Record store := Store {
  reachable : bool;
  unreachable_error : exn;
  truth_error : option exn;
  books : list doc;
  users : list doc;
  transactions : list doc;
}.

Definition collection (c : coll) (s : store) : list doc :=
  match c with
  | Books => books s
  | Users => users s
  | Transactions => transactions s
  end.

Definition insert_many (c : coll) (ds : list doc) (s : store) : store :=
  match c with
  | Books =>
      Store (reachable s) (unreachable_error s) (truth_error s)
            (books s ++ ds) (users s) (transactions s)
  | Users =>
      Store (reachable s) (unreachable_error s) (truth_error s)
            (books s) (users s ++ ds) (transactions s)
  | Transactions =>
      Store (reachable s) (unreachable_error s) (truth_error s)
            (books s) (users s) (transactions s ++ ds)
  end.

(** The integers a stored document can hold: eight bytes, signed. *)
Definition int64 (z : Z) : bool :=
  (-9223372036854775808 <=? z) && (z <=? 9223372036854775807).

(** A document the driver can encode. *)
Definition encodable (d : doc) : bool :=
  forallb (fun kv => match kv.2 with VInt z => int64 z | _ => true end) d.

(** What the driver raises on a document with a larger integer (the
    text of its C encoder). *)
Definition int_overflow : exn :=
  Exn OverflowError "MongoDB can only handle up to 8-byte ints".

(** The compiled engine, a black box driven through its pipes. [proc]
    is the state of one child process; every interaction may change it.
    [engine_spawn] is [subprocess.Popen] on the given argument vector,
    working directory and file system. *)
Class Engine := {
  proc : Type;
  engine_spawn : list path -> path -> gmap path node -> exn + proc;
  engine_poll : proc -> option Z * proc;
  engine_write : string -> proc -> (exn + unit) * proc;
  engine_flush : proc -> (exn + unit) * proc;
  engine_readline : proc -> (exn + string) * proc;
}.

(** The codecs of the standard library the bridge goes through:
    [json.dumps], [json.loads], the rows [csv.reader] yields for the text
    of a file (with the error that ends the iteration early, if any), and
    the line [csv.writer] emits for a row of cells. *)
Class Codec := {
  json_dumps : json -> string;
  json_loads : string -> exn + json;
  csv_reader : string -> list (list string) * option exn;
  csv_line : list string -> string;
}.

(** What the bridge does to the lock and to the engine, in order. *)
Inductive event :=
| EvAcquire
| EvRelease
| EvSpawn (p : pid) (args : list path) (cwd : path)
| EvSpawnFailed (args : list path) (cwd : path)
| EvPoll (p : pid) (status : option Z)
| EvWrite (p : pid) (line : string)
| EvWriteFailed (p : pid) (line : string)
| EvFlush (p : pid)
| EvFlushFailed (p : pid)
| EvReadline (p : pid) (line : string)
| EvReadlineFailed (p : pid).

Definition write_event (p : pid) (line : string) (r : exn + unit) : event :=
  match r with inl _ => EvWriteFailed p line | inr _ => EvWrite p line end.

Definition flush_event (p : pid) (r : exn + unit) : event :=
  match r with inl _ => EvFlushFailed p | inr _ => EvFlush p end.

Definition read_event (p : pid) (r : exn + string) : event :=
  match r with inl _ => EvReadlineFailed p | inr line => EvReadline p line end.

(** ** Programs with effects *)

(** The primitive effects of the source. An operation that can raise
    answers with [exn + _]. [DbConfigured] is the truth value of [db]
    in the test [if not db] of lines 73 and 129; [ReadText] is
    [open(p, 'r')] with the reads that follow, [OpenTrunc] is
    [open(p, 'w')] and [WriteText] one write to the file it opened. The
    [print] calls of the source are left out. *)
Inductive op : Type -> Type :=
| LockAcquire : op unit
| LockRelease : op unit
| GetBackendProcess : op (option pid)
| SetBackendProcess (h : option pid) : op unit
| GetUseMock : op bool
| SetUseMock (b : bool) : op unit
| GetMockBooks : op (list doc)
| SetMockBooks (l : list doc) : op unit
| PathExists (p : path) : op bool
| GetCwd : op path
| ReadText (p : path) : op (exn + string)
| OpenTrunc (p : path) : op (exn + unit)
| WriteText (p : path) (s : string) : op unit
| DbConfigured : op (exn + bool)
| DbCount (c : coll) : op (exn + nat)
| DbFind (c : coll) : op (exn + list doc)
| DbInsertMany (c : coll) (ds : list doc) : op (exn + unit)
| Popen (args : list path) (cwd : path) : op (exn + pid)
| Poll (p : pid) : op (option Z)
| StdinWrite (p : pid) (s : string) : op (exn + unit)
| StdinFlush (p : pid) : op (exn + unit)
| StdoutReadline (p : pid) : op (exn + string).

(** A Python computation: it returns, raises, or performs an operation
    and goes on with its answer. *)
Inductive prog (A : Type) : Type :=
| Ret (a : A)
| Raise (e : exn)
| Do {R : Type} (o : op R) (k : R -> prog A).

Arguments Ret {A} a.
Arguments Raise {A} e.
Arguments Do {A R} o k.

Fixpoint bind {A B} (m : prog A) (f : A -> prog B) : prog B :=
  match m with
  | Ret a => f a
  | Raise e => Raise e
  | Do o k => Do o (fun r => bind (k r) f)
  end.

Declare Scope prog_scope.
Delimit Scope prog_scope with prog.
Bind Scope prog_scope with prog.
Notation "x ← m ; k" := (bind m (fun x => k))
  (at level 20, m at level 100, k at level 200, only parsing) : prog_scope.
Notation "m ;; k" := (bind m (fun _ => k))
  (at level 100, k at level 200, only parsing, right associativity) : prog_scope.
Local Open Scope prog_scope.

(** [try: m  except Exception as e: h e]. *)
Fixpoint catch {A} (m : prog A) (h : exn -> prog A) : prog A :=
  match m with
  | Ret a => Ret a
  | Raise e => h e
  | Do o k => Do o (fun r => catch (k r) h)
  end.

(** Leaving a [with BACKEND_LOCK:] block, by return or by exception. *)
Fixpoint releasing {A} (m : prog A) : prog A :=
  match m with
  | Ret a => Do LockRelease (fun _ => Ret a)
  | Raise e => Do LockRelease (fun _ => Raise e)
  | Do o k => Do o (fun r => releasing (k r))
  end.

(** [with BACKEND_LOCK: m]. *)
Definition with_lock {A} (m : prog A) : prog A :=
  Do LockAcquire (fun _ => releasing m).

(** An operation that cannot raise. *)
Definition call {R} (o : op R) : prog R := Do o Ret.

(** An operation whose exception, if any, is raised here. *)
Definition perform {R} (o : op (exn + R)) : prog R :=
  Do o (fun r => match r with inl e => Raise e | inr x => Ret x end).

(** A pure step that may raise. *)
Definition lift {R} (r : exn + R) : prog R :=
  match r with inl e => Raise e | inr x => Ret x end.

(** [for x in l: body x]. *)
Fixpoint for_each {A} (l : list A) (body : A -> prog unit) : prog unit :=
  match l with
  | [] => Ret ()
  | x :: l' => body x ;; for_each l' body
  end.

(** How a run of a computation ends. *)
Inductive outcome (A : Type) :=
| Returned (a : A)
| Raised (e : exn).

Arguments Returned {A} a.
Arguments Raised {A} e.

(** ** The state the bridge runs in *)

Section World.
Context {E : Engine}.

(** Module globals of app.py, the file system ([fs], and in
    [open_error] the error the system answers when a path is opened for
    writing: a read-only file system, a missing directory), the document
    store ([db], [None] when MONGODB_URI is unset), the child processes
    ever created ([procs], indexed by handle) and the log of lock and
    engine events. *)
Record world := World {
  BACKEND_PROCESS : option pid;
  USE_MOCK_BACKEND : bool;
  MOCK_BOOKS : list doc;
  fs : gmap path node;
  open_error : path -> option exn;
  getcwd : path;
  db : option store;
  procs : pid -> proc;
  next_pid : pid;
  trace : list event;
}.

Definition log (ev : event) (w : world) : world :=
  World (BACKEND_PROCESS w) (USE_MOCK_BACKEND w) (MOCK_BOOKS w) (fs w) (open_error w) (getcwd w)
        (db w) (procs w) (next_pid w) (trace w ++ [ev]).

Definition set_BACKEND_PROCESS (h : option pid) (w : world) : world :=
  World h (USE_MOCK_BACKEND w) (MOCK_BOOKS w) (fs w) (open_error w) (getcwd w)
        (db w) (procs w) (next_pid w) (trace w).

Definition set_USE_MOCK_BACKEND (b : bool) (w : world) : world :=
  World (BACKEND_PROCESS w) b (MOCK_BOOKS w) (fs w) (open_error w) (getcwd w)
        (db w) (procs w) (next_pid w) (trace w).

Definition set_MOCK_BOOKS (l : list doc) (w : world) : world :=
  World (BACKEND_PROCESS w) (USE_MOCK_BACKEND w) l (fs w) (open_error w) (getcwd w)
        (db w) (procs w) (next_pid w) (trace w).

Definition set_fs (f : gmap path node) (w : world) : world :=
  World (BACKEND_PROCESS w) (USE_MOCK_BACKEND w) (MOCK_BOOKS w) f (open_error w) (getcwd w)
        (db w) (procs w) (next_pid w) (trace w).

Definition set_db (d : option store) (w : world) : world :=
  World (BACKEND_PROCESS w) (USE_MOCK_BACKEND w) (MOCK_BOOKS w) (fs w) (open_error w) (getcwd w)
        d (procs w) (next_pid w) (trace w).

Definition set_proc (p : pid) (st : proc) (w : world) : world :=
  World (BACKEND_PROCESS w) (USE_MOCK_BACKEND w) (MOCK_BOOKS w) (fs w) (open_error w) (getcwd w)
        (db w) (fun q => if Nat.eqb q p then st else procs w q) (next_pid w) (trace w).

Definition add_proc (st : proc) (w : world) : world :=
  World (BACKEND_PROCESS w) (USE_MOCK_BACKEND w) (MOCK_BOOKS w) (fs w) (open_error w) (getcwd w)
        (db w) (fun q => if Nat.eqb q (next_pid w) then st else procs w q)
        (S (next_pid w)) (trace w).

(** The error of [open(p, 'w')], if it fails. *)
Definition write_refused (p : path) (w : world) : option exn :=
  match fs w !! p with
  | Some Dir => Some (Exn OSError ("[Errno 21] Is a directory: '" +:+ p +:+ "'"))
  | _ => open_error w p
  end.

(** [os.path.exists]. *)
Definition path_exists (p : path) (w : world) : bool :=
  match fs w !! p with Some _ => true | None => false end.

Definition coll_attr (c : coll) : string :=
  match c with Books => "books" | Users => "users" | Transactions => "transactions" end.

(** A store operation: fails on a missing handle or an unreachable
    server, otherwise answers from the store. *)
Definition with_store {R} (c : coll) (w : world) (f : store -> R * world)
  : (exn + R) * world :=
  match db w with
  | None => (inl (no_attribute "NoneType" (coll_attr c)), w)
  | Some s =>
      if reachable s then let '(r, w') := f s in (inr r, w')
      else (inl (unreachable_error s), w)
  end.

(** [db.c.insert_many(ds)]: the server is selected first, then the
    documents are encoded, as one batch, and sent; a document that
    cannot be encoded leaves nothing inserted. The size limits of the
    server on a document and on a batch are left out. *)
Definition store_insert (c : coll) (ds : list doc) (w : world) : (exn + unit) * world :=
  match db w with
  | None => (inl (no_attribute "NoneType" (coll_attr c)), w)
  | Some s =>
      if reachable s then
        if forallb encodable ds then (inr (), set_db (Some (insert_many c ds s)) w)
        else (inl int_overflow, w)
      else (inl (unreachable_error s), w)
  end.

(** The effect of one operation on the world, and its answer. *)
Definition handle {R} (o : op R) (w : world) : R * world :=
  match o in op R return R * world with
  | LockAcquire => ((), log EvAcquire w)
  | LockRelease => ((), log EvRelease w)
  | GetBackendProcess => (BACKEND_PROCESS w, w)
  | SetBackendProcess h => ((), set_BACKEND_PROCESS h w)
  | GetUseMock => (USE_MOCK_BACKEND w, w)
  | SetUseMock b => ((), set_USE_MOCK_BACKEND b w)
  | GetMockBooks => (MOCK_BOOKS w, w)
  | SetMockBooks l => ((), set_MOCK_BOOKS l w)
  | PathExists p => (path_exists p w, w)
  | GetCwd => (getcwd w, w)
  | ReadText p =>
      match fs w !! p with
      | Some (File s) => (inr s, w)
      | Some Dir => (inl (Exn OSError ("[Errno 21] Is a directory: '" +:+ p +:+ "'")), w)
      | None => (inl (Exn OSError ("[Errno 2] No such file or directory: '" +:+ p +:+ "'")), w)
      end
  | OpenTrunc p =>
      match write_refused p w with
      | Some e => (inl e, w)
      | None => (inr (), set_fs (<[p := File ""]> (fs w)) w)
      end
  | WriteText p s =>
      match fs w !! p with
      | Some (File c) => ((), set_fs (<[p := File (c +:+ s)]> (fs w)) w)
      | _ => ((), w)
      end
  | DbConfigured =>
      match db w with
      | None => (inr false, w)
      | Some s =>
          match truth_error s with Some e => (inl e, w) | None => (inr true, w) end
      end
  | DbCount c => with_store c w (fun s => (List.length (collection c s), w))
  | DbFind c => with_store c w (fun s => (collection c s, w))
  | DbInsertMany c ds => store_insert c ds w
  | Popen args cwd =>
      match engine_spawn args cwd (fs w) with
      | inl e => (inl e, log (EvSpawnFailed args cwd) w)
      | inr st => (inr (next_pid w), log (EvSpawn (next_pid w) args cwd) (add_proc st w))
      end
  | Poll p =>
      let '(r, st) := engine_poll (procs w p) in
      (r, log (EvPoll p r) (set_proc p st w))
  | StdinWrite p s =>
      let '(r, st) := engine_write s (procs w p) in
      (r, log (write_event p s r) (set_proc p st w))
  | StdinFlush p =>
      let '(r, st) := engine_flush (procs w p) in
      (r, log (flush_event p r) (set_proc p st w))
  | StdoutReadline p =>
      let '(r, st) := engine_readline (procs w p) in
      (r, log (read_event p r) (set_proc p st w))
  end.

(** Sequential reading of a computation: one thread, run to the end.
    With a single thread the lock is free whenever it is taken, so here
    the two lock operations only leave their event in the log; waiting
    for a held lock is part of [cstep] below. *)
Fixpoint run {A} (m : prog A) (w : world) : outcome A * world :=
  match m with
  | Ret a => (Returned a, w)
  | Raise e => (Raised e, w)
  | Do o k => let '(r, w') := handle o w in run (k r) w'
  end.

End World.

(** ** Module-level configuration (app.py, lines 31-63) *)

(** The paths the module computes when it is imported. [LOCAL_BOOKS] and
    [LOCAL_USERS] are data/books.csv and data/users.csv next to the
    package, [PROJECT_ROOT] is its parent directory. *)
Record config := Config {
  BOOKS_CSV : path;
  USERS_CSV : path;
  TRANS_CSV : path;
  BACKEND_EXECUTABLE : path;
  LOCAL_BOOKS : path;
  LOCAL_USERS : path;
  PROJECT_ROOT : path;
}.

(** The search for the executable on Linux: the first candidate that
    exists, and the first candidate when none does. *)
Definition locate_executable (exists_ : path -> bool) (possible_paths : list path)
  : option path :=
  match List.find exists_ possible_paths with
  | Some p => Some p
  | None => head possible_paths
  end.

Definition LF : string := String (ascii_of_nat 10) EmptyString.

(** ** Schema mapping *)

Definition BOOK_FIELDS : list string := ["ISBN"; "Title"; "Author"; "Category"; "Copies"].
Definition USER_FIELDS : list string := ["UserID"; "Name"; "Email"; "Type"].
Definition TXN_FIELDS : list string := ["TID"; "UID"; "BID"; "CID"; "Type"; "Timestamp"].

(** The row dictionary handed to [writer.writerow] for a book. *)
Definition book_row (b : doc) : list value :=
  [ doc_get "isbn" b; doc_get "title" b; doc_get "author" b;
    doc_get "category" b; doc_get_default "copies" (VInt 1) b ].

Definition user_row (u : doc) : list value :=
  [ doc_get "userID" u; doc_get "name" u; doc_get "email" u;
    doc_get_default "type" (VStr "STUDENT") u ].

(** Building the transaction row raises when [int()] rejects the
    time stamp. *)
Definition txn_row (t : doc) : exn + list value :=
  match py_int (doc_get_default "timestamp" (VInt 0) t) with
  | inl e => inl e
  | inr ts =>
      inr [ doc_get_default "tid" (VStr "TXN_INF") t; doc_get "userID" t;
            doc_get "isbn" t; doc_get_default "copyID" (VStr "") t;
            doc_get "type" t; VInt ts ]
  end.

(** [d[k] = v] on a dict in insertion order. *)
Fixpoint dict_set (k : string) (v : value) (d : doc) : doc :=
  match d with
  | [] => [(k, v)]
  | (k', v') :: d' =>
      if String.eqb k k' then (k, v) :: d' else (k', v') :: dict_set k v d'
  end.

Definition dict_of_pairs (l : list (string * value)) : doc :=
  foldl (fun d kv => dict_set kv.1 kv.2 d) [] l.

(** One dictionary of [csv.DictReader]: the cells zipped with the field
    names, missing cells filled with [None]; cells beyond the field names
    go under the key [None], which no string key reaches. *)
Definition reader_row (fieldnames row : list string) : doc :=
  dict_of_pairs (zip fieldnames (VStr <$> row)
                 ++ ((fun k => (k, VNone)) <$> drop (List.length row) fieldnames)).

(** [csv.DictReader] over the rows of the underlying reader: the first
    row gives the field names, empty rows are skipped. *)
Definition dict_reader (rows : list (list string)) : list doc :=
  match rows with
  | [] => []
  | fieldnames :: rest =>
      reader_row fieldnames <$> List.filter (fun r => negb (bool_decide (r = []))) rest
  end.

(** [row[k]]. *)
Definition row_item (k : string) (row : doc) : exn + value :=
  match doc_lookup k row with
  | Some v => inr v
  | None => inl (Exn KeyError ("'" +:+ k +:+ "'"))
  end.

Definition bind_err {A B} (r : exn + A) (f : A -> exn + B) : exn + B :=
  match r with inl e => inl e | inr a => f a end.

(** The document [initial_migration] builds from a books row. *)
Definition book_of_row (row : doc) : exn + doc :=
  bind_err (row_item "ISBN" row) (fun isbn =>
  bind_err (row_item "Title" row) (fun title =>
  bind_err (row_item "Author" row) (fun author =>
  bind_err (row_item "Category" row) (fun category =>
  bind_err (row_item "Copies" row) (fun copies =>
  bind_err (py_int copies) (fun n =>
  inr [("isbn", isbn); ("title", title); ("author", author);
       ("category", category); ("copies", VInt n)])))))).

(** The document [initial_migration] builds from a users row. *)
Definition user_of_row (row : doc) : exn + doc :=
  bind_err (row_item "UserID" row) (fun uid =>
  bind_err (row_item "Name" row) (fun name =>
  bind_err (row_item "Email" row) (fun email =>
  bind_err (row_item "Type" row) (fun ty =>
  inr [("userID", uid); ("name", name); ("email", email); ("type", ty)])))).

(** The loop [for row in reader: out.append(f(row))]: the first row that
    raises ends it. *)
Fixpoint map_rows (f : doc -> exn + doc) (rows : list doc) : exn + list doc :=
  match rows with
  | [] => inr []
  | r :: rows' =>
      bind_err (f r) (fun d => bind_err (map_rows f rows') (fun ds => inr (d :: ds)))
  end.

(** One line of the bundled snapshot as [load_mock_books] reads it:
    [None] when the line has fewer than four parts. *)
Definition mock_book_of_line (line : string) : exn + option doc :=
  let parts := split_on "," line in
  if Nat.leb 4 (List.length parts) then
    bind_err (if Nat.ltb 4 (List.length parts)
              then py_int (VStr (default "" (parts !! 4%nat)))
              else inr 1) (fun copies =>
    inr (Some [("isbn", VStr (default "" (parts !! 0%nat)));
               ("title", VStr (default "" (parts !! 1%nat)));
               ("author", VStr (default "" (parts !! 2%nat)));
               ("category", VStr (default "" (parts !! 3%nat)));
               ("copies", VInt copies)]))
  else inr None.

(** ** The bridge *)

Section Bridge.
Context {C : Codec} (cfg : config).

Definition nonempty {A} (l : list A) : bool :=
  match l with [] => false | _ => true end.

(** app.py, lines 71-125. *)
Definition rehydrate_from_mongodb : prog unit :=
  configured ← perform DbConfigured;
  if negb configured then Ret () else
  (* 1. Rehydrate Books *)
  books ← perform (DbFind Books);
  (if nonempty books then
     perform (OpenTrunc (BOOKS_CSV cfg)) ;;
     call (WriteText (BOOKS_CSV cfg) (csv_line BOOK_FIELDS)) ;;
     for_each books (fun b =>
       call (WriteText (BOOKS_CSV cfg) (csv_line (cell_text <$> book_row b))))
   else Ret ()) ;;
  (* 2. Rehydrate Users *)
  users ← perform (DbFind Users);
  (if nonempty users then
     perform (OpenTrunc (USERS_CSV cfg)) ;;
     call (WriteText (USERS_CSV cfg) (csv_line USER_FIELDS)) ;;
     for_each users (fun u =>
       call (WriteText (USERS_CSV cfg) (csv_line (cell_text <$> user_row u))))
   else Ret ()) ;;
  (* 3. Rehydrate Transactions *)
  txns ← perform (DbFind Transactions);
  if nonempty txns then
    perform (OpenTrunc (TRANS_CSV cfg)) ;;
    call (WriteText (TRANS_CSV cfg) (csv_line TXN_FIELDS)) ;;
    for_each txns (fun t =>
      row ← lift (txn_row t);
      call (WriteText (TRANS_CSV cfg) (csv_line (cell_text <$> row))))
  else
    perform (OpenTrunc (TRANS_CSV cfg)) ;;
    call (WriteText (TRANS_CSV cfg) ("TID,UID,BID,CID,Type,Timestamp" +:+ LF)).

(** The body shared by the two halves of [initial_migration]: read the
    legacy file at [p], map its rows with [of_row], insert them in [c]. *)
Definition migrate (c : coll) (p : path) (of_row : doc -> exn + doc) : prog unit :=
  n ← perform (DbCount c);
  if Nat.eqb n 0 then
    present ← call (PathExists p);
    if present then
      text ← perform (ReadText p);
      to_add ← lift (map_rows of_row (dict_reader (csv_reader text).1));
      match (csv_reader text).2 with Some e => Raise e | None => Ret () end ;;
      if nonempty to_add then perform (DbInsertMany c to_add) else Ret ()
    else Ret ()
  else Ret ().

(** app.py, lines 127-164. *)
Definition initial_migration : prog unit :=
  configured ← perform DbConfigured;
  if negb configured then Ret () else
  migrate Books (LOCAL_BOOKS cfg) book_of_row ;;
  migrate Users (LOCAL_USERS cfg) user_of_row.

(** app.py, lines 168-185. *)
Definition load_mock_books : prog unit :=
  catch
    (text ← perform (ReadText (LOCAL_BOOKS cfg));
     for_each (tail (splitlines text)) (fun line =>
       b ← lift (mock_book_of_line line);
       match b with
       | Some book => l ← call GetMockBooks; call (SetMockBooks (l ++ [book]))
       | None => Ret ()
       end))
    (fun _ => call (SetMockBooks [])).

(** app.py, lines 189-227. *)
Definition start_backend : prog unit :=
  present ← call (PathExists (BACKEND_EXECUTABLE cfg));
  if negb present then call (SetUseMock true) else
  h ← call GetBackendProcess;
  match h with
  | Some _ => Ret ()
  | None =>
      catch (initial_migration ;; rehydrate_from_mongodb)
            (fun _ => call (SetUseMock true)) ;;
      root ← call (PathExists (PROJECT_ROOT cfg));
      cwd_path ← (if root then Ret (PROJECT_ROOT cfg) else call GetCwd);
      catch
        (p ← perform (Popen [BACKEND_EXECUTABLE cfg; BOOKS_CSV cfg; USERS_CSV cfg;
                             TRANS_CSV cfg] cwd_path);
         call (SetBackendProcess (Some p)) ;;
         _ ← perform (StdoutReadline p);
         Ret ())
        (fun _ => call (SetUseMock true))
  end.

(** [BACKEND_PROCESS.attr]: the handle, or the attribute error on
    [None]. *)
Definition backend_process (attr : string) : prog pid :=
  h ← call GetBackendProcess;
  match h with
  | Some p => Ret p
  | None => Raise (no_attribute "NoneType" attr)
  end.

(** [x.get(k)] on an arbitrary value. *)
Definition py_get (x : json) (k : string) (dflt : json) : exn + json :=
  match x with
  | JObj kv => inr (default dflt (obj_lookup k kv))
  | _ => inl (no_attribute (type_name x) "get")
  end.

Definition failure (message : string) : json :=
  JObj [("success", JBool false); ("message", JStr message)].

(** app.py, lines 229-264. *)
Definition send_to_backend (payload : json) : prog json :=
  with_lock
    (catch
       (mock ← call GetUseMock;
        (if mock then
           mock_books ← call GetMockBooks;
           (if nonempty mock_books then Ret () else load_mock_books) ;;
           _ ← lift (py_get payload "action" JNull);
           Ret ()
         else Ret ()) ;;
        start_backend ;;
        (* Reset process if dead *)
        p ← backend_process "poll";
        status ← call (Poll p);
        (match status with
         | Some _ => call (SetBackendProcess None) ;; start_backend
         | None => Ret ()
         end) ;;
        p ← backend_process "stdin";
        perform (StdinWrite p (json_dumps payload +:+ LF)) ;;
        p ← backend_process "stdin";
        perform (StdinFlush p) ;;
        p ← backend_process "stdout";
        response ← perform (StdoutReadline p);
        if String.eqb response "" then
          Ret (failure "Backend not responding (Empty Output)")
        else lift (json_loads response))
       (fun e => Ret (failure (exn_str e)))).

(** app.py, lines 266-277. *)
Definition ensure_user_registered (user_id name user_type : json) : prog unit :=
  catch
    (_ ← send_to_backend (JObj [("action", JStr "add_user"); ("userID", user_id);
                                 ("name", name); ("type", user_type)]);
     Ret ())
    (fun _ => Ret ()).

(** [needle in x] for a string [needle]: substring test on a string,
    membership on a list, key test on a dict, a type error otherwise. *)
Definition py_in (needle : string) (x : json) : exn + bool :=
  match x with
  | JStr s => inr (contains needle s)
  | JArr l => inr (existsb (fun y => match y with
                                      | JStr s => String.eqb s needle
                                      | _ => false
                                      end) l)
  | JObj kv => inr (match obj_lookup needle kv with Some _ => true | None => false end)
  | _ => inl (Exn TypeError ("argument of type '" +:+ type_name x +:+ "' is not iterable"))
  end.

(** The test of line 285, with Python's short-circuit evaluation. *)
Definition is_recoverable (response msg : json) : exn + bool :=
  bind_err (py_get response "success" JNull) (fun success =>
  if negb (negb (truthy success)) then inr false else
  bind_err (py_in "User not found" msg) (fun a =>
  if a then inr true else py_in "Invalid user" msg)).

(** app.py, lines 279-291. [session] is the Flask session of the
    request. *)
Definition send_with_retry (session : list (string * json)) (payload : json)
  : prog json :=
  response ← send_to_backend payload;
  msg ← lift (py_get response "message" (JStr ""));
  recoverable ← lift (is_recoverable response msg);
  if recoverable then
    match obj_lookup "user_id" session with
    | Some user_id =>
        ensure_user_registered user_id
          (default (JStr "User") (obj_lookup "name" session))
          (default (JStr "student") (obj_lookup "user_type" session)) ;;
        (* Retry the original action *)
        send_to_backend payload
    | None => Ret response
    end
  else Ret response.

End Bridge.

Arguments book_row : simpl never.
Arguments user_row : simpl never.
Arguments txn_row : simpl never.
Arguments dict_reader : simpl never.
Arguments reader_row : simpl never.
Arguments rehydrate_from_mongodb : simpl never.
Arguments migrate : simpl never.
Arguments initial_migration : simpl never.
Arguments load_mock_books : simpl never.
Arguments start_backend : simpl never.
Arguments send_to_backend : simpl never.
Arguments ensure_user_registered : simpl never.
Arguments send_with_retry : simpl never.

(** ** A scripted engine and plain codecs, for the examples

    The examples below run the bridge against an engine whose child
    process prints the lines of its executable file, one per read, and
    against codecs cut down to what the examples exchange. *)

Module Scripted.

Record script := Script {
  exit_status : option Z;     (* what [poll()] reports *)
  pending : list string;      (* lines still to be read from stdout *)
  pipe_open : bool;           (* whether stdin still takes writes *)
}.

Definition broken_pipe : exn := Exn OSError "[Errno 32] Broken pipe".

(** The lines of a text whose line ends are LF, CR and CR LF. *)
Definition text_lines (text : string) : list string :=
  lines_go (fun c => Ascii.eqb c "010" || Ascii.eqb c "013") "" text.

Definition spawn (args : list path) (cwd : path) (files : gmap path node)
  : exn + script :=
  match args with
  | exe :: _ =>
      match files !! exe with
      | Some (File text) =>
          inr (Script None ((fun l => l +:+ LF) <$> text_lines text) true)
      | _ => inl (Exn OSError ("[Errno 2] No such file or directory: '" +:+ exe +:+ "'"))
      end
  | [] => inl (Exn OSError "empty argument vector")
  end.

#[export] Instance engine : Engine := {|
  proc := script;
  engine_spawn := spawn;
  engine_poll := fun p => (exit_status p, p);
  engine_write := fun _ p => (if pipe_open p then inr () else inl broken_pipe, p);
  engine_flush := fun p => (if pipe_open p then inr () else inl broken_pipe, p);
  engine_readline := fun p =>
    match pending p with
    | [] => (inr "", p)
    | l :: rest => (inr l, Script (exit_status p) rest (pipe_open p))
    end;
|}.

Definition DQ : string := String (ascii_of_nat 34) EmptyString.
Definition CRLF : string := String (ascii_of_nat 13) LF.

(** [json.dumps] on values whose strings need no escaping. *)
Fixpoint dumps (j : json) : string :=
  match j with
  | JNull => "null"
  | JBool b => if b then "true" else "false"
  | JInt z => pretty z
  | JStr s => DQ +:+ s +:+ DQ
  | JArr l => "[" +:+ String.concat ", " (List.map dumps l) +:+ "]"
  | JObj kv =>
      "{" +:+ String.concat ", "
                (List.map (fun '(k, v) => DQ +:+ k +:+ DQ +:+ ": " +:+ dumps v) kv)
          +:+ "}"
  end.

(** The response lines the examples decode. *)
Definition known_responses : list json :=
  [ JObj [("success", JBool true); ("message", JStr "OK")];
    JObj [("success", JBool true); ("message", JStr "User added")];
    JObj [("success", JBool false); ("message", JStr "User not found")];
    JObj [("success", JBool false); ("message", JStr "Invalid user")];
    JObj [("success", JBool false); ("message", JStr "Book not available")];
    JArr [] ].

(** [json.loads] on the known response lines; any other line the
    examples feed it is not JSON at all. *)
Definition loads (line : string) : exn + json :=
  match List.find (fun j => String.eqb (dumps j +:+ LF) line) known_responses with
  | Some j => inr j
  | None => inl (Exn JSONDecodeError "Expecting value: line 1 column 1 (char 0)")
  end.

(** [csv.reader] on text without quotes: one row per line, an empty
    line giving the empty row. *)
Definition reader (text : string) : list (list string) * option exn :=
  ((fun l => if String.eqb l "" then [] else split_on "," l) <$> text_lines text, None).

(** [csv.writer] on cells that need no quoting. *)
Definition writer_line (cells : list string) : string :=
  String.concat "," cells +:+ CRLF.

#[export] Instance codec : Codec := {|
  json_dumps := dumps;
  json_loads := loads;
  csv_reader := reader;
  csv_line := writer_line;
|}.

(** The deployment the examples use (the Linux layout). *)
Definition cfg : config := {|
  BOOKS_CSV := "/tmp/libsearch_data/books.csv";
  USERS_CSV := "/tmp/libsearch_data/users.csv";
  TRANS_CSV := "/tmp/libsearch_data/transactions.csv";
  BACKEND_EXECUTABLE := "/app/backend/library";
  LOCAL_BOOKS := "/app/data/books.csv";
  LOCAL_USERS := "/app/data/users.csv";
  PROJECT_ROOT := "/app";
|}.

Definition idle : script := Script (Some 0) [] false.

(** A world with nothing running. *)
Definition world0 (files : gmap path node) (d : option store) : world :=
  World None false [] files (fun _ => None) "/app" d (fun _ => idle) 0%nat [].

End Scripted.

(** ** Request threads

    The web layer serves each request on a thread of its own. A [pool]
    is the shared world, the thread holding [BACKEND_LOCK] (if any) and
    what remains of each thread's computation. *)

Definition is_acquire {R} (o : op R) : bool :=
  match o with LockAcquire => true | _ => false end.

Definition is_release {R} (o : op R) : bool :=
  match o with LockRelease => true | _ => false end.

Section Threads.
Context {E : Engine}.

Record pool := Pool {
  shared : world;
  holder : option nat;
  threads : list (prog json);
}.

(** Thread [t] performs its next operation. There is no step when the
    thread has finished, or when it waits for a lock that is held. *)
Definition cstep (t : nat) (s : pool) : option pool :=
  match threads s !! t with
  | Some (Do o k) =>
      if is_acquire o && match holder s with Some _ => true | None => false end
      then None
      else let '(r, w') := handle o (shared s) in
           Some (Pool w'
                   (if is_acquire o then Some t
                    else if is_release o then None else holder s)
                   (<[t := k r]> (threads s)))
  | _ => None
  end.

(** The pool after a schedule: the scheduler names a thread at each
    tick, and a thread that cannot move leaves the pool as it is. *)
Fixpoint crun (schedule : list nat) (s : pool) : pool :=
  match schedule with
  | [] => s
  | t :: rest => crun rest (default s (cstep t s))
  end.

Definition finished {A} (m : prog A) : bool :=
  match m with Do _ _ => false | _ => true end.

(** What a finished thread ended with. *)
Definition result_of {A} (m : prog A) : option (outcome A) :=
  match m with
  | Ret a => Some (Returned a)
  | Raise e => Some (Raised e)
  | Do _ _ => None
  end.

(** Running computations one after the other, each to its end. *)
Fixpoint serial {A} (ms : list (prog A)) (w : world) : list (outcome A) * world :=
  match ms with
  | [] => ([], w)
  | m :: ms' =>
      let '(o, w') := run m w in
      let '(os, w'') := serial ms' w' in
      (o :: os, w'')
  end.

End Threads.

(** ** Classes of operations *)

(** A computation all of whose operations satisfy [P]. *)
Fixpoint uses (P : forall R, op R -> Prop) {A} (m : prog A) : Prop :=
  match m with
  | Ret _ | Raise _ => True
  | Do o k => P _ o /\ forall r, uses P (k r)
  end.

Definition lock_free R (o : op R) : Prop :=
  match o with LockAcquire | LockRelease => False | _ => True end.

(** Operations on files and on the document store only. *)
Definition data_op R (o : op R) : Prop :=
  match o with
  | PathExists _ | ReadText _ | OpenTrunc _ | WriteText _ _
  | DbConfigured | DbCount _ | DbFind _ | DbInsertMany _ _ => True
  | _ => False
  end.

(** Operations that leave the document store as it is. *)
Definition store_reader R (o : op R) : Prop :=
  match o with DbInsertMany _ _ => False | _ => True end.

(** Operations that leave the collection [c] as it is. *)
Definition keeps_coll (c : coll) R (o : op R) : Prop :=
  match o with
  | DbInsertMany c' _ => c' <> c
  | _ => True
  end.

(** Operations that leave files as they are. *)
Definition file_reader R (o : op R) : Prop :=
  match o with OpenTrunc _ | WriteText _ _ => False | _ => True end.

(** Operations that touch neither the lock nor the child process. *)
Definition engine_free R (o : op R) : Prop :=
  match o with
  | LockAcquire | LockRelease | SetBackendProcess _ | Popen _ _ | Poll _
  | StdinWrite _ _ | StdinFlush _ | StdoutReadline _ => False
  | _ => True
  end.

Section Relations.
Context {E : Engine}.

(** The engine side of the world is as it was. *)
Definition same_engine (w w' : world) : Prop :=
  BACKEND_PROCESS w' = BACKEND_PROCESS w /\ procs w' = procs w /\
  next_pid w' = next_pid w /\ getcwd w' = getcwd w /\ trace w' = trace w.

(** The content of collection [c], when a store is configured. *)
Definition coll_of (c : coll) (w : world) : option (list doc) :=
  collection c <$> db w.

End Relations.

(** ** Shapes of event sequences *)

Section Shapes.
Context {C : Codec}.

(** The event of the read that consumes the readiness banner of [q]. *)
Definition is_banner_read (q : pid) (ev : event) : Prop :=
  match ev with
  | EvReadline q' _ | EvReadlineFailed q' => q' = q
  | _ => False
  end.

(** One request/response exchange with process [q]: the events it
    leaves and the response the caller gets. *)
Inductive exchange (q : pid) (line : string) : list event -> json -> Prop :=
| exchange_write_failed e :
    exchange q line [EvWriteFailed q line] (failure (exn_str e))
| exchange_flush_failed e :
    exchange q line [EvWrite q line; EvFlushFailed q] (failure (exn_str e))
| exchange_read_failed e :
    exchange q line [EvWrite q line; EvFlush q; EvReadlineFailed q] (failure (exn_str e))
| exchange_empty :
    exchange q line [EvWrite q line; EvFlush q; EvReadline q ""]
      (failure "Backend not responding (Empty Output)")
| exchange_undecodable resp e :
    resp <> "" -> json_loads resp = inl e ->
    exchange q line [EvWrite q line; EvFlush q; EvReadline q resp] (failure (exn_str e))
| exchange_decoded resp j :
    resp <> "" -> json_loads resp = inr j ->
    exchange q line [EvWrite q line; EvFlush q; EvReadline q resp] j.

End Shapes.

(** Counting in an event sequence. *)
Definition is_write (ev : event) : bool :=
  match ev with EvWrite _ _ | EvWriteFailed _ _ => true | _ => false end.

Definition is_read (ev : event) : bool :=
  match ev with EvReadline _ _ | EvReadlineFailed _ => true | _ => false end.

Definition is_spawn (ev : event) : bool :=
  match ev with EvSpawn _ _ _ | EvSpawnFailed _ _ => true | _ => false end.

Definition is_lock_event (ev : event) : bool :=
  match ev with EvAcquire | EvRelease => true | _ => false end.

Definition count (f : event -> bool) (evs : list event) : nat :=
  List.length (List.filter f evs).

(** ** Fragments of the bridge, named for the proofs

    Each is a piece of a function above, cut out as it stands there. *)

(** Operations of the mock prelude of [send_to_backend]. *)
Definition mock_op R (o : op R) : Prop :=
  match o with
  | GetMockBooks | SetMockBooks _ | ReadText _ => True
  | _ => False
  end.

(** Operations of the start-up synchronisation, its handler included. *)
Definition sync_op R (o : op R) : Prop :=
  match o with
  | PathExists _ | ReadText _ | OpenTrunc _ | WriteText _ _
  | DbConfigured | DbCount _ | DbFind _ | DbInsertMany _ _ | SetUseMock _ => True
  | _ => False
  end.

Section Fragments.
Context {C : Codec} (cfg : config).

(** The [try] block of [start_backend], lines 199-201. *)
Definition startup_sync : prog unit :=
  initial_migration cfg ;; rehydrate_from_mongodb cfg.

(** The [try ... except] of [start_backend], lines 199-204. *)
Definition guarded_sync : prog unit :=
  catch startup_sync (fun _ => call (SetUseMock true)).

Definition backend_args : list path :=
  [BACKEND_EXECUTABLE cfg; BOOKS_CSV cfg; USERS_CSV cfg; TRANS_CSV cfg].

(** [start_backend], lines 206-227. *)
Definition launch : prog unit :=
  root ← call (PathExists (PROJECT_ROOT cfg));
  cwd_path ← (if root then Ret (PROJECT_ROOT cfg) else call GetCwd);
  catch
    (p ← perform (Popen backend_args cwd_path);
     call (SetBackendProcess (Some p)) ;;
     _ ← perform (StdoutReadline p);
     Ret ())
    (fun _ => call (SetUseMock true)).

(** [send_to_backend], lines 235-238: the branch taken in mock mode. *)
Definition mock_prelude (payload : json) : prog unit :=
  mock_books ← call GetMockBooks;
  (if nonempty mock_books then Ret () else load_mock_books cfg) ;;
  _ ← lift (py_get payload "action" JNull);
  Ret ().

(** [send_to_backend], lines 254-261. *)
Definition exchange_prog (payload : json) : prog json :=
  p ← backend_process "stdin";
  perform (StdinWrite p (json_dumps payload +:+ LF)) ;;
  p ← backend_process "stdin";
  perform (StdinFlush p) ;;
  p ← backend_process "stdout";
  response ← perform (StdoutReadline p);
  if String.eqb response "" then
    Ret (failure "Backend not responding (Empty Output)")
  else lift (json_loads response).

(** [send_to_backend], lines 248-261. *)
Definition reset_and_exchange (payload : json) : prog json :=
  p ← backend_process "poll";
  status ← call (Poll p);
  (match status with
   | Some _ => call (SetBackendProcess None) ;; start_backend cfg
   | None => Ret ()
   end) ;;
  exchange_prog payload.

(** The handler of [send_to_backend], line 264. *)
Definition on_exception (e : exn) : prog json := Ret (failure (exn_str e)).

(** The payload [ensure_user_registered] sends. *)
Definition add_user_payload (user_id name user_type : json) : json :=
  JObj [("action", JStr "add_user"); ("userID", user_id);
        ("name", name); ("type", user_type)].

End Fragments.

Arguments startup_sync : simpl never.
Arguments guarded_sync : simpl never.
Arguments launch : simpl never.
Arguments mock_prelude : simpl never.
Arguments exchange_prog : simpl never.
Arguments reset_and_exchange : simpl never.

(** A computation that cannot end by raising. *)
Fixpoint no_raise {A} (m : prog A) : Prop :=
  match m with
  | Ret _ => True
  | Raise _ => False
  | Do _ k => forall r, no_raise (k r)
  end.

Section LaunchWorld.
Context {E : Engine}.

(** The working directory [start_backend] hands to [Popen]. *)
Definition launch_cwd (cfg : config) (w : world) : path :=
  if path_exists (PROJECT_ROOT cfg) w then PROJECT_ROOT cfg else getcwd w.

(** The world once [Popen] has answered with a process in state [st]
    and its first line has been read, with answer [r] and new state
    [st']. *)
Definition started (cfg : config) (w : world) (st st' : proc) (r : exn + string) : world :=
  let q := next_pid w in
  let w1 := log (EvSpawn q (backend_args cfg) (launch_cwd cfg w)) (add_proc st w) in
  let w2 := log (read_event q r) (set_proc q st' (set_BACKEND_PROCESS (Some q) w1)) in
  match r with inl _ => set_USE_MOCK_BACKEND true w2 | inr _ => w2 end.

End LaunchWorld.

(** What an attempt to launch the engine as process [q] leaves in the
    log, and the handle [BACKEND_PROCESS] holds afterwards. *)
Inductive launch_events (q : pid) : list event -> option pid -> Prop :=
| launch_spawn_failed args cwd :
    launch_events q [EvSpawnFailed args cwd] None
| launch_spawned args cwd banner :
    is_banner_read q banner ->
    launch_events q [EvSpawn q args cwd; banner] (Some q).

(** What one call of [start_backend] leaves in the log, given the
    handle [h0] it finds, and the handle afterwards. *)
Inductive start_events (h0 : option pid) : list event -> option pid -> Prop :=
| start_nothing : start_events h0 [] h0
| start_launch q evs h : launch_events q evs h -> start_events h0 evs h.

Section CallShape.
Context {C : Codec}.

(** The events of one [send_to_backend] call between taking and
    releasing the lock, and its response: [h0] is the handle on entry,
    [line] the request line. *)
Inductive call_body (h0 : option pid) (line : string) : list event -> json -> Prop :=
| body_prelude_failed e :
    call_body h0 line [] (failure (exn_str e))
| body_no_process evs :
    start_events h0 evs None ->
    call_body h0 line evs (failure (exn_str (no_attribute "NoneType" "poll")))
| body_alive evs p xs r :
    start_events h0 evs (Some p) ->
    exchange p line xs r ->
    call_body h0 line (evs ++ EvPoll p None :: xs) r
| body_restart_failed evs p code evs' :
    start_events h0 evs (Some p) ->
    start_events None evs' None ->
    call_body h0 line (evs ++ EvPoll p (Some code) :: evs')
      (failure (exn_str (no_attribute "NoneType" "stdin")))
| body_restarted evs p code evs' q xs r :
    start_events h0 evs (Some p) ->
    start_events None evs' (Some q) ->
    exchange q line xs r ->
    call_body h0 line (evs ++ EvPoll p (Some code) :: evs' ++ xs) r.

End CallShape.

(** The events of one [send_to_backend] call before its exchange, that
    is lines 246-252: what [start_backend] logs, the liveness check,
    and after a check that finds the process gone what the second
    [start_backend] logs. [h0] is the handle on entry, the last index
    the handle the exchange is left with. *)
Inductive call_setup (h0 : option pid) : list event -> option pid -> Prop :=
| setup_no_process evs :
    start_events h0 evs None ->
    call_setup h0 evs None
| setup_alive evs p :
    start_events h0 evs (Some p) ->
    call_setup h0 (evs ++ [EvPoll p None]) (Some p)
| setup_restart evs p code evs' h :
    start_events h0 evs (Some p) ->
    start_events None evs' h ->
    call_setup h0 (evs ++ EvPoll p (Some code) :: evs') h.

(** An engine process that came up. *)
Definition is_spawned (ev : event) : bool :=
  match ev with EvSpawn _ _ _ => true | _ => false end.

(** ** Vocabulary of the specification *)

(** A protocol response: a mapping with a boolean [success] and a
    string [message]. *)
Definition is_response (j : json) : bool :=
  match j with
  | JObj kv =>
      match obj_lookup "success" kv, obj_lookup "message" kv with
      | Some (JBool _), Some (JStr _) => true
      | _, _ => false
      end
  | _ => false
  end.

(** One of the two recoverable markers occurs in the message. *)
Definition has_marker (message : string) : bool :=
  contains "User not found" message || contains "Invalid user" message.

Definition EMPTY_OUTPUT : json := failure "Backend not responding (Empty Output)".

(** Number of [send_to_backend] calls in an event sequence: each takes
    the lock once. *)
Definition calls (evs : list event) : nat :=
  count (fun ev => match ev with EvAcquire => true | _ => false end) evs.

Section Tables.
Context {C : Codec}.

(** A flat file: the header line, then one line per row. *)
Definition csv_table (fieldnames : list string) (rows : list (list value)) : string :=
  csv_line fieldnames +:+
  String.concat "" ((fun r => csv_line (cell_text <$> r)) <$> rows).

End Tables.

(** [str.upper] on ASCII letters (app.py, line 323). *)
Definition upper_char (c : ascii) : ascii :=
  let n := nat_of_ascii c in
  if (Nat.leb 97 n && Nat.leb n 122)%bool then ascii_of_nat (n - 32) else c.

Fixpoint upper (s : string) : string :=
  match s with
  | EmptyString => EmptyString
  | String c rest => String (upper_char c) (upper rest)
  end.

(** The users document with every field as its column has it. *)
Definition user_doc (row : doc) : doc :=
  [("userID", doc_get "UserID" row); ("name", doc_get "Name" row);
   ("email", doc_get "Email" row); ("type", doc_get "Type" row)].

(** The rows of the transactions file, when every time stamp converts. *)
Fixpoint txn_rows (txns : list doc) : exn + list (list value) :=
  match txns with
  | [] => inr []
  | t :: ts =>
      bind_err (txn_row t) (fun r => bind_err (txn_rows ts) (fun rs => inr (r :: rs)))
  end.

(** The rows of the legacy file that carry data. *)
Definition data_rows (rows : list (list string)) : list (list string) :=
  List.filter (fun r => negb (bool_decide (r = []))) rows.

Section DumpFragments.
Context {C : Codec}.

(** The body of one [with open(p, 'w')] block of
    [rehydrate_from_mongodb]: header first, then a line per document. *)
Definition dump_table {A} (p : path) (fieldnames : list string) (docs : list A)
    (line : A -> string) : prog unit :=
  perform (OpenTrunc p) ;;
  call (WriteText p (csv_line fieldnames)) ;;
  for_each docs (fun d => call (WriteText p (line d))).

(** The same for transactions, whose rows may fail to build. *)
Definition dump_txns (p : path) (txns : list doc) : prog unit :=
  perform (OpenTrunc p) ;;
  call (WriteText p (csv_line TXN_FIELDS)) ;;
  for_each txns (fun t =>
    row ← lift (txn_row t);
    call (WriteText p (csv_line (cell_text <$> row)))).

(** The [else] block of lines 122-125: the file is one written text. *)
Definition write_text (p : path) (text : string) : prog unit :=
  perform (OpenTrunc p) ;; call (WriteText p text).

End DumpFragments.

Arguments write_text : simpl never.
Arguments dump_table : simpl never.
Arguments dump_txns : simpl never.

(** The identity [send_with_retry] re-registers: the session's user id
    with the defaults of line 287 for a missing name or role. *)
Definition session_identity (session : list (string * json)) : option json :=
  match obj_lookup "user_id" session with
  | Some user_id =>
      Some (add_user_payload user_id
              (default (JStr "User") (obj_lookup "name" session))
              (default (JStr "student") (obj_lookup "user_type" session)))
  | None => None
  end.

(** The events a run from [w] to [w'] added to the log. *)
Definition new_events {E : Engine} (w w' : world) : list event :=
  drop (List.length (trace w)) (trace w').

(** ** Calls in a log of interleaved threads *)

(** Reading a log from the left: [open] tells whether a call holds the
    lock. A call opens with [EvAcquire] and closes with [EvRelease]; any
    other event must fall inside an open call. The result is the state
    at the end of the log, [None] if the log breaks that discipline. *)
Fixpoint well_bracketed (open : bool) (evs : list event) : option bool :=
  match evs with
  | [] => Some open
  | EvAcquire :: rest => if open then None else well_bracketed true rest
  | EvRelease :: rest => if open then well_bracketed false rest else None
  | _ :: rest => if open then well_bracketed true rest else None
  end.

(** A thread that has not yet taken the lock for its call. *)
Definition waiting {A} (m : prog A) : Prop :=
  exists body, m = with_lock body /\ uses lock_free body.

(** A thread inside its call, between taking and releasing the lock. *)
Definition inside {A} (m : prog A) : Prop :=
  exists body, m = releasing body /\ uses lock_free body.

Section PoolInvariant.
Context {E : Engine}.

Definition lock_held (s : pool) : bool :=
  match holder s with Some _ => true | None => false end.

(** Running the calls [ms] from [w0] one after the other, each to its
    end: [order] lists the threads in the order they ran, [outs] what
    each ended with, and the last component is the world they leave. *)
Inductive history (w0 : world) (ms : list (prog json))
  : list nat -> list (outcome json) -> world -> Prop :=
| history_nil : history w0 ms [] [] w0
| history_snoc order outs wd i m o w' :
    history w0 ms order outs wd ->
    i ∉ order ->
    ms !! i = Some m ->
    run m wd = (o, w') ->
    history w0 ms (order ++ [i]) (outs ++ [o]) w'.

(** What holds of a pool started from the calls [ms] in world [w0].
    The calls completed so far, in the order they took the lock, make a
    [history]. The holder is inside its call, and finishing that call
    alone from here gives what the whole call gives after that history.
    Every other thread is still waiting as it was started, or has
    finished with the outcome the history gives it. With the lock free
    the shared world is the world of the history. The log is a sequence
    of whole calls with at most the holder's call open at the end. *)
Definition pool_inv (w0 : world) (ms : list (prog json)) (s : pool) : Prop :=
  exists order outs wd,
    history w0 ms order outs wd /\
    (forall i m, threads s !! i = Some m ->
       if decide (holder s = Some i) then
         inside m /\ (i ∉ order) /\
         exists m0, ms !! i = Some m0 /\ run m (shared s) = run m0 wd
       else
         (ms !! i = Some m /\ waiting m /\ (i ∉ order)) \/
         (exists k o, order !! k = Some i /\ outs !! k = Some o /\ result_of m = Some o)) /\
    (holder s = None -> shared s = wd) /\
    (exists evs, trace (shared s) = trace w0 ++ evs /\
                 well_bracketed false evs = Some (lock_held s)).

End PoolInvariant.

(** ** Example worlds *)

Module Worlds.
Import Scripted.

Definition search : list (string * json) :=
  [("action", JStr "search"); ("query", JStr "Tolkien"); ("type", JStr "author")].

Definition issue : json :=
  JObj [("action", JStr "issue"); ("userID", JStr "u1"); ("isbn", JStr "9780261103573")].

Definition candidates : list path :=
  ["/app/backend/library"; "/srv/backend/library"; "/srv/library"].

Definition say (j : json) : string := dumps j +:+ LF.

Definition ok : json := JObj [("success", JBool true); ("message", JStr "OK")].
Definition user_added : json :=
  JObj [("success", JBool true); ("message", JStr "User added")].
Definition user_not_found : json :=
  JObj [("success", JBool false); ("message", JStr "User not found")].

(** Nothing installed, nothing running, no store. *)
Definition bare : world := world0 ∅ None.

(** An executable that prints its banner and then answers [ok] once. *)
Definition answering : string := "Library System Ready" +:+ LF +:+ say ok.

(** An executable that prints its banner and then the JSON list []. *)
Definition answering_list : string := "Library System Ready" +:+ LF +:+ say (JArr []).

Definition installed (text : string) : gmap path node :=
  {[ BACKEND_EXECUTABLE cfg := File text ]}.

(** A process is recorded under handle 0, in state [st]. *)
Definition recorded (files : gmap path node) (st : script) : world :=
  World (Some 0%nat) false [] files (fun _ => None) "/app" None (fun _ => st) 1%nat [].

(** The engine has forgotten the user: it answers the request with
    "User not found", the registration with "User added" and the second
    attempt with [ok]. *)
Definition forgetful : world :=
  recorded (installed answering)
    (Script None [say user_not_found; say user_added; say ok] true).

Definition session : list (string * json) :=
  [("user_id", JStr "u1"); ("name", JStr "Ann"); ("user_type", JStr "student")].

(** The recorded process has exited with status 1. *)
Definition crashed : world := recorded (installed answering) (Script (Some 1) [] false).

(** The recorded process is alive but has closed its output. *)
Definition silent : world := recorded (installed answering) (Script None [] true).

Definition a_book : doc :=
  [("isbn", VStr "9780261103573"); ("title", VStr "The Hobbit");
   ("author", VStr "Tolkien"); ("category", VStr "Fantasy"); ("copies", VInt 3)].

Definition no_such_server : exn := Exn StoreError "localhost:27017: connection refused".

(** A catalogue of one book, no users, no transactions. *)
Definition one_book : store := Store true no_such_server None [a_book] [] [].

Definition empty_store : store := Store true no_such_server None [] [] [].

Definition stale_books : string :=
  "ISBN,Title,Author,Category,Copies" +:+ CRLF +:+ "111,Old,Nobody,None,1" +:+ CRLF.

Definition legacy_users : string :=
  "UserID,Name,Email,Type" +:+ LF +:+
  "u1,Ann,ann@library.edu,student" +:+ LF +:+
  "u2,Bob,bob@library.edu,faculty" +:+ LF +:+
  "u3,Cy,cy@library.edu,student" +:+ LF.

(** The data rows of [legacy_users]. *)
Definition legacy_rows : list (list string) :=
  [ ["u1"; "Ann"; "ann@library.edu"; "student"];
    ["u2"; "Bob"; "bob@library.edu"; "faculty"];
    ["u3"; "Cy"; "cy@library.edu"; "student"] ].

(** An empty store, and a books flat file left over from an earlier
    run. *)
Definition leftover : world :=
  world0 {[ BOOKS_CSV cfg := File stale_books ]} (Some empty_store).

(** One book in the store, no flat files yet. *)
Definition fresh : world := world0 ∅ (Some one_book).

(** An empty users collection and a legacy users file of three rows. *)
Definition to_migrate : world :=
  world0 {[ LOCAL_USERS cfg := File legacy_users ]} (Some empty_store).

(** No store configured, the engine installed. *)
Definition storeless : world := world0 (installed answering) None.

(** The store of [to_migrate] behind a handle without a truth value. *)
Definition no_truth_value : exn :=
  Exn NotImplementedError
      "Database objects do not implement truth value testing or bool()".

Definition strict : world :=
  world0 {[ LOCAL_USERS cfg := File legacy_users ]}
         (Some (Store true no_such_server (Some no_truth_value) [] [] [])).

(** Two requests made at the same time, and a scheduler that gives the
    two threads one step each in turn. *)
Definition two_calls : list (prog json) :=
  [send_to_backend cfg (JObj search); send_to_backend cfg issue].

Definition alternate : list nat := List.concat (replicate 40 [0; 1]%nat).

End Worlds.

(** ** Further classes, fragments and closed forms *)

(** Operations on the recorded process and its pipes. *)
Definition pipe_op R (o : op R) : Prop :=
  match o with
  | GetBackendProcess | Poll _ | StdinWrite _ _ | StdinFlush _ | StdoutReadline _ => True
  | _ => False
  end.

Section Sites.
Context {E : Engine}.

(** Everything but the states of the child processes and the log is as
    it was. *)
Definition same_site (w w' : world) : Prop :=
  BACKEND_PROCESS w' = BACKEND_PROCESS w /\
  USE_MOCK_BACKEND w' = USE_MOCK_BACKEND w /\
  MOCK_BOOKS w' = MOCK_BOOKS w /\
  fs w' = fs w /\ open_error w' = open_error w /\ getcwd w' = getcwd w /\
  db w' = db w /\ next_pid w' = next_pid w.

End Sites.


(** The books [load_mock_books] gathers from the lines of the snapshot,
    or the exception of the first line that fails. *)
Fixpoint snapshot_books (lines : list string) : exn + list doc :=
  match lines with
  | [] => inr []
  | line :: rest =>
      bind_err (mock_book_of_line line) (fun b =>
      bind_err (snapshot_books rest) (fun bs =>
      inr (match b with Some book => book :: bs | None => bs end)))
  end.

(** The body of the loop of [load_mock_books], lines 175-183. *)
Definition gather_line (line : string) : prog unit :=
  b ← lift (mock_book_of_line line);
  match b with
  | Some book => l ← call GetMockBooks; call (SetMockBooks (l ++ [book]))
  | None => Ret ()
  end.

Arguments gather_line : simpl never.

Section Inserted.
Context {C : Codec}.

(** What [migrate] gathers from the text of a legacy file: the
    documents of its rows, or the exception that ends the loop. *)
Definition to_insert (of_row : doc -> exn + doc) (text : string) : exn + list doc :=
  bind_err (map_rows of_row (dict_reader (csv_reader text).1)) (fun to_add =>
  match (csv_reader text).2 with Some e => inl e | None => inr to_add end).

(** A collection [migrate] has nothing to add to: it holds documents,
    or the legacy file is missing, or the file has no data rows. *)
Definition settled (c : coll) (p : path) (of_row : doc -> exn + doc)
    (s : store) (files : gmap path node) : Prop :=
  collection c s <> [] \/ files !! p = None \/
  exists text, files !! p = Some (File text) /\ to_insert of_row text = inr [].

End Inserted.


Section Stages.
Context {C : Codec} (cfg : config).

(** The three blocks of [rehydrate_from_mongodb], lines 77-91, 93-105
    and 107-125. *)
Definition stage_books : prog unit :=
  books ← perform (DbFind Books);
  if nonempty books
  then dump_table (BOOKS_CSV cfg) BOOK_FIELDS books
         (fun b => csv_line (cell_text <$> book_row b))
  else Ret ().

Definition stage_users : prog unit :=
  users ← perform (DbFind Users);
  if nonempty users
  then dump_table (USERS_CSV cfg) USER_FIELDS users
         (fun u => csv_line (cell_text <$> user_row u))
  else Ret ().

Definition stage_txns : prog unit :=
  txns ← perform (DbFind Transactions);
  if nonempty txns then dump_txns (TRANS_CSV cfg) txns
  else write_text (TRANS_CSV cfg) ("TID,UID,BID,CID,Type,Timestamp" +:+ LF).

(** The files once the block of a collection is over: its flat file
    rewritten if the collection holds documents. *)
Definition staged (p : path) (fieldnames : list string) (row : doc -> list value)
    (docs : list doc) (files : gmap path node) : gmap path node :=
  if nonempty docs then <[p := File (csv_table fieldnames (row <$> docs))]> files
  else files.

(** The transactions file as the last block leaves it when every row
    builds. *)
Definition staged_txns (rows : list (list value)) (files : gmap path node)
  : gmap path node :=
  <[TRANS_CSV cfg :=
      File (if nonempty rows then csv_table TXN_FIELDS rows
            else "TID,UID,BID,CID,Type,Timestamp" +:+ LF)]> files.

End Stages.

Arguments staged_txns : simpl never.
Arguments stage_books : simpl never.
Arguments stage_users : simpl never.
Arguments stage_txns : simpl never.

(** The rows of the transactions that come before the first one whose
    row fails to build. *)
Fixpoint txn_prefix (txns : list doc) : list (list value) :=
  match txns with
  | [] => []
  | t :: ts =>
      match txn_row t with
      | inl _ => []
      | inr r => r :: txn_prefix ts
      end
  end.

Section Rehydrated.
Context {C : Codec} (cfg : config).

(** The files the rehydration pass leaves for the store [s]: the three
    blocks in order, the last one cut short at the first transaction
    whose row fails to build. *)
Definition rehydrated (s : store) (files : gmap path node) : gmap path node :=
  let files2 :=
    staged (USERS_CSV cfg) USER_FIELDS user_row (users s)
      (staged (BOOKS_CSV cfg) BOOK_FIELDS book_row (books s) files) in
  match txn_rows (transactions s) with
  | inr rows => staged_txns cfg rows files2
  | inl _ =>
      <[TRANS_CSV cfg := File (csv_table TXN_FIELDS (txn_prefix (transactions s)))]> files2
  end.

End Rehydrated.


Section Steps.
Context {E : Engine}.

(** The number of operations a computation performs from [w]. *)
Fixpoint steps {A} (m : prog A) (w : world) : nat :=
  match m with
  | Do o k => S (steps (k (handle o w).1) (handle o w).2)
  | _ => 0%nat
  end.

(** What is left of a computation once it has run to its end. *)
Definition ended {A} (m : prog A) (w : world) : prog A :=
  match (run m w).1 with
  | Returned a => Ret a
  | Raised e => Raise e
  end.

(** The thread that holds the lock is one of the pool. *)
Definition holder_valid (s : pool) : Prop :=
  forall i, holder s = Some i -> (i < List.length (threads s))%nat.

End Steps.


(** ** The web layer (app.py, lines 293-461)

    The view functions, one Flask request each. A view reads and
    writes the session of the request and the world, calls the bridge,
    and returns what the source returns or raises what it raises. *)

Module Views.

(** What a view function returns: [jsonify(body)] with its status code
    (200 when the source gives none), [redirect(location)], or
    [render_template(template, **context)]. *)
Inductive reply :=
| Jsonify (body : json) (status : nat)
| Redirect (location : string)
| Render (template : string) (context : list (string * json)).

(** [session[k] = v] on a mapping in insertion order. *)
Fixpoint obj_set (k : string) (v : json) (kv : list (string * json))
  : list (string * json) :=
  match kv with
  | [] => [(k, v)]
  | (k', v') :: kv' =>
      if String.eqb k k' then (k, v) :: kv' else (k', v') :: obj_set k v kv'
  end.

(** [k in session]. *)
Definition has_key (k : string) (kv : list (string * json)) : bool :=
  match obj_lookup k kv with Some _ => true | None => false end.

(** [session.get(k)]. *)
Definition item (k : string) (kv : list (string * json)) : json :=
  default JNull (obj_lookup k kv).

(** The stored value of a JSON scalar; a list, a mapping and an integer
    beyond eight bytes have none in the document model. *)
Definition bson (j : json) : option value :=
  match j with
  | JNull => Some VNone
  | JBool b => Some (VBool b)
  | JInt z => if int64 z then Some (VInt z) else None
  | JStr s => Some (VStr s)
  | JArr _ | JObj _ => None
  end.

(** [str(x)] as an f-string formats a JSON scalar. *)
Definition py_str (j : json) : option string :=
  match j with
  | JNull => Some "None"
  | JBool b => Some (if b then "True" else "False")
  | JInt z => Some (pretty z)
  | JStr s => Some s
  | JArr _ | JObj _ => None
  end.

Definition is_ascii (s : string) : bool :=
  forallb (fun c => Nat.ltb (nat_of_ascii c) 128) (list_ascii_of_string s).

(** [x.upper()]: defined on strings only, and modelled on ASCII
    strings only. *)
Definition py_upper (j : json) : exn + option string :=
  match j with
  | JStr s => inr (if is_ascii s then Some (upper s) else None)
  | _ => inl (no_attribute (type_name j) "upper")
  end.

(** *** The store operations of the views *)

(** A field matches a query value when it holds that value; a missing
    field matches [None]. *)
Definition field_matches (k : string) (v : value) (d : doc) : bool :=
  match doc_lookup k d with
  | Some x => bool_decide (x = v)
  | None => bool_decide (v = VNone)
  end.

(** [$inc]: a missing field is created with the amount, an integer is
    increased by it as long as the sum fits, anything else is refused
    with [refused]. *)
Definition inc_field (refused : exn) (k : string) (n : Z) (d : doc) : exn + doc :=
  match doc_lookup k d with
  | None => inr (dict_set k (VInt n) d)
  | Some (VInt z) =>
      if int64 (z + n) then inr (dict_set k (VInt (z + n)) d) else inl refused
  | Some _ => inl refused
  end.

(** [$set] of several fields, in the order given. *)
Definition set_fields (fields : list (string * value)) (d : doc) : doc :=
  foldl (fun d kv => dict_set kv.1 kv.2 d) d fields.

(** [update_one] changes one document at most. The first document
    that [sel] selects, in the order [find] lists the collection, is
    replaced by what [upd] makes of it; [None] when no document is
    selected. *)
Fixpoint update_first (sel : doc -> bool) (upd : doc -> exn + doc) (l : list doc)
  : exn + option (list doc) :=
  match l with
  | [] => inr None
  | d :: ds =>
      if sel d then
        match upd d with
        | inl e => inl e
        | inr d' => inr (Some (d' :: ds))
        end
      else
        match update_first sel upd ds with
        | inl e => inl e
        | inr None => inr None
        | inr (Some ds') => inr (Some (d :: ds'))
        end
  end.

Definition set_collection (c : coll) (l : list doc) (s : store) : store :=
  match c with
  | Books =>
      Store (reachable s) (unreachable_error s) (truth_error s)
            l (users s) (transactions s)
  | Users =>
      Store (reachable s) (unreachable_error s) (truth_error s)
            (books s) l (transactions s)
  | Transactions =>
      Store (reachable s) (unreachable_error s) (truth_error s)
            (books s) (users s) l
  end.

(** [db.c.update_one({k: v}, {"$inc": {field: n}})]. *)
Definition update_one_inc (refused : exn) (c : coll) (k : string) (v : value)
    (field : string) (n : Z) (s : store) : exn + store :=
  match update_first (field_matches k v) (inc_field refused field n) (collection c s) with
  | inl e => inl e
  | inr None => inr s
  | inr (Some l) => inr (set_collection c l s)
  end.

(** [db.c.update_one({k: v}, {"$set": fields}, upsert=True)]: without a
    match the document made of the query and of the fields is
    inserted. *)
Definition update_one_upsert (c : coll) (k : string) (v : value)
    (fields : list (string * value)) (s : store) : store :=
  match update_first (field_matches k v) (fun d => inr (set_fields fields d))
          (collection c s) with
  | inr (Some l) => set_collection c l s
  | _ => insert_many c [set_fields fields [(k, v)]] s
  end.

Declare Scope view_scope.
Delimit Scope view_scope with view.

Section ViewFunctions.
Context {E : Engine} {C : Codec} (cfg : config).

(** The [WriteError] of the server for an [$inc] it refuses. *)
Context (write_error : exn).

(** The run of a view from a session and a world. [None] is a run
    that leaves the model: a list or a mapping on its way into a stored
    document or an f-string, or [upper()] on a string that is not
    ASCII. *)
Definition view (A : Type) : Type :=
  list (string * json) -> world -> option (outcome A * list (string * json) * world).

Definition vret {A} (a : A) : view A := fun ss w => Some (Returned a, ss, w).

Definition vbind {A B} (m : view A) (f : A -> view B) : view B :=
  fun ss w =>
    match m ss w with
    | Some (Returned a, ss', w') => f a ss' w'
    | Some (Raised e, ss', w') => Some (Raised e, ss', w')
    | None => None
    end.

(** A pure step that may raise. *)
Definition py {A} (r : exn + A) : view A :=
  fun ss w => Some (match r with inl e => Raised e | inr a => Returned a end, ss, w).

(** A pure step the model may lack. *)
Definition modelled {A} (o : option A) : view A :=
  fun ss w => match o with Some a => Some (Returned a, ss, w) | None => None end.

(** A call into the bridge, which reads the session of the request. *)
Definition bridge {A} (m : list (string * json) -> prog A) : view A :=
  fun ss w => let '(o, w') := run (m ss) w in Some (o, ss, w').

Definition get_session : view (list (string * json)) :=
  fun ss w => Some (Returned ss, ss, w).

Definition set_item (k : string) (v : json) : view unit :=
  fun ss w => Some (Returned (), obj_set k v ss, w).

(** [session[k]]. *)
Definition get_item (k : string) : view json :=
  fun ss w =>
    Some (match obj_lookup k ss with
          | Some v => Returned v
          | None => Raised (Exn KeyError ("'" +:+ k +:+ "'"))
          end, ss, w).

(** The truth value of [db]: the store when there is one. *)
Definition db_truth : view (option store) :=
  fun ss w =>
    Some (match db w with
          | None => Returned None
          | Some s =>
              match truth_error s with
              | Some e => Raised e
              | None => Returned (Some s)
              end
          end, ss, w).

(** A write to collection [c]: it raises while the server is out of
    reach, and when the operation is refused. *)
Definition store_write (c : coll) (f : store -> exn + store) : view unit :=
  fun ss w =>
    Some (match db w with
          | None => (Raised (no_attribute "NoneType" (coll_attr c)), ss, w)
          | Some s =>
              if reachable s then
                match f s with
                | inl e => (Raised e, ss, w)
                | inr s' => (Returned (), ss, set_db (Some s') w)
                end
              else (Raised (unreachable_error s), ss, w)
          end).

Notation "x ← m ; k" := (vbind m (fun x => k))
  (at level 20, m at level 100, k at level 200, only parsing) : view_scope.
Notation "m ;; k" := (vbind m (fun _ => k))
  (at level 100, k at level 200, only parsing, right associativity) : view_scope.
Local Open Scope view_scope.

Definition LOGGED_IN : json :=
  JObj [("success", JBool true); ("message", JStr "Login successful")].

Definition NOT_AUTHENTICATED : json :=
  JObj [("success", JBool false); ("message", JStr "Not authenticated")].

(** app.py, lines 295-297. *)
Definition index : view reply := vret (Render "login.html" []).

(** app.py, lines 299-327. *)
Definition login (data : json) : view reply :=
  user_id ← py (py_get data "userID" JNull);
  name ← py (py_get data "name" (JStr "User"));
  user_type ← py (py_get data "userType" (JStr "student"));
  (* Allow any user to login and register dynamically *)
  set_item "user_id" user_id ;;
  set_item "name" name ;;
  set_item "user_type" user_type ;;
  (* Sync with backend *)
  _ ← bridge (fun session =>
         send_with_retry cfg session
           (JObj [("action", JStr "add_user"); ("userID", user_id);
                  ("name", name); ("type", user_type)]));
  (* Sync with MongoDB *)
  d ← db_truth;
  match d with
  | Some _ =>
      uid ← modelled (bson user_id);
      nm ← modelled (bson name);
      prefix ← modelled (py_str user_id);
      ty ← py (py_upper user_type);
      ty ← modelled ty;
      store_write Users (fun s =>
        inr (update_one_upsert Users "userID" uid
               [("name", nm); ("email", VStr (prefix +:+ "@library.edu"));
                ("type", VStr ty)] s))
  | None => vret ()
  end ;;
  vret (Jsonify LOGGED_IN 200).

(** The three pages behind the login, lines 329-345. *)
Definition home : view reply :=
  session ← get_session;
  if negb (has_key "user_id" session) then vret (Redirect "/")
  else vret (Render "home.html"
               [("name", item "name" session); ("user_type", item "user_type" session)]).

Definition profile : view reply :=
  session ← get_session;
  if negb (has_key "user_id" session) then vret (Redirect "/")
  else vret (Render "profile.html"
               [("name", item "name" session); ("user_type", item "user_type" session);
                ("user_id", item "user_id" session)]).

Definition search : view reply :=
  session ← get_session;
  if negb (has_key "user_id" session) then vret (Redirect "/")
  else vret (Render "search.html"
               [("name", item "name" session); ("user_type", item "user_type" session)]).

(** app.py, lines 347-350. *)
Definition logout : view reply :=
  fun _ w => Some (Returned (Redirect "/"), [], w).

(** app.py, lines 352-359. *)
Definition api_search (data : json) : view reply :=
  query ← py (py_get data "query" JNull);
  type ← py (py_get data "type" (JStr "title"));
  response ← bridge (fun _ =>
    send_to_backend cfg
      (JObj [("action", JStr "search"); ("query", query); ("type", type)]));
  vret (Jsonify response 200).

(** The document of a transaction, lines 374-380 and 397-403. *)
Definition loan_doc (kind : string) (uid bid : value) (stamp_tid stamp : Z) : doc :=
  [("tid", VStr ("TXN_" +:+ pretty stamp_tid)); ("userID", uid); ("isbn", bid);
   ("type", VStr kind); ("timestamp", VInt stamp)].

(** The store side of an issue or a return, lines 372-380 and 395-403:
    [amount] is added to the copies of the book, and a transaction of
    the given kind is recorded. [stamp_tid] and [stamp] are the two
    readings of [int(time.time())], in the order the source takes
    them. *)
Definition record_loan (user_id isbn : json) (amount : Z) (kind : string)
    (stamp_tid stamp : Z) : view unit :=
  bid ← modelled (bson isbn);
  store_write Books (update_one_inc write_error Books "isbn" bid "copies" amount) ;;
  uid ← modelled (bson user_id);
  _ ← modelled (bson (JInt stamp));
  store_write Transactions (fun s =>
    inr (insert_many Transactions [loan_doc kind uid bid stamp_tid stamp] s)).

(** [if response.get("success") and db:]. *)
Definition succeeded_with_store (response : json) : view bool :=
  success ← py (py_get response "success" JNull);
  if truthy success then
    d ← db_truth;
    vret (match d with Some _ => true | None => false end)
  else vret false.

(** The requests of the two loan views. *)
Definition issue_payload (user_id isbn : json) : json :=
  JObj [("action", JStr "issue"); ("userID", user_id); ("isbn", isbn)].

Definition return_payload (user_id isbn : json) : json :=
  JObj [("action", JStr "return"); ("userID", user_id); ("isbn", isbn)].

(** app.py, lines 361-382. *)
Definition api_issue (data : json) (stamp_tid stamp : Z) : view reply :=
  isbn ← py (py_get data "isbn" JNull);
  user_id ← get_item "user_id";
  response ← bridge (fun session =>
    send_with_retry cfg session
      (JObj [("action", JStr "issue"); ("userID", user_id); ("isbn", isbn)]));
  (* Sync with MongoDB *)
  sync ← succeeded_with_store response;
  (if sync then
     user_id ← get_item "user_id";
     record_loan user_id isbn (-1) "ISSUE" stamp_tid stamp
   else vret ()) ;;
  vret (Jsonify response 200).

(** app.py, lines 384-405. *)
Definition api_return (data : json) (stamp_tid stamp : Z) : view reply :=
  isbn ← py (py_get data "isbn" JNull);
  user_id ← get_item "user_id";
  response ← bridge (fun session =>
    send_with_retry cfg session
      (JObj [("action", JStr "return"); ("userID", user_id); ("isbn", isbn)]));
  (* Sync with MongoDB *)
  sync ← succeeded_with_store response;
  (if sync then
     user_id ← get_item "user_id";
     record_loan user_id isbn 1 "RETURN" stamp_tid stamp
   else vret ()) ;;
  vret (Jsonify response 200).

(** app.py, lines 427-433: [isbn] is [request.args.get("isbn")]. *)
Definition api_recommendations (isbn : option string) : view reply :=
  response ← bridge (fun _ =>
    send_to_backend cfg
      (JObj [("action", JStr "recommendations");
             ("isbn", match isbn with Some s => JStr s | None => JNull end);
             ("limit", JInt 6)]));
  vret (Jsonify response 200).

(** app.py, lines 435-446: [body] is [request.get_json()]. *)
Definition api_recommendations_personalized (body : json) : view reply :=
  session ← get_session;
  if negb (has_key "user_id" session) then vret (Jsonify NOT_AUTHENTICATED 401) else
  let data := if truthy body then body else JObj [] in
  recent_isbns ← py (py_get data "recentISBNs" (JArr []));
  response ← bridge (fun session =>
    send_with_retry cfg session
      (JObj [("action", JStr "personalized_recommendations");
             ("userID", item "user_id" session);
             ("recentISBNs", recent_isbns); ("limit", JInt 6)]));
  vret (Jsonify response 200).

(** app.py, lines 448-450. *)
Definition api_undo : view reply :=
  response ← bridge (fun _ => send_to_backend cfg (JObj [("action", JStr "undo")]));
  vret (Jsonify response 200).

(** app.py, lines 452-461. *)
Definition api_profile : view reply :=
  session ← get_session;
  if negb (has_key "user_id" session) then vret (Jsonify NOT_AUTHENTICATED 401) else
  result ← bridge (fun session =>
    send_with_retry cfg session
      (JObj [("action", JStr "profile"); ("userID", item "user_id" session)]));
  vret (Jsonify result 200).

End ViewFunctions.

End Views.


(** ** Further example worlds *)

Module Scenes.
Import Scripted Worlds.

(** The engine installed, the store out of reach. *)
Definition offline : world :=
  world0 (installed answering) (Some (Store false no_such_server None [] [] [])).

(** The path of the executable is a directory: it exists and cannot
    be run. *)
Definition undeployable : world := world0 {[ BACKEND_EXECUTABLE cfg := Dir ]} None.

(** The bundled snapshot with a short line and, in [spoiled], with a
    title that holds a comma. *)
Definition snapshot : string :=
  "ISBN,Title,Author,Category,Copies" +:+ LF +:+
  "1,Dune,Herbert,SF,2" +:+ LF +:+
  "2,Emma" +:+ LF +:+
  "3,Ulysses,Joyce,Novel" +:+ LF.

Definition spoiled : string := snapshot +:+ "4,Cakes, and Ale,Maugham,Novel,1" +:+ LF.

Definition bundled (text : string) : world :=
  world0 {[ LOCAL_BOOKS cfg := File text ]} None.

(** A legacy books file whose second row has no number of copies. *)
Definition bad_books : string :=
  "ISBN,Title,Author,Category,Copies" +:+ LF +:+
  "1,Dune,Herbert,SF,2" +:+ LF +:+
  "2,Emma,Austen,Novel,many" +:+ LF.

Definition with_bad_books : world :=
  world0 {[ LOCAL_BOOKS cfg := File bad_books ]} (Some empty_store).

(** A legacy books file whose copies are written in unusual ways. *)
Definition legacy_books : string :=
  "ISBN,Title,Author,Category,Copies" +:+ LF +:+
  "1,Dune,Herbert,SF, 2" +:+ LF +:+
  "2,Emma,Austen,Novel,007" +:+ LF.

Definition legacy_book_rows : list (list string) :=
  [ ["1"; "Dune"; "Herbert"; "SF"; " 2"];
    ["2"; "Emma"; "Austen"; "Novel"; "007"] ].

Definition with_legacy_books : world :=
  world0 {[ LOCAL_BOOKS cfg := File legacy_books ]} (Some empty_store).

(** Three transactions, the second with a time stamp that is no
    number. *)
Definition loan (tid : string) (stamp : value) : doc :=
  [("tid", VStr tid); ("userID", VStr "u1"); ("isbn", VStr "9780261103573");
   ("type", VStr "ISSUE"); ("timestamp", stamp)].

Definition dated : store :=
  Store true no_such_server None [] []
        [loan "TXN_1" (VInt 1700000000); loan "TXN_2" (VStr "soon");
         loan "TXN_3" (VInt 1700000002)].

Definition with_dated : world := world0 ∅ (Some dated).

(** The recorded process is alive and answers with the given lines;
    [d] is the store. *)
Definition serving (lines : list string) (d : option store) : world :=
  World (Some 0%nat) false [] (installed answering) (fun _ => None) "/app" d
        (fun _ => Script None lines true) 1%nat [].

Definition refused : exn :=
  Exn StoreError "Cannot apply $inc to a value of non-numeric type".

Definition hobbit : list (string * json) := [("isbn", JStr "9780261103573")].

Definition ann : list (string * json) :=
  [("userID", JStr "u1"); ("name", JStr "Ann"); ("userType", JStr "faculty")].

(** The worlds two of the examples start from after a first run. *)
Definition migrated : world := (run (initial_migration cfg) to_migrate).2.

Definition staged_once : world := (run (rehydrate_from_mongodb cfg) fresh).2.

Definition booked : world := (run (startup_sync cfg) with_legacy_books).2.

Definition ann_session : list (string * json) :=
  [("user_id", JStr "u1"); ("name", JStr "Ann"); ("user_type", JStr "faculty")].

(** The world after the exchange of Ann's login, of her issue of the
    Hobbit, and of an issue the engine refuses. *)
Definition ann_added : world :=
  (run (send_with_retry cfg ann_session
          (add_user_payload (JStr "u1") (JStr "Ann") (JStr "faculty")))
       (serving [say user_added] (Some empty_store))).2.

Definition hobbit_asked (lines : list string) : world :=
  (run (send_with_retry cfg session
          (Views.issue_payload (JStr "u1") (JStr "9780261103573")))
       (serving lines (Some one_book))).2.

Definition book_not_available : json :=
  JObj [("success", JBool false); ("message", JStr "Book not available")].

(** The world after the exchange of her return of the Hobbit, from the
    world her issue left with the store [s]. *)
Definition hobbit_back (s : store) : world :=
  (run (send_with_retry cfg session
          (Views.return_payload (JStr "u1") (JStr "9780261103573")))
       (set_db (Some s) (hobbit_asked [say ok; say ok]))).2.

(** The world after the exchange of a return the engine refuses. *)
Definition hobbit_kept : world :=
  (run (send_with_retry cfg session
          (Views.return_payload (JStr "u1") (JStr "9780261103573")))
       (serving [say book_not_available] (Some one_book))).2.

(** The store is out of reach when the engine accepts the issue. *)
Definition out_of_reach : store := Store false no_such_server None [] [] [].

Definition hobbit_lost : world :=
  (run (send_with_retry cfg session
          (Views.issue_payload (JStr "u1") (JStr "9780261103573")))
       (serving [say ok] (Some out_of_reach))).2.

End Scenes.

(** ** Reasoning about runs *)

(** Case analysis on what [handle] inspects in the world [w]. *)
Ltac handle_cases w :=
  simpl;
  repeat match goal with
    | |- context [with_store] => unfold with_store
    | |- context [store_insert] => unfold store_insert
    | |- context [if forallb encodable ?ds then _ else _] => destruct (forallb encodable ds)
    | |- context [write_refused ?p w] => destruct (write_refused p w)
    | |- context [match fs w !! ?p with _ => _ end] => destruct (fs w !! p) as [[]|]
    | |- context [match db w with _ => _ end] => destruct (db w) eqn:?
    | |- context [if reachable ?s then _ else _] => destruct (reachable s)
    | |- context [match truth_error ?s with _ => _ end] => destruct (truth_error s)
    | |- context [engine_spawn ?a ?c ?f] => destruct (engine_spawn a c f)
    | |- context [engine_poll ?p] => destruct (engine_poll p)
    | |- context [engine_write ?s ?p] => destruct (engine_write s p)
    | |- context [engine_flush ?p] => destruct (engine_flush p)
    | |- context [engine_readline ?p] => destruct (engine_readline p)
    end;
  simpl.

Section RunLemmas.
Context {E : Engine}.

Lemma run_bind {A B} (m : prog A) (f : A -> prog B) (w : world) :
  run (bind m f) w =
  match run m w with
  | (Returned a, w') => run (f a) w'
  | (Raised e, w') => (Raised e, w')
  end.
Proof.
  revert w. induction m as [a | e | R o k IH]; intros w; simpl; try done.
  destruct (handle o w) as [r w']. apply IH.
Qed.

Lemma run_catch {A} (m : prog A) (h : exn -> prog A) (w : world) :
  run (catch m h) w =
  match run m w with
  | (Returned a, w') => (Returned a, w')
  | (Raised e, w') => run (h e) w'
  end.
Proof.
  revert w. induction m as [a | e | R o k IH]; intros w; simpl; try done.
  destruct (handle o w) as [r w']. apply IH.
Qed.

Lemma run_releasing {A} (m : prog A) (w : world) :
  run (releasing m) w = ((run m w).1, log EvRelease (run m w).2).
Proof.
  revert w. induction m as [a | e | R o k IH]; intros w; simpl; try done.
  destruct (handle o w) as [r w']. apply IH.
Qed.

Lemma run_with_lock {A} (m : prog A) (w : world) :
  run (with_lock m) w =
  ((run m (log EvAcquire w)).1, log EvRelease (run m (log EvAcquire w)).2).
Proof. unfold with_lock. simpl. apply run_releasing. Qed.

Lemma run_call {R} (o : op R) (w : world) :
  run (call o) w = (Returned (handle o w).1, (handle o w).2).
Proof. unfold call. simpl. by destruct (handle o w). Qed.

Lemma run_perform {R} (o : op (exn + R)) (w : world) :
  run (perform o) w =
  (match (handle o w).1 with inl e => Raised e | inr x => Returned x end, (handle o w).2).
Proof. unfold perform. simpl. destruct (handle o w) as [[e|x] w']; done. Qed.

Lemma run_lift {R} (r : exn + R) (w : world) :
  run (lift r) w = (match r with inl e => Raised e | inr x => Returned x end, w).
Proof. by destruct r. Qed.

(** Every operation only adds to the event log. *)
Lemma handle_trace {R} (o : op R) (w : world) :
  exists evs, trace (handle o w).2 = trace w ++ evs.
Proof.
  destruct o; handle_cases w;
    first [ by exists []; rewrite app_nil_r | by eexists [_] ].
Qed.

Lemma run_trace {A} (m : prog A) (w : world) :
  exists evs, trace (run m w).2 = trace w ++ evs.
Proof.
  revert w. induction m as [a | e | R o k IH]; intros w; simpl.
  - exists []. by rewrite app_nil_r.
  - exists []. by rewrite app_nil_r.
  - destruct (handle_trace o w) as [evs1 H1].
    destruct (handle o w) as [r w']. simpl in H1.
    destruct (IH r w') as [evs2 H2]. exists (evs1 ++ evs2).
    by rewrite H2, H1, app_assoc.
Qed.

Lemma new_events_app (w w' : world) (evs : list event) :
  trace w' = trace w ++ evs -> new_events w w' = evs.
Proof. intros H. unfold new_events. rewrite H. by rewrite drop_app_length. Qed.

End RunLemmas.

(** ** Classes of operations and what they preserve *)

Section UsesLemmas.
Context {A : Type} (P : forall R, op R -> Prop).

Lemma uses_Ret (a : A) : uses P (Ret a).
Proof. done. Qed.

Lemma uses_Raise (e : exn) : uses P (@Raise A e).
Proof. done. Qed.

Lemma uses_Do {R} (o : op R) (k : R -> prog A) :
  P R o -> (forall r, uses P (k r)) -> uses P (Do o k).
Proof. by split. Qed.

Lemma uses_mono (Q : forall R, op R -> Prop) (m : prog A) :
  (forall R (o : op R), P R o -> Q R o) -> uses P m -> uses Q m.
Proof.
  intros HPQ. induction m as [a | e | R o k IH]; simpl; try done.
  intros [Ho Hk]. split; auto.
Qed.

Lemma uses_bind {B} (m : prog B) (f : B -> prog A) :
  uses P m -> (forall b, uses P (f b)) -> uses P (bind m f).
Proof.
  intros Hm Hf. induction m as [b | e | R o k IH]; simpl in *; try done.
  destruct Hm as [Ho Hk]. split; auto.
Qed.

Lemma uses_catch (m : prog A) (h : exn -> prog A) :
  uses P m -> (forall e, uses P (h e)) -> uses P (catch m h).
Proof.
  intros Hm Hh. induction m as [a | e | R o k IH]; simpl in *; try done.
  destruct Hm as [Ho Hk]. split; auto.
Qed.

Lemma uses_call (o : op A) : P A o -> uses P (call o).
Proof. intros Ho. by split. Qed.

Lemma uses_perform (o : op (exn + A)) : P _ o -> uses P (perform o).
Proof. intros Ho. split; [done |]. by intros [e | x]. Qed.

Lemma uses_lift (r : exn + A) : uses P (lift r).
Proof. by destruct r. Qed.

End UsesLemmas.

Lemma uses_for_each (P : forall R, op R -> Prop) {B} (l : list B) (body : B -> prog unit) :
  (forall b, uses P (body b)) -> uses P (for_each l body).
Proof.
  intros Hb. induction l as [| b l IH]; simpl; [done |].
  apply uses_bind; auto.
Qed.

Ltac uses_tac :=
  repeat first
    [ apply uses_Ret
    | apply uses_Raise
    | apply uses_call; simpl; done
    | apply uses_perform; simpl; done
    | apply uses_lift
    | apply uses_for_each; intros
    | apply uses_bind; [| intros]
    | apply uses_catch; [| intros]
    | match goal with
      | |- uses _ (if ?b then _ else _) => destruct b
      | |- uses _ (match ?x with _ => _ end) => destruct x
      end ].

Section Frames.
Context {E : Engine}.

(** A relation that holds across every operation of a class holds
    across every computation built from the class. *)
Lemma uses_run (P : forall R, op R -> Prop) (I : world -> world -> Prop) :
  (forall w, I w w) ->
  (forall w1 w2 w3, I w1 w2 -> I w2 w3 -> I w1 w3) ->
  (forall R (o : op R) w, P R o -> I w (handle o w).2) ->
  forall A (m : prog A) w, uses P m -> I w (run m w).2.
Proof.
  intros Hrefl Htrans Hop A m. induction m as [a | e | R o k IH]; intros w Hm; simpl; auto.
  destruct Hm as [Ho Hk].
  specialize (Hop R o w Ho). destruct (handle o w) as [r w']. simpl in Hop.
  eapply Htrans; [exact Hop | by apply IH].
Qed.

Lemma engine_free_run {A} (m : prog A) (w : world) :
  uses engine_free m -> same_engine w (run m w).2.
Proof.
  apply (uses_run engine_free same_engine).
  - by intros ?.
  - unfold same_engine. intros w1 w2 w3 (-> & -> & -> & -> & ->) (-> & -> & -> & -> & ->).
    done.
  - intros R o w0 Ho. unfold same_engine.
    destruct o; simpl in Ho; try done; handle_cases w0; done.
Qed.

Lemma file_reader_run {A} (m : prog A) (w : world) :
  uses file_reader m -> fs (run m w).2 = fs w.
Proof.
  apply (uses_run file_reader (fun w w' => fs w' = fs w)).
  - by intros ?.
  - intros w1 w2 w3 H1 H2. by rewrite H2.
  - intros R o w0 Ho.
    destruct o; simpl in Ho; try done; handle_cases w0; done.
Qed.

Lemma store_reader_run {A} (m : prog A) (w : world) :
  uses store_reader m -> db (run m w).2 = db w.
Proof.
  apply (uses_run store_reader (fun w w' => db w' = db w)).
  - by intros ?.
  - intros w1 w2 w3 H1 H2. by rewrite H2.
  - intros R o w0 Ho.
    destruct o; simpl in Ho; try done; handle_cases w0; done.
Qed.

Lemma keeps_coll_run (c : coll) {A} (m : prog A) (w : world) :
  uses (keeps_coll c) m -> coll_of c (run m w).2 = coll_of c w.
Proof.
  apply (uses_run (keeps_coll c) (fun w w' => coll_of c w' = coll_of c w)).
  - by intros ?.
  - intros w1 w2 w3 H1 H2. by rewrite H2.
  - intros R o w0 Ho. unfold coll_of.
    destruct o; simpl in Ho; try done; handle_cases w0;
      try match goal with H : db _ = _ |- _ => rewrite ?H end; try done.
    simpl. f_equal. destruct c, c0; done.
Qed.

End Frames.

(** ** The pieces of the bridge, one by one *)

Section NoRaise.
Context {E : Engine}.

Lemma no_raise_Ret {A} (a : A) : no_raise (Ret a).
Proof. done. Qed.

Lemma no_raise_Do {A R} (o : op R) (k : R -> prog A) :
  (forall r, no_raise (k r)) -> no_raise (Do o k).
Proof. done. Qed.

Lemma no_raise_catch {A} (m : prog A) (h : exn -> prog A) :
  (forall e, no_raise (h e)) -> no_raise (catch m h).
Proof. intros Hh. induction m; simpl; auto. Qed.

Lemma no_raise_bind {A B} (m : prog A) (f : A -> prog B) :
  no_raise m -> (forall a, no_raise (f a)) -> no_raise (bind m f).
Proof. intros Hm Hf. induction m; simpl in *; auto. Qed.

Lemma no_raise_releasing {A} (m : prog A) : no_raise m -> no_raise (releasing m).
Proof. intros Hm. induction m; simpl in *; auto. Qed.

Lemma no_raise_call {R} (o : op R) : no_raise (call o).
Proof. done. Qed.

Lemma no_raise_run {A} (m : prog A) (w : world) :
  no_raise m -> exists a, (run m w).1 = Returned a.
Proof.
  revert w. induction m as [a | e | R o k IH]; intros w Hm; simpl in *; [by exists a | done |].
  destruct (handle o w) as [r w']. by apply IH.
Qed.

Lemma no_raise_run_unit (m : prog unit) (w : world) :
  no_raise m -> run m w = (Returned (), (run m w).2).
Proof.
  intros Hm. destruct (no_raise_run m w Hm) as [[] H].
  destruct (run m w) as [o w']. simpl in *. by subst.
Qed.

Lemma run_catch_bind {A B} (m : prog A) (f : A -> prog B) (h : exn -> prog B) (w : world) :
  run (catch (bind m f) h) w =
  match run m w with
  | (Returned a, w') => run (catch (f a) h) w'
  | (Raised e, w') => run (h e) w'
  end.
Proof.
  revert w. induction m as [a | e | R o k IH]; intros w; simpl; try done.
  destruct (handle o w) as [r w']. apply IH.
Qed.

End NoRaise.

Section WorldLemmas.
Context {E : Engine}.

Lemma set_MOCK_BOOKS_id (w : world) : set_MOCK_BOOKS (MOCK_BOOKS w) w = w.
Proof. by destruct w. Qed.

Lemma sync_id (w : world) :
  set_USE_MOCK_BACKEND (USE_MOCK_BACKEND w) (set_db (db w) (set_fs (fs w) w)) = w.
Proof. by destruct w. Qed.

(** The mock prelude only ever rebinds [MOCK_BOOKS]. *)
Lemma mock_op_run {A} (m : prog A) (w : world) :
  uses mock_op m -> exists l, (run m w).2 = set_MOCK_BOOKS l w.
Proof.
  apply (uses_run mock_op (fun w w' => exists l, w' = set_MOCK_BOOKS l w)).
  - intros w0. exists (MOCK_BOOKS w0). by rewrite set_MOCK_BOOKS_id.
  - intros w1 w2 w3 [l1 ->] [l2 ->]. by exists l2.
  - intros R o w0 Ho.
    destruct o; simpl in Ho; try done; handle_cases w0;
      try (exists (MOCK_BOOKS w0); by rewrite set_MOCK_BOOKS_id).
    by exists l.
Qed.

(** The synchronisation only changes files, the store and the mock
    flag. *)
Lemma sync_op_run {A} (m : prog A) (w : world) :
  uses sync_op m ->
  exists b f d, (run m w).2 = set_USE_MOCK_BACKEND b (set_db d (set_fs f w)).
Proof.
  apply (uses_run sync_op
           (fun w w' => exists b f d, w' = set_USE_MOCK_BACKEND b (set_db d (set_fs f w)))).
  - intros w0. exists (USE_MOCK_BACKEND w0), (fs w0), (db w0). by rewrite sync_id.
  - intros w1 w2 w3 (b1 & f1 & d1 & ->) (b2 & f2 & d2 & ->). by exists b2, f2, d2.
  - intros R o w0 Ho.
    destruct o; simpl in Ho; try done; handle_cases w0;
      try (exists (USE_MOCK_BACKEND w0), (fs w0), (db w0); by rewrite sync_id);
      try (destruct w0; do 3 eexists;
           unfold set_USE_MOCK_BACKEND, set_db, set_fs; simpl; reflexivity).
Qed.

End WorldLemmas.

Ltac no_raise_tac :=
  repeat first
    [ apply no_raise_Ret
    | apply no_raise_call
    | apply no_raise_catch; intros
    | apply no_raise_releasing
    | apply no_raise_bind; [| intros]
    | apply no_raise_Do; intros
    | match goal with
      | |- no_raise (if ?b then _ else _) => destruct b
      | |- no_raise (match ?x with _ => _ end) => destruct x
      end ].

Section Pieces.
Context {E : Engine} {C : Codec} (cfg : config).

Lemma start_backend_eq :
  start_backend cfg =
  (present ← call (PathExists (BACKEND_EXECUTABLE cfg));
   if negb present then call (SetUseMock true) else
   h ← call GetBackendProcess;
   match h with
   | Some _ => Ret ()
   | None => guarded_sync cfg ;; launch cfg
   end).
Proof. reflexivity. Qed.

Lemma send_to_backend_eq (payload : json) :
  send_to_backend cfg payload =
  with_lock
    (catch
       (mock ← call GetUseMock;
        (if mock then mock_prelude cfg payload else Ret ()) ;;
        start_backend cfg ;;
        reset_and_exchange cfg payload)
       on_exception).
Proof. reflexivity. Qed.

Lemma ensure_user_registered_eq (user_id name user_type : json) :
  ensure_user_registered cfg user_id name user_type =
  catch (_ ← send_to_backend cfg (add_user_payload user_id name user_type); Ret ())
        (fun _ => Ret ()).
Proof. reflexivity. Qed.

(** *** Classes *)

Lemma load_mock_books_mock : uses mock_op (load_mock_books cfg).
Proof. unfold load_mock_books. uses_tac. Qed.

Lemma mock_prelude_mock (payload : json) : uses mock_op (mock_prelude cfg payload).
Proof. unfold mock_prelude. uses_tac. Qed.

Lemma migrate_sync (c : coll) (p : path) (f : doc -> exn + doc) :
  uses sync_op (migrate c p f).
Proof. unfold migrate. uses_tac. Qed.

Lemma initial_migration_sync : uses sync_op (initial_migration cfg).
Proof. unfold initial_migration. uses_tac. Qed.

Lemma rehydrate_sync : uses sync_op (rehydrate_from_mongodb cfg).
Proof. unfold rehydrate_from_mongodb. uses_tac. Qed.

Lemma guarded_sync_sync : uses sync_op (guarded_sync cfg).
Proof.
  unfold guarded_sync, startup_sync. uses_tac.
Qed.

Lemma migrate_file_reader (c : coll) (p : path) (f : doc -> exn + doc) :
  uses file_reader (migrate c p f).
Proof. unfold migrate. uses_tac. Qed.

Lemma initial_migration_file_reader : uses file_reader (initial_migration cfg).
Proof. unfold initial_migration. uses_tac. Qed.

Lemma rehydrate_store_reader : uses store_reader (rehydrate_from_mongodb cfg).
Proof. unfold rehydrate_from_mongodb. uses_tac. Qed.

Lemma migrate_keeps (c c' : coll) (p : path) (f : doc -> exn + doc) :
  c <> c' -> uses (keeps_coll c') (migrate c p f).
Proof. intros Hne. unfold migrate. uses_tac. Qed.

(** *** Termination without an exception *)

Lemma load_mock_books_no_raise : no_raise (load_mock_books cfg).
Proof. unfold load_mock_books. no_raise_tac. Qed.

Lemma guarded_sync_no_raise : no_raise (guarded_sync cfg).
Proof. unfold guarded_sync. no_raise_tac. Qed.

Lemma launch_no_raise : no_raise (launch cfg).
Proof. unfold launch. no_raise_tac. Qed.

Lemma start_backend_no_raise : no_raise (start_backend cfg).
Proof.
  rewrite start_backend_eq. no_raise_tac.
Qed.

Lemma send_to_backend_no_raise (payload : json) : no_raise (send_to_backend cfg payload).
Proof. unfold send_to_backend, with_lock. no_raise_tac. Qed.

End Pieces.

Section Runs.
Context {E : Engine} {C : Codec} (cfg : config).

(** *** [start_backend] *)

Lemma start_backend_absent (w : world) :
  path_exists (BACKEND_EXECUTABLE cfg) w = false ->
  run (start_backend cfg) w = (Returned (), set_USE_MOCK_BACKEND true w).
Proof. intros H. rewrite start_backend_eq. cbn. by rewrite H. Qed.

Lemma start_backend_running (w : world) (p : pid) :
  path_exists (BACKEND_EXECUTABLE cfg) w = true ->
  BACKEND_PROCESS w = Some p ->
  run (start_backend cfg) w = (Returned (), w).
Proof. intros H1 H2. rewrite start_backend_eq. cbn. rewrite H1. cbn. by rewrite H2. Qed.

Lemma start_backend_cold (w : world) :
  path_exists (BACKEND_EXECUTABLE cfg) w = true ->
  BACKEND_PROCESS w = None ->
  run (start_backend cfg) w = run (launch cfg) (run (guarded_sync cfg) w).2.
Proof.
  intros H1 H2. rewrite start_backend_eq. cbn. rewrite H1. cbn. rewrite H2.
  rewrite run_bind.
  by rewrite (no_raise_run_unit (guarded_sync cfg) w (guarded_sync_no_raise cfg)).
Qed.

Lemma launch_failed (w : world) (e : exn) :
  engine_spawn (backend_args cfg) (launch_cwd cfg w) (fs w) = inl e ->
  run (launch cfg) w =
  (Returned (),
   set_USE_MOCK_BACKEND true (log (EvSpawnFailed (backend_args cfg) (launch_cwd cfg w)) w)).
Proof.
  intros H. unfold launch, launch_cwd in *. cbn.
  destruct (path_exists (PROJECT_ROOT cfg) w); cbn; by rewrite H.
Qed.

Lemma launch_ok (w : world) (st st' : proc) (r : exn + string) :
  engine_spawn (backend_args cfg) (launch_cwd cfg w) (fs w) = inr st ->
  engine_readline st = (r, st') ->
  run (launch cfg) w = (Returned (), started cfg w st st' r).
Proof.
  intros H1 H2. unfold launch, started, launch_cwd in *. cbn.
  destruct (path_exists (PROJECT_ROOT cfg) w); cbn; rewrite H1; cbn;
    rewrite Nat.eqb_refl, H2; by destruct r.
Qed.

(** The launch in terms of events. *)
Lemma launch_shape (w : world) :
  exists w' evs h,
    run (launch cfg) w = (Returned (), w') /\
    trace w' = trace w ++ evs /\
    BACKEND_PROCESS w' = h /\
    (BACKEND_PROCESS w = None -> launch_events (next_pid w) evs h).
Proof.
  destruct (engine_spawn (backend_args cfg) (launch_cwd cfg w) (fs w)) as [e | st] eqn:Hs.
  - eexists _, _, _. split; [by eapply launch_failed |]. cbn.
    split; [done |]. split; [done |]. intros ->. constructor.
  - destruct (engine_readline st) as [r st'] eqn:Hr.
    exists (started cfg w st st' r),
      [EvSpawn (next_pid w) (backend_args cfg) (launch_cwd cfg w);
       read_event (next_pid w) r], (Some (next_pid w)).
    split; [by eapply launch_ok |].
    unfold started. destruct r; cbn; rewrite <- app_assoc; cbn;
      (split; [done |]); (split; [done |]); intros _; by constructor.
Qed.

(** One call of [start_backend] in terms of events: it returns, the
    events are those of at most one launch, and it changes the handle
    only by launching. *)
Lemma start_backend_shape (w : world) :
  exists w' evs,
    run (start_backend cfg) w = (Returned (), w') /\
    trace w' = trace w ++ evs /\
    start_events (BACKEND_PROCESS w) evs (BACKEND_PROCESS w').
Proof.
  destruct (path_exists (BACKEND_EXECUTABLE cfg) w) eqn:Hex.
  - destruct (BACKEND_PROCESS w) as [p |] eqn:Hh.
    + exists w, []. rewrite (start_backend_running w p Hex Hh), app_nil_r, Hh.
      repeat split. constructor.
    + rewrite (start_backend_cold w Hex Hh).
      destruct (sync_op_run (guarded_sync cfg) w (guarded_sync_sync cfg))
        as (b & f & d & Hw).
      rewrite Hw.
      destruct (launch_shape (set_USE_MOCK_BACKEND b (set_db d (set_fs f w))))
        as (w' & evs & h & Hrun & Htr & Hh' & Hev).
      exists w', evs. split; [done |]. split; [done |].
      rewrite Hh'. eapply start_launch. apply Hev. done.
  - exists (set_USE_MOCK_BACKEND true w), [].
    rewrite (start_backend_absent w Hex), app_nil_r. repeat split. constructor.
Qed.

(** *** The exchange *)

Lemma exchange_no_process (payload : json) (w : world) :
  BACKEND_PROCESS w = None ->
  run (catch (exchange_prog payload) on_exception) w =
  (Returned (failure (exn_str (no_attribute "NoneType" "stdin"))), w).
Proof. intros H. unfold exchange_prog, backend_process. cbn. by rewrite H. Qed.

Lemma exchange_run (payload : json) (w : world) (p : pid) :
  BACKEND_PROCESS w = Some p ->
  exists r w' xs,
    run (catch (exchange_prog payload) on_exception) w = (Returned r, w') /\
    trace w' = trace w ++ xs /\
    exchange p (json_dumps payload +:+ LF) xs r /\
    BACKEND_PROCESS w' = Some p.
Proof.
  intros H. unfold exchange_prog, backend_process. cbn. rewrite H. cbn.
  destruct (engine_write (json_dumps payload +:+ LF) (procs w p)) as [[e | []] st1]; cbn.
  { eexists _, _, [_]. split; [reflexivity |]. cbn.
    split; [reflexivity |]. split; [constructor | done]. }
  rewrite H. cbn. rewrite Nat.eqb_refl.
  destruct (engine_flush st1) as [[e | []] st2]; cbn.
  { eexists _, _, [_; _]. split; [reflexivity |]. cbn. rewrite <- app_assoc.
    split; [reflexivity |]. split; [constructor | done]. }
  rewrite H. cbn. rewrite Nat.eqb_refl.
  destruct (engine_readline st2) as [[e | resp] st3]; cbn.
  { eexists _, _, [_; _; _]. split; [reflexivity |]. cbn. rewrite <- !app_assoc.
    split; [reflexivity |]. split; [constructor | done]. }
  destruct (String.eqb_spec resp "") as [-> | Hne]; cbn.
  { eexists _, _, [_; _; _]. split; [reflexivity |]. cbn. rewrite <- !app_assoc.
    split; [reflexivity |]. split; [constructor | done]. }
  destruct (json_loads resp) as [e | j] eqn:Hj; cbn.
  - eexists _, _, [_; _; _]. split; [reflexivity |]. cbn. rewrite <- !app_assoc.
    split; [reflexivity |]. split; [by apply exchange_undecodable | done].
  - eexists _, _, [_; _; _]. split; [reflexivity |]. cbn. rewrite <- !app_assoc.
    split; [reflexivity |]. split; [by apply exchange_decoded | done].
Qed.

(** *** One call, after the mock prelude *)

Lemma dispatch_shape (payload : json) (w : world) :
  exists r w' body,
    run (catch (start_backend cfg ;; reset_and_exchange cfg payload) on_exception) w
      = (Returned r, w') /\
    trace w' = trace w ++ body /\
    call_body (BACKEND_PROCESS w) (json_dumps payload +:+ LF) body r.
Proof.
  rewrite run_catch_bind.
  destruct (start_backend_shape w) as (w1 & evs & -> & Htr1 & Hst1).
  unfold reset_and_exchange, backend_process. cbn.
  destruct (BACKEND_PROCESS w1) as [p |] eqn:Hh1; cbn.
  2: { exists (failure (exn_str (no_attribute "NoneType" "poll"))), w1, evs.
       repeat split; [done |]. by constructor. }
  destruct (engine_poll (procs w1 p)) as [[code |] st] eqn:Hpoll; cbn.
  - (* the process has exited: reset the handle and start again *)
    rewrite run_catch_bind.
    set (w2 := set_BACKEND_PROCESS None (log (EvPoll p (Some code)) (set_proc p st w1))).
    destruct (start_backend_shape w2) as (w3 & evs' & -> & Htr3 & Hst3).
    change (BACKEND_PROCESS w2) with (@None pid) in Hst3.
    destruct (BACKEND_PROCESS w3) as [q |] eqn:Hh3.
    + destruct (exchange_run payload w3 q Hh3) as (r & w4 & xs & -> & Htr4 & Hex & _).
      exists r, w4, (evs ++ EvPoll p (Some code) :: evs' ++ xs).
      split; [done |]. split.
      * rewrite Htr4, Htr3. subst w2. cbn. rewrite Htr1.
        by rewrite <- !app_assoc.
      * by eapply body_restarted.
    + rewrite (exchange_no_process payload w3 Hh3).
      eexists _, w3, (evs ++ EvPoll p (Some code) :: evs').
      split; [done |]. split.
      * rewrite Htr3. subst w2. cbn. rewrite Htr1. by rewrite <- !app_assoc.
      * by eapply body_restart_failed.
  - (* the process is alive *)
    set (w2 := log (EvPoll p None) (set_proc p st w1)).
    assert (BACKEND_PROCESS w2 = Some p) as Hh2 by done.
    destruct (exchange_run payload w2 p Hh2) as (r & w3 & xs & -> & Htr3 & Hex & _).
    exists r, w3, (evs ++ EvPoll p None :: xs).
    split; [done |]. split.
    + rewrite Htr3. subst w2. cbn. rewrite Htr1. by rewrite <- !app_assoc.
    + by eapply body_alive.
Qed.

(** *** One call *)

(** Every call of [send_to_backend] returns a response, brackets its
    events between taking and releasing the lock, and has the shape
    [call_body] in between. *)
Lemma send_to_backend_shape (payload : json) (w : world) :
  exists r w' body,
    run (send_to_backend cfg payload) w = (Returned r, w') /\
    trace w' = trace w ++ EvAcquire :: body ++ [EvRelease] /\
    call_body (BACKEND_PROCESS w) (json_dumps payload +:+ LF) body r.
Proof.
  rewrite send_to_backend_eq, run_with_lock, run_catch_bind. cbn.
  destruct (USE_MOCK_BACKEND w).
  - rewrite run_catch_bind.
    destruct (mock_op_run (mock_prelude cfg payload) (log EvAcquire w)
                (mock_prelude_mock cfg payload)) as [l Hl].
    destruct (run (mock_prelude cfg payload) (log EvAcquire w)) as [[[] | e] wm];
      simpl in Hl; subst wm.
    + destruct (dispatch_shape payload (set_MOCK_BOOKS l (log EvAcquire w)))
        as (r & w' & body & -> & Htr & Hbody).
      exists r, (log EvRelease w'), body. split; [done |]. split; [| done].
      cbn. rewrite Htr. cbn. by rewrite <- !app_assoc.
    + cbn. eexists _, _, []. split; [done |]. split; [| by constructor].
      cbn. by rewrite <- !app_assoc.
  - cbn.
    destruct (dispatch_shape payload (log EvAcquire w))
      as (r & w' & body & Hrun & Htr & Hbody).
    rewrite Hrun.
    exists r, (log EvRelease w'), body. split; [done |]. split; [| done].
    cbn. rewrite Htr. cbn. by rewrite <- !app_assoc.
Qed.

End Runs.

(** ** The claims *)

Section DegradedMode.
Context {E : Engine} {C : Codec} (cfg : config).

Lemma locate_executable_absent (exists_ : path -> bool) (possible_paths : list path)
    (exe : path) :
  locate_executable exists_ possible_paths = Some exe -> exe ∈ possible_paths.
Proof.
  unfold locate_executable. intros H.
  destruct (List.find exists_ possible_paths) as [p |] eqn:Hfind.
  - injection H as <-. apply find_some in Hfind as [Hin _]. by apply list_elem_of_In.
  - destruct possible_paths as [| p ps]; [done |]. injection H as <-. left.
Qed.

(** C1. With the executable at none of the candidate paths and no
    engine running, a call never spawns a process (its only events are
    taking and releasing the lock) and leaves the bridge in mock mode
    with the executable still absent; but the response is the failure
    built from the attribute error on the missing process handle, not a
    search result from the bundled snapshot. *)
Theorem absent_engine_call_fails
    (exists_at_import : path -> bool) (possible_paths : list path)
    (w : world) (request : list (string * json)) :
  locate_executable exists_at_import possible_paths = Some (BACKEND_EXECUTABLE cfg) ->
  (forall p, p ∈ possible_paths -> path_exists p w = false) ->
  BACKEND_PROCESS w = None ->
  exists w',
    run (send_to_backend cfg (JObj request)) w =
      (Returned (failure "'NoneType' object has no attribute 'poll'"), w') /\
    new_events w w' = [EvAcquire; EvRelease] /\
    USE_MOCK_BACKEND w' = true /\
    BACKEND_PROCESS w' = None /\
    (forall p, p ∈ possible_paths -> path_exists p w' = false).
Proof.
  intros Hloc Habs Hh.
  assert (path_exists (BACKEND_EXECUTABLE cfg) w = false) as Hexe
    by (eapply Habs, locate_executable_absent, Hloc).
  rewrite send_to_backend_eq, run_with_lock, run_catch_bind. cbn.
  assert (forall l,
    run (catch (start_backend cfg ;; reset_and_exchange cfg (JObj request)) on_exception)
        (set_MOCK_BOOKS l (log EvAcquire w)) =
    (Returned (failure "'NoneType' object has no attribute 'poll'"),
     set_USE_MOCK_BACKEND true (set_MOCK_BOOKS l (log EvAcquire w)))) as Hrest.
  { intros l. rewrite run_catch_bind, start_backend_absent by done.
    unfold reset_and_exchange, backend_process. cbn. by rewrite Hh. }
  destruct (USE_MOCK_BACKEND w).
  - rewrite run_catch_bind.
    destruct (mock_op_run (mock_prelude cfg (JObj request)) (log EvAcquire w)
                (mock_prelude_mock cfg (JObj request))) as [l Hl].
    assert ((run (mock_prelude cfg (JObj request)) (log EvAcquire w)).1 = Returned ())
      as Hret.
    { unfold mock_prelude. rewrite run_bind, run_call. cbn.
      rewrite run_bind.
      destruct (run (if nonempty (MOCK_BOOKS w) then Ret () else load_mock_books cfg)
                  (log EvAcquire w)) as [[[] | e] wl] eqn:Hrun; [done |].
      destruct (nonempty (MOCK_BOOKS w)); [done |].
      pose proof (no_raise_run_unit _ (log EvAcquire w) (load_mock_books_no_raise cfg)).
      congruence. }
    destruct (run (mock_prelude cfg (JObj request)) (log EvAcquire w)) as [o wm].
    simpl in Hl, Hret. subst o wm. rewrite Hrest.
    eexists. split; [reflexivity |]. split; [| by repeat split].
    apply new_events_app. cbn. by rewrite <- app_assoc.
  - cbn. rewrite <- (set_MOCK_BOOKS_id (log EvAcquire w)), Hrest.
    eexists. split; [reflexivity |]. split; [| by repeat split].
    apply new_events_app. cbn. by rewrite <- app_assoc.
Qed.

End DegradedMode.

Section ProtocolChannel.
Context {E : Engine} {C : Codec} (cfg : config).

Lemma exchange_result (q : pid) (line : string) (xs : list event) (r : json) :
  exchange q line xs r ->
  (exists m, r = failure m) \/
  (exists resp, EvReadline q resp ∈ xs /\ resp <> "" /\ json_loads resp = inr r).
Proof.
  intros [e | e | e | | resp e Hne Hl | resp j Hne Hl]; try (left; by eexists).
  right. exists resp. repeat split; try done. set_solver.
Qed.

Lemma call_body_result (h0 : option pid) (line : string) (body : list event) (r : json) :
  call_body h0 line body r ->
  (exists m, r = failure m) \/
  (exists q resp, EvReadline q resp ∈ body /\ resp <> "" /\ json_loads resp = inr r).
Proof.
  intros [e | evs Hs | evs p xs r' Hs Hx | evs p code evs' Hs Hs'
          | evs p code evs' q xs r' Hs Hs' Hx]; try (left; by eexists).
  - destruct (exchange_result _ _ _ _ Hx) as [? | (resp & Hin & ? & ?)]; [by left |].
    right. exists p, resp. repeat split; try done. set_solver.
  - destruct (exchange_result _ _ _ _ Hx) as [? | (resp & Hin & ? & ?)]; [by left |].
    right. exists q, resp. repeat split; try done. set_solver.
Qed.

(** C7, as the code has it. A call of [send_to_backend] never raises:
    it always returns a value. That value is either a failure mapping
    the bridge built itself, with [success] false and a string
    [message], or the value decoded from the non-empty line the engine
    answered with, handed over as it is; so it is a well-formed response
    whenever the engine's line decodes to one. *)
Theorem send_to_backend_never_raises (payload : json) (w : world) :
  exists r w',
    run (send_to_backend cfg payload) w = (Returned r, w') /\
    ((exists m, r = failure m /\ is_response r = true) \/
     (exists q resp, EvReadline q resp ∈ new_events w w' /\ resp <> "" /\
                     json_loads resp = inr r)).
Proof.
  destruct (send_to_backend_shape cfg payload w) as (r & w' & body & Hrun & Htr & Hbody).
  exists r, w'. split; [done |].
  rewrite (new_events_app _ _ _ Htr).
  destruct (call_body_result _ _ _ _ Hbody) as [[m ->] | (q & resp & Hin & Hne & Hl)].
  - left. by exists m.
  - right. exists q, resp. repeat split; try done. set_solver.
Qed.

Lemma exchange_last (q : pid) (line : string) (xs : list event) (r : json) (p : pid) :
  exchange q line xs r -> last xs = Some (EvReadline p "") -> r = EMPTY_OUTPUT.
Proof.
  unfold EMPTY_OUTPUT.
  intros [e | e | e | | resp e Hne Hl | resp j Hne Hl]; simpl; congruence.
Qed.

Lemma exchange_nonempty (q : pid) (line : string) (xs : list event) (r : json) :
  exchange q line xs r -> exists ev, last xs = Some ev.
Proof. intros [e | e | e | | resp e Hne Hl | resp j Hne Hl]; by eexists. Qed.

Lemma start_events_last (h0 h : option pid) (evs : list event) (p : pid) :
  start_events h0 evs h -> h = None -> last evs <> Some (EvReadline p "").
Proof.
  intros [| q evs' h' [args cwd | args cwd banner Hb]]; simpl; congruence.
Qed.

Lemma call_body_last (h0 : option pid) (line : string) (body : list event) (r : json)
    (p : pid) :
  call_body h0 line body r -> last body = Some (EvReadline p "") -> r = EMPTY_OUTPUT.
Proof.
  intros [e | evs Hs | evs q xs r' Hs Hx | evs q code evs' Hs Hs'
          | evs q code evs' q' xs r' Hs Hs' Hx]; intros Hlast.
  - done.
  - by destruct (start_events_last _ _ _ p Hs eq_refl).
  - destruct (exchange_nonempty _ _ _ _ Hx) as [ev Hev].
    rewrite last_app, last_cons, Hev in Hlast. rewrite Hlast in Hev.
    by eapply exchange_last.
  - rewrite last_app, last_cons in Hlast.
    destruct (last evs') as [ev |] eqn:Hev; [| done].
    destruct (start_events_last _ _ _ p Hs' eq_refl). congruence.
  - destruct (exchange_nonempty _ _ _ _ Hx) as [ev Hev].
    rewrite last_app, last_cons, last_app, Hev in Hlast. rewrite Hlast in Hev.
    by eapply exchange_last.
Qed.

(** C8. When the read of the response line yields no data (the last
    thing the call does on the pipes is a read that returns the empty
    string), [send_to_backend] returns exactly the mapping with
    [success] false and the message "Backend not responding (Empty
    Output)", and does not raise. *)
Theorem empty_output_response (payload : json) (w : world) (p : pid)
    (before : list event) :
  new_events w (run (send_to_backend cfg payload) w).2
    = before ++ [EvReadline p ""; EvRelease] ->
  (run (send_to_backend cfg payload) w).1 =
    Returned (JObj [("success", JBool false);
                    ("message", JStr "Backend not responding (Empty Output)")]).
Proof.
  destruct (send_to_backend_shape cfg payload w) as (r & w' & body & Hrun & Htr & Hbody).
  rewrite Hrun. simpl. rewrite (new_events_app _ _ _ Htr). intros Hev.
  f_equal. eapply (call_body_last _ _ _ _ p Hbody).
  assert (EvAcquire :: body = before ++ [EvReadline p ""]) as Heq.
  { change (before ++ [EvReadline p ""; EvRelease])
      with (before ++ [EvReadline p ""] ++ [EvRelease]) in Hev.
    rewrite app_assoc in Hev.
    change (EvAcquire :: body ++ [EvRelease])
      with ((EvAcquire :: body) ++ [EvRelease]) in Hev.
    by apply app_inj_tail in Hev as [? _]. }
  destruct body as [| ev body'].
  - destruct before as [| ? [| ? ?]]; simpl in Heq; congruence.
  - assert (last (EvAcquire :: ev :: body') = Some (EvReadline p "")) as Hl
      by (rewrite Heq; apply last_snoc).
    by rewrite last_cons_cons in Hl.
Qed.

End ProtocolChannel.

Section CrashRecovery.
Context {E : Engine} {C : Codec} (cfg : config).

(** The mock prelude of a request that is a mapping returns and only
    rebinds [MOCK_BOOKS]. *)
Lemma mock_prelude_run (request : list (string * json)) (w : world) :
  exists l, run (mock_prelude cfg (JObj request)) w = (Returned (), set_MOCK_BOOKS l w).
Proof.
  destruct (mock_op_run (mock_prelude cfg (JObj request)) w
              (mock_prelude_mock cfg (JObj request))) as [l Hl].
  exists l. rewrite <- Hl.
  assert ((run (mock_prelude cfg (JObj request)) w).1 = Returned ()) as Hret.
  { unfold mock_prelude. rewrite run_bind, run_call. cbn. rewrite run_bind.
    destruct (run (if nonempty (MOCK_BOOKS w) then Ret () else load_mock_books cfg) w)
      as [[[] | e] wl] eqn:Hrun; [done |].
    destruct (nonempty (MOCK_BOOKS w)); [done |].
    pose proof (no_raise_run_unit _ w (load_mock_books_no_raise cfg)). congruence. }
  destruct (run (mock_prelude cfg (JObj request)) w) as [o wm]. simpl in *. by subst.
Qed.

(** A call that finds the recorded process exited, from the point where
    the mock prelude is over. *)
Lemma dispatch_restart (request : list (string * json)) (w : world) (p : pid)
    (code : Z) (st : proc) :
  path_exists (BACKEND_EXECUTABLE cfg) w = true ->
  BACKEND_PROCESS w = Some p ->
  engine_poll (procs w p) = (Some code, st) ->
  exists r w' evs h,
    run (catch (start_backend cfg ;; reset_and_exchange cfg (JObj request)) on_exception) w
      = (Returned r, w') /\
    trace w' = trace w ++ EvPoll p (Some code) :: evs /\
    BACKEND_PROCESS w' = h /\
    ((exists args cwd, evs = [EvSpawnFailed args cwd]) \/
     (exists cwd banner xs,
        evs = EvSpawn (next_pid w) (backend_args cfg) cwd :: banner :: xs /\
        is_banner_read (next_pid w) banner /\
        exchange (next_pid w) (json_dumps (JObj request) +:+ LF) xs r /\
        h = Some (next_pid w))).
Proof.
  intros Hexe Hh Hpoll.
  rewrite run_catch_bind, (start_backend_running cfg w p Hexe Hh).
  unfold reset_and_exchange, backend_process. cbn. rewrite Hh. cbn. rewrite Hpoll. cbn.
  rewrite run_catch_bind.
  set (w2 := set_BACKEND_PROCESS None (log (EvPoll p (Some code)) (set_proc p st w))).
  rewrite (start_backend_cold cfg w2) by done.
  destruct (sync_op_run (guarded_sync cfg) w2 (guarded_sync_sync cfg)) as (b & f & d & ->).
  set (ws := set_USE_MOCK_BACKEND b (set_db d (set_fs f w2))).
  destruct (engine_spawn (backend_args cfg) (launch_cwd cfg ws) (fs ws)) as [e | st0] eqn:Hs.
  - rewrite (launch_failed cfg ws e Hs).
    rewrite exchange_no_process by done.
    eexists _, _, _, _. split; [reflexivity |]. cbn. rewrite <- app_assoc.
    split; [reflexivity |]. split; [reflexivity |]. left. by eexists _, _.
  - destruct (engine_readline st0) as [rb st1] eqn:Hr.
    rewrite (launch_ok cfg ws st0 st1 rb Hs Hr).
    assert (BACKEND_PROCESS (started cfg ws st0 st1 rb) = Some (next_pid w)) as Hh'
      by (unfold started; by destruct rb).
    destruct (exchange_run (JObj request) _ _ Hh') as (r & w' & xs & -> & Htr & Hx & Hh'').
    exists r, w', (EvSpawn (next_pid w) (backend_args cfg) (launch_cwd cfg ws)
                   :: read_event (next_pid w) rb :: xs), (Some (next_pid w)).
    split; [done |]. split.
    { rewrite Htr. unfold started. destruct rb; cbn; by rewrite <- !app_assoc. }
    split; [done |]. right. eexists _, _, _. split; [done |].
    split; [by destruct rb |]. done.
Qed.

(** C3. A call that arrives when the recorded engine process has exited
    (the executable being in place and the new process being created)
    polls the recorded handle, clears it, spawns exactly one new process,
    reads exactly one line, the readiness banner, from it, and only then
    writes the pending request to that new process and reads its
    response; the new process becomes the recorded handle. *)
Theorem dead_engine_restarted_once (request : list (string * json)) (w : world)
    (p : pid) (code : Z) (st : proc) :
  path_exists (BACKEND_EXECUTABLE cfg) w = true ->
  BACKEND_PROCESS w = Some p ->
  engine_poll (procs w p) = (Some code, st) ->
  (forall args cwd,
     EvSpawnFailed args cwd ∉ new_events w (run (send_to_backend cfg (JObj request)) w).2) ->
  exists r w' cwd banner xs,
    run (send_to_backend cfg (JObj request)) w = (Returned r, w') /\
    new_events w w' =
      [EvAcquire; EvPoll p (Some code);
       EvSpawn (next_pid w) (backend_args cfg) cwd; banner] ++ xs ++ [EvRelease] /\
    is_banner_read (next_pid w) banner /\
    exchange (next_pid w) (json_dumps (JObj request) +:+ LF) xs r /\
    count is_spawn (new_events w w') = 1%nat /\
    BACKEND_PROCESS w' = Some (next_pid w).
Proof.
  intros Hexe Hh Hpoll Hspawn.
  assert (exists r w1 evs h,
    run (send_to_backend cfg (JObj request)) w = (Returned r, log EvRelease w1) /\
    trace w1 = trace w ++ EvAcquire :: EvPoll p (Some code) :: evs /\
    BACKEND_PROCESS w1 = h /\
    ((exists args cwd, evs = [EvSpawnFailed args cwd]) \/
     (exists cwd banner xs,
        evs = EvSpawn (next_pid w) (backend_args cfg) cwd :: banner :: xs /\
        is_banner_read (next_pid w) banner /\
        exchange (next_pid w) (json_dumps (JObj request) +:+ LF) xs r /\
        h = Some (next_pid w)))) as (r & w1 & evs & h & Hrun & Htr & Hh1 & Hev).
  { rewrite send_to_backend_eq, run_with_lock, run_catch_bind. cbn.
    destruct (USE_MOCK_BACKEND w).
    - rewrite run_catch_bind.
      destruct (mock_prelude_run request (log EvAcquire w)) as [l ->].
      destruct (dispatch_restart request (set_MOCK_BOOKS l (log EvAcquire w)) p code st)
        as (r & w' & evs & h & -> & Htr & Hh' & Hev); try done.
      exists r, w', evs, h. split; [done |]. split; [| done].
      rewrite Htr. cbn. by rewrite <- app_assoc.
    - cbn.
      destruct (dispatch_restart request (log EvAcquire w) p code st)
        as (r & w' & evs & h & Hrun & Htr & Hh' & Hev); try done.
      rewrite Hrun.
      exists r, w', evs, h. split; [done |]. split; [| done].
      rewrite Htr. cbn. by rewrite <- app_assoc. }
  rewrite Hrun in *. simpl in Hspawn.
  assert (new_events w (log EvRelease w1)
          = EvAcquire :: EvPoll p (Some code) :: evs ++ [EvRelease]) as Hnew.
  { apply new_events_app. cbn. rewrite Htr. by rewrite <- app_assoc. }
  rewrite Hnew in Hspawn.
  destruct Hev as [(args & cwd & ->) | (cwd & banner & xs & -> & Hb & Hx & ->)].
  { exfalso. apply (Hspawn args cwd). set_solver. }
  exists r, (log EvRelease w1), cwd, banner, xs.
  split; [done |]. rewrite Hnew. split; [done |]. split; [done |]. split; [done |].
  split; [| done].
  destruct banner; try done;
    destruct Hx; reflexivity.
Qed.

End CrashRecovery.

Section StartupSync.
Context {E : Engine} {C : Codec} (cfg : config).

(** *** Without a document store *)

Lemma initial_migration_no_store (w : world) :
  db w = None -> run (initial_migration cfg) w = (Returned (), w).
Proof. intros H. unfold initial_migration. cbn. by rewrite H. Qed.

Lemma rehydrate_no_store (w : world) :
  db w = None -> run (rehydrate_from_mongodb cfg) w = (Returned (), w).
Proof. intros H. unfold rehydrate_from_mongodb. cbn. by rewrite H. Qed.

Lemma guarded_sync_no_store (w : world) :
  db w = None -> run (guarded_sync cfg) w = (Returned (), w).
Proof.
  intros H. unfold guarded_sync, startup_sync.
  by rewrite run_catch, run_bind, initial_migration_no_store, rehydrate_no_store.
Qed.

(** C10. With no document store configured ([db] is [None]), both
    [initial_migration] and [rehydrate_from_mongodb] return at once,
    without raising and leaving every collection and file as it was; and
    [start_backend], the executable being in place and the process
    coming up, starts the engine on the flat files as they are on disk
    and does not switch to mock mode. *)
Theorem startup_without_store (w : world) (st st' : proc) (banner : string) :
  db w = None ->
  path_exists (BACKEND_EXECUTABLE cfg) w = true ->
  BACKEND_PROCESS w = None ->
  engine_spawn (backend_args cfg) (launch_cwd cfg w) (fs w) = inr st ->
  engine_readline st = (inr banner, st') ->
  run (initial_migration cfg) w = (Returned (), w) /\
  run (rehydrate_from_mongodb cfg) w = (Returned (), w) /\
  exists w',
    run (start_backend cfg) w = (Returned (), w') /\
    new_events w w' =
      [EvSpawn (next_pid w) (backend_args cfg) (launch_cwd cfg w);
       EvReadline (next_pid w) banner] /\
    BACKEND_PROCESS w' = Some (next_pid w) /\
    USE_MOCK_BACKEND w' = USE_MOCK_BACKEND w /\
    fs w' = fs w /\
    db w' = None.
Proof.
  intros Hdb Hexe Hh Hs Hr.
  split; [by apply initial_migration_no_store |].
  split; [by apply rehydrate_no_store |].
  rewrite (start_backend_cold cfg w Hexe Hh), guarded_sync_no_store by done.
  cbn [snd].
  rewrite (launch_ok cfg w st st' (inr banner) Hs Hr).
  eexists. split; [reflexivity |]. unfold started. cbn.
  split; [| by rewrite Hdb].
  apply new_events_app. cbn. by rewrite <- app_assoc.
Qed.

(** *** Migration *)

Lemma migrate_nonempty (c : coll) (p : path) (f : doc -> exn + doc) (w : world)
    (docs : list doc) :
  coll_of c w = Some docs -> docs <> [] -> (run (migrate c p f) w).2 = w.
Proof.
  unfold coll_of. intros Hc Hne. unfold migrate. cbn. unfold with_store.
  destruct (db w) as [s |]; [| done]. simpl in Hc. injection Hc as Hc.
  destruct (reachable s); cbn; [| done].
  rewrite Hc. destruct docs; done.
Qed.

Lemma migrate_preserves_nonempty (c c' : coll) (p : path) (f : doc -> exn + doc)
    (w : world) (docs : list doc) :
  coll_of c' w = Some docs -> docs <> [] ->
  coll_of c' (run (migrate c p f) w).2 = Some docs.
Proof.
  intros Hc Hne. destruct (decide (c = c')) as [-> | Hcc].
  - by rewrite (migrate_nonempty c' p f w docs).
  - rewrite keeps_coll_run; [done | by apply migrate_keeps].
Qed.

(** C5. If the books collection (or the users collection) is non-empty
    when the start-up synchronisation runs, the migration pass leaves
    it exactly as it was, whatever the legacy flat files contain, and so
    does the whole synchronisation: documents are only ever inserted
    into a collection found empty. *)
Theorem migration_leaves_nonempty_collection (c : coll) (w : world) (docs : list doc) :
  coll_of c w = Some docs ->
  docs <> [] ->
  coll_of c (run (initial_migration cfg) w).2 = Some docs /\
  coll_of c (run (startup_sync cfg) w).2 = Some docs.
Proof.
  intros Hc Hne.
  assert (coll_of c (run (initial_migration cfg) w).2 = Some docs) as Hmig.
  { unfold initial_migration. cbn.
    destruct (db w) as [s |] eqn:Hdb; cbn; [| by rewrite <- Hc; unfold coll_of; rewrite Hdb].
    destruct (truth_error s); cbn; [done |].
    rewrite run_bind.
    pose proof (migrate_preserves_nonempty Books c (LOCAL_BOOKS cfg) book_of_row w docs Hc Hne)
      as H1.
    destruct (run (migrate Books (LOCAL_BOOKS cfg) book_of_row) w) as [[[] | e] w1];
      simpl in H1; [| done].
    by apply migrate_preserves_nonempty. }
  split; [done |].
  unfold startup_sync. rewrite run_bind.
  destruct (run (initial_migration cfg) w) as [[[] | e] w1]; cbn [fst snd] in *; [| done].
  unfold coll_of. by rewrite (store_reader_run _ w1 (rehydrate_store_reader cfg)).
Qed.

(** *** Migration of the legacy users file *)

Lemma uses_any {A} (m : prog A) : uses (fun _ _ => True) m.
Proof. induction m; simpl; auto. Qed.

Lemma reachability_run {A} (m : prog A) (w : world) :
  reachable <$> db (run m w).2 = reachable <$> db w.
Proof.
  apply (uses_run (fun _ _ => True) (fun w w' => reachable <$> db w' = reachable <$> db w)).
  - by intros ?.
  - intros w1 w2 w3 H1 H2. by rewrite H2.
  - intros R o w0 _. destruct o; handle_cases w0;
      try match goal with H : db _ = _ |- _ => rewrite ?H end; try done.
    by destruct c.
  - apply uses_any.
Qed.

Lemma doc_lookup_dict_set (k k' : string) (v : value) (d : doc) :
  k = k' \/ is_Some (doc_lookup k d) -> is_Some (doc_lookup k (dict_set k' v d)).
Proof.
  induction d as [| [k0 v0] d IH]; simpl.
  - intros [-> | [? ?]]; [| done]. by rewrite String.eqb_refl.
  - intros H. destruct (String.eqb_spec k' k0) as [-> | Hne]; simpl.
    + destruct (String.eqb_spec k k0) as [-> | Hne']; [done |].
      destruct H as [-> | H]; [done | done].
    + destruct (String.eqb_spec k k0) as [-> | Hne']; [done |].
      apply IH. destruct H as [-> | H]; [by left | by right].
Qed.

Lemma doc_lookup_dict_of_pairs (k : string) (l : list (string * value)) (d : doc) :
  is_Some (doc_lookup k d) \/ k ∈ l.*1 ->
  is_Some (doc_lookup k (foldl (fun d kv => dict_set kv.1 kv.2 d) d l)).
Proof.
  revert d. induction l as [| [k' v] l IH]; intros d; simpl.
  - intros [H | H]; [done | by apply elem_of_nil in H].
  - intros [H | H]; apply IH.
    + left. apply doc_lookup_dict_set. by right.
    + apply elem_of_cons in H as [-> | H]; [| by right].
      left. apply doc_lookup_dict_set. by left.
Qed.

Lemma zip_keys (k : string) (fieldnames : list string) (cells : list value) :
  k ∈ fieldnames ->
  k ∈ (zip fieldnames cells
       ++ ((fun k => (k, VNone)) <$> drop (List.length cells) fieldnames)).*1.
Proof.
  revert cells. induction fieldnames as [| f fs IH]; intros cells Hin.
  - by apply elem_of_nil in Hin.
  - destruct cells as [| c cells].
    + change (k ∈ ((fun k => (k, VNone)) <$> (f :: fs)).*1).
      apply list_elem_of_fmap. exists (k, VNone). split; [done |].
      by apply (list_elem_of_fmap_2 (fun k => (k, VNone))).
    + simpl. apply elem_of_cons in Hin as [-> | Hin]; [left |]. right. by apply IH.
Qed.

Lemma reader_row_lookup (k : string) (fieldnames row : list string) :
  k ∈ fieldnames -> is_Some (doc_lookup k (reader_row fieldnames row)).
Proof.
  intros Hin. unfold reader_row, dict_of_pairs.
  apply doc_lookup_dict_of_pairs. right.
  rewrite <- (length_fmap VStr row). by apply zip_keys.
Qed.

Lemma row_item_present (k : string) (row : doc) :
  is_Some (doc_lookup k row) -> row_item k row = inr (doc_get k row).
Proof. intros [v Hv]. unfold row_item, doc_get. by rewrite Hv. Qed.

Lemma user_of_row_present (row : doc) :
  (forall k, k ∈ USER_FIELDS -> is_Some (doc_lookup k row)) ->
  user_of_row row = inr (user_doc row).
Proof.
  intros H. unfold user_of_row, user_doc.
  rewrite !row_item_present; [done | ..]; apply H; unfold USER_FIELDS; set_solver.
Qed.

Lemma map_rows_total (f : doc -> exn + doc) (g : doc -> doc) (rows : list doc) :
  Forall (fun r => f r = inr (g r)) rows -> map_rows f rows = inr (g <$> rows).
Proof.
  induction 1 as [| r rows Hr _ IH]; simpl; [done |]. by rewrite Hr, IH.
Qed.

Lemma users_rows_mapped (fieldnames : list string) (rows : list (list string)) :
  (forall k, k ∈ USER_FIELDS -> k ∈ fieldnames) ->
  map_rows user_of_row (dict_reader (fieldnames :: rows))
  = inr (user_doc <$> dict_reader (fieldnames :: rows)).
Proof.
  intros Hf. apply map_rows_total. unfold dict_reader.
  apply Forall_fmap, Forall_forall. intros r _. simpl.
  apply user_of_row_present. intros k Hk. by apply reader_row_lookup, Hf.
Qed.

(** A cell of a row of the reader is a string or [None], never an
    integer. *)
Lemma doc_lookup_dict_set_inv (k k' : string) (v x : value) (d : doc) :
  doc_lookup k (dict_set k' v d) = Some x -> x = v \/ doc_lookup k d = Some x.
Proof.
  induction d as [| [k0 v0] d IH]; simpl.
  - destruct (String.eqb k k'); [intros [= <-]; by left | done].
  - destruct (String.eqb_spec k' k0) as [-> | Hne]; simpl.
    + destruct (String.eqb k k0); [intros [= <-]; by left | by right].
    + destruct (String.eqb k k0); [by right | apply IH].
Qed.

Lemma reader_row_no_int (fieldnames row : list string) (k : string) (z : Z) :
  doc_lookup k (reader_row fieldnames row) <> Some (VInt z).
Proof.
  unfold reader_row, dict_of_pairs.
  assert (Forall (fun kv : string * value => kv.2 <> VInt z)
            (zip fieldnames (VStr <$> row)
             ++ ((fun k => (k, VNone)) <$> drop (List.length row) fieldnames))) as Hall.
  { apply Forall_app. split.
    - apply Forall_forall. intros [k0 v0] Hin. apply elem_of_zip_r in Hin.
      apply list_elem_of_fmap in Hin as (c & -> & _). done.
    - apply Forall_fmap, Forall_forall. by intros k0 _. }
  revert Hall.
  generalize (zip fieldnames (VStr <$> row)
              ++ ((fun k => (k, VNone)) <$> drop (List.length row) fieldnames)).
  intros l. assert (doc_lookup k [] <> Some (VInt z)) as Hd by done. revert Hd.
  generalize (@nil (string * value)). induction l as [| [k' v] l IH]; intros d Hd Hall; simpl.
  - done.
  - apply Forall_cons in Hall as [Hv Hall]. apply IH; [| done].
    intros H. apply doc_lookup_dict_set_inv in H as [H | H]; [by symmetry in H | done].
Qed.

Lemma user_docs_encodable (fieldnames : list string) (rows : list (list string)) :
  forallb encodable (user_doc <$> dict_reader (fieldnames :: rows)) = true.
Proof.
  apply forallb_forall. intros d Hin. apply list_elem_of_In in Hin.
  apply list_elem_of_fmap in Hin as (r & -> & Hr).
  unfold dict_reader in Hr. apply list_elem_of_fmap in Hr as (cells & -> & _).
  unfold user_doc, encodable, doc_get. simpl.
  repeat match goal with
    | |- context [doc_lookup ?k (reader_row ?f ?c)] =>
        let H := fresh in
        destruct (doc_lookup k (reader_row f c)) as [[]|] eqn:H; simpl;
        try (by apply reader_row_no_int in H)
    end; done.
Qed.

(** The users half of the migration on an empty collection. *)
Lemma migrate_users_run (w : world) (s : store) (text : string)
    (fieldnames : list string) (rows : list (list string)) :
  db w = Some s -> reachable s = true -> users s = [] ->
  fs w !! LOCAL_USERS cfg = Some (File text) ->
  csv_reader text = (fieldnames :: rows, None) ->
  (forall k, k ∈ USER_FIELDS -> k ∈ fieldnames) ->
  exists w',
    run (migrate Users (LOCAL_USERS cfg) user_of_row) w = (Returned (), w') /\
    coll_of Users w' = Some (user_doc <$> dict_reader (fieldnames :: rows)).
Proof.
  intros Hdb Hr Hu Hfile Hcsv Hf.
  pose proof (users_rows_mapped fieldnames rows Hf) as Hmap.
  remember (user_doc <$> dict_reader (fieldnames :: rows)) as docs eqn:Hdocs.
  assert (path_exists (LOCAL_USERS cfg) w = true) as Hex
    by (unfold path_exists; by rewrite Hfile).
  unfold migrate. cbn. unfold with_store.
  rewrite Hdb, Hr. cbn. rewrite Hu. cbn. rewrite Hex. cbn. rewrite Hfile. cbn.
  rewrite Hcsv. cbn [fst snd]. rewrite Hmap. cbn.
  destruct docs as [| d ds]; cbn.
  - eexists. split; [reflexivity |]. unfold coll_of. by rewrite Hdb; simpl; rewrite Hu.
  - unfold store_insert. rewrite Hdb, Hr.
    pose proof (user_docs_encodable fieldnames rows) as Henc. rewrite <- Hdocs in Henc.
    rewrite Henc. cbn.
    eexists. split; [reflexivity |]. unfold coll_of. cbn. by rewrite Hu.
Qed.

(** C6, as the code has it. With the store reachable and its handle
    passing the truth test of line 129, the users collection empty, the
    books half of the migration completing, and a legacy users file
    whose header has the four user columns, the start-up synchronisation
    leaves in the users collection exactly one document per data row of
    the file (three for three rows), each field copied from its column
    as it is written there: the [type] is the text of the Type column,
    not an upper-cased form of it. *)
Theorem users_migrated_as_written (w : world) (s : store) (text : string)
    (fieldnames : list string) (rows : list (list string)) :
  db w = Some s ->
  reachable s = true ->
  truth_error s = None ->
  users s = [] ->
  (run (migrate Books (LOCAL_BOOKS cfg) book_of_row) w).1 = Returned () ->
  fs w !! LOCAL_USERS cfg = Some (File text) ->
  csv_reader text = (fieldnames :: rows, None) ->
  (forall k, k ∈ USER_FIELDS -> k ∈ fieldnames) ->
  coll_of Users (run (startup_sync cfg) w).2
    = Some (user_doc <$> (reader_row fieldnames <$> data_rows rows)) /\
  List.length (user_doc <$> (reader_row fieldnames <$> data_rows rows))
    = List.length (data_rows rows).
Proof.
  intros Hdb Hr Ht Hu Hbooks Hfile Hcsv Hf.
  split; [| by rewrite !length_fmap].
  change (reader_row fieldnames <$> data_rows rows) with (dict_reader (fieldnames :: rows)).
  pose proof (file_reader_run _ w (migrate_file_reader Books (LOCAL_BOOKS cfg) book_of_row))
    as Hfs.
  pose proof (keeps_coll_run Users _ w
                (migrate_keeps Books Users (LOCAL_BOOKS cfg) book_of_row ltac:(done)))
    as Hkeep.
  pose proof (reachability_run (migrate Books (LOCAL_BOOKS cfg) book_of_row) w) as Hreach.
  unfold startup_sync, initial_migration. rewrite run_bind. cbn. rewrite Hdb, Ht. cbn.
  rewrite run_bind.
  destruct (run (migrate Books (LOCAL_BOOKS cfg) book_of_row) w) as [[[] | e] w1];
    simpl in Hbooks, Hfs, Hkeep, Hreach; [| done].
  unfold coll_of in Hkeep. rewrite Hdb in Hkeep, Hreach. simpl in Hkeep, Hreach.
  destruct (db w1) as [s1 |] eqn:Hdb1; [| done].
  simpl in Hkeep, Hreach. injection Hkeep as Hu1. injection Hreach as Hr1.
  rewrite Hu in Hu1. rewrite Hr in Hr1.
  destruct (migrate_users_run w1 s1 text fieldnames rows) as (w2 & -> & Hc);
    try done; [by rewrite Hfs |].
  unfold coll_of in *.
  by rewrite (store_reader_run _ w2 (rehydrate_store_reader cfg)).
Qed.

End StartupSync.

Section Rehydration.
Context {E : Engine} {C : Codec} (cfg : config).

Lemma rehydrate_eq :
  rehydrate_from_mongodb cfg =
  (configured ← perform DbConfigured;
   if negb configured then Ret () else
   books ← perform (DbFind Books);
   (if nonempty books
    then dump_table (BOOKS_CSV cfg) BOOK_FIELDS books
           (fun b => csv_line (cell_text <$> book_row b))
    else Ret ()) ;;
   users ← perform (DbFind Users);
   (if nonempty users
    then dump_table (USERS_CSV cfg) USER_FIELDS users
           (fun u => csv_line (cell_text <$> user_row u))
    else Ret ()) ;;
   txns ← perform (DbFind Transactions);
   if nonempty txns then dump_txns (TRANS_CSV cfg) txns
   else write_text (TRANS_CSV cfg) ("TID,UID,BID,CID,Type,Timestamp" +:+ LF)).
Proof. reflexivity. Qed.

Lemma append_empty_r (s : string) : s +:+ "" = s.
Proof.
  induction s as [| a s IH]; [done |].
  change (String a (s +:+ "") = String a s). by rewrite IH.
Qed.

Lemma append_assoc_r (a b c : string) : (a +:+ b) +:+ c = a +:+ (b +:+ c).
Proof.
  induction a as [| x a IH]; [done |].
  change (String x ((a +:+ b) +:+ c) = String x (a +:+ (b +:+ c))). by rewrite IH.
Qed.

Lemma concat_cons (x : string) (xs : list string) :
  String.concat "" (x :: xs) = x +:+ String.concat "" xs.
Proof. destruct xs; simpl; [by rewrite append_empty_r | done]. Qed.

Lemma set_fs_same (w : world) (p : path) (n : node) :
  fs w !! p = Some n -> set_fs (<[p := n]> (fs w)) w = w.
Proof. intros H. rewrite insert_id by done. by destruct w. Qed.

Lemma write_loop {A} (p : path) (line : A -> string) (l : list A) (w : world)
    (c : string) :
  fs w !! p = Some (File c) ->
  run (for_each l (fun a => call (WriteText p (line a)))) w =
  (Returned (), set_fs (<[p := File (c +:+ String.concat "" (line <$> l))]> (fs w)) w).
Proof.
  revert w c. induction l as [| a l IH]; intros w c Hp.
  - cbn. by rewrite append_empty_r, set_fs_same.
  - cbn. rewrite Hp.
    rewrite (IH _ (c +:+ line a)) by (cbn; apply lookup_insert_eq).
    cbn. unfold set_fs. cbn.
    rewrite insert_insert_eq.
    by rewrite append_assoc_r, <- (concat_cons (line a) (line <$> l)).
Qed.

Lemma write_refused_not_dir (p : path) (w : world) :
  write_refused p w = None -> fs w !! p <> Some Dir /\ open_error w p = None.
Proof. unfold write_refused. by destruct (fs w !! p) as [[] |]. Qed.

Lemma write_refused_files (p : path) (w w' : world) :
  open_error w' = open_error w ->
  fs w' !! p <> Some Dir ->
  write_refused p w = None ->
  write_refused p w' = None.
Proof.
  intros Ho Hd [_ He]%write_refused_not_dir. unfold write_refused. rewrite Ho.
  by destruct (fs w' !! p) as [[] |].
Qed.

Lemma dump_table_run {A} (p : path) (fieldnames : list string) (docs : list A)
    (line : A -> string) (w : world) :
  write_refused p w = None ->
  run (dump_table p fieldnames docs line) w =
  (Returned (),
   set_fs (<[p := File (csv_line fieldnames +:+ String.concat "" (line <$> docs))]> (fs w)) w).
Proof.
  intros Hp. unfold dump_table.
  rewrite run_bind, run_perform. cbn. rewrite Hp. cbn.
  rewrite lookup_insert_eq. cbn.
  rewrite (write_loop p line docs _ (csv_line fieldnames))
    by (cbn; apply lookup_insert_eq).
  cbn. unfold set_fs. cbn. by rewrite !insert_insert_eq.
Qed.

Lemma txn_rows_length (txns : list doc) (rows : list (list value)) :
  txn_rows txns = inr rows -> List.length rows = List.length txns.
Proof.
  revert rows. induction txns as [| t ts IH]; intros rows; simpl.
  - by intros [= <-].
  - destruct (txn_row t) as [e | r]; simpl; [done |].
    destruct (txn_rows ts) as [e | rs]; simpl; [done |].
    intros [= <-]. simpl. f_equal. by apply IH.
Qed.

Lemma txn_loop (p : path) (txns : list doc) (rows : list (list value)) (w : world)
    (c : string) :
  txn_rows txns = inr rows ->
  fs w !! p = Some (File c) ->
  run (for_each txns (fun t =>
         row ← lift (txn_row t);
         call (WriteText p (csv_line (cell_text <$> row))))) w =
  (Returned (),
   set_fs (<[p := File (c +:+ String.concat ""
                          ((fun r => csv_line (cell_text <$> r)) <$> rows))]> (fs w)) w).
Proof.
  revert rows w c. induction txns as [| t ts IH]; intros rows w c; simpl.
  - intros [= <-] Hp. cbn. by rewrite append_empty_r, set_fs_same.
  - destruct (txn_row t) as [e | r] eqn:Hr; simpl; [done |].
    destruct (txn_rows ts) as [e | rs] eqn:Hrs; simpl; [done |].
    intros [= <-] Hp. cbn. rewrite Hp.
    rewrite (IH rs _ (c +:+ csv_line (cell_text <$> r))) by (done || cbn; apply lookup_insert_eq).
    cbn. unfold set_fs. cbn. rewrite insert_insert_eq.
    by rewrite append_assoc_r,
         <- (concat_cons _ ((fun r0 => csv_line (cell_text <$> r0)) <$> rs)).
Qed.

Lemma dump_txns_run (p : path) (txns : list doc) (rows : list (list value)) (w : world) :
  txn_rows txns = inr rows ->
  write_refused p w = None ->
  run (dump_txns p txns) w =
  (Returned (), set_fs (<[p := File (csv_table TXN_FIELDS rows)]> (fs w)) w).
Proof.
  intros Hrows Hp. unfold dump_txns, csv_table.
  rewrite run_bind, run_perform. cbn. rewrite Hp. cbn.
  rewrite lookup_insert_eq. cbn.
  rewrite (txn_loop p txns rows _ (csv_line TXN_FIELDS) Hrows)
    by (cbn; apply lookup_insert_eq).
  cbn. unfold set_fs. cbn. by rewrite !insert_insert_eq.
Qed.

Lemma with_store_ok {R} (c : coll) (w : world) (s : store) (f : store -> R * world) :
  db w = Some s -> reachable s = true ->
  with_store c w f = (inr (f s).1, (f s).2).
Proof. intros Hdb Hr. unfold with_store. rewrite Hdb, Hr. by destruct (f s). Qed.

Lemma dump_docs_run (p : path) (fieldnames : list string) (docs : list doc)
    (row : doc -> list value) (w : world) :
  write_refused p w = None ->
  run (dump_table p fieldnames docs (fun d => csv_line (cell_text <$> row d))) w =
  (Returned (), set_fs (<[p := File (csv_table fieldnames (row <$> docs))]> (fs w)) w).
Proof.
  intros Hp. rewrite dump_table_run by done. unfold csv_table.
  by rewrite <- list_fmap_compose.
Qed.

Lemma bare_header_run (p : path) (text : string) (w : world) :
  write_refused p w = None ->
  run (write_text p text) w =
  (Returned (), set_fs (<[p := File text]> (fs w)) w).
Proof.
  intros Hp. unfold write_text. cbn. rewrite Hp. cbn.
  rewrite lookup_insert_eq. cbn. unfold set_fs. cbn. by rewrite insert_insert_eq.
Qed.

(** C4, as the code has it. With the store reachable and its handle
    passing the truth test of line 73, the three flat files at distinct
    paths that can be opened for writing, and every transaction time
    stamp convertible by [int()], the rehydration pass returns and
    leaves the store as it was. A non-empty books (users)
    collection overwrites its flat file in full with the header line of
    the fixed column list followed by one line per document; an empty
    books (users) collection leaves its flat file untouched, whatever it
    held. The transactions file is always overwritten: header and one
    line per document, or the bare header line when the collection is
    empty. *)
Theorem rehydration_files (w : world) (s : store) (rows : list (list value)) :
  db w = Some s ->
  reachable s = true ->
  truth_error s = None ->
  NoDup [BOOKS_CSV cfg; USERS_CSV cfg; TRANS_CSV cfg] ->
  (forall p, p ∈ [BOOKS_CSV cfg; USERS_CSV cfg; TRANS_CSV cfg] ->
             write_refused p w = None) ->
  txn_rows (transactions s) = inr rows ->
  exists w',
    run (rehydrate_from_mongodb cfg) w = (Returned (), w') /\
    db w' = db w /\
    fs w' !! BOOKS_CSV cfg =
      (if nonempty (books s)
       then Some (File (csv_table BOOK_FIELDS (book_row <$> books s)))
       else fs w !! BOOKS_CSV cfg) /\
    fs w' !! USERS_CSV cfg =
      (if nonempty (users s)
       then Some (File (csv_table USER_FIELDS (user_row <$> users s)))
       else fs w !! USERS_CSV cfg) /\
    fs w' !! TRANS_CSV cfg =
      Some (File (if nonempty (transactions s)
                  then csv_table TXN_FIELDS rows
                  else "TID,UID,BID,CID,Type,Timestamp" +:+ LF)) /\
    List.length (book_row <$> books s) = List.length (books s) /\
    List.length (user_row <$> users s) = List.length (users s) /\
    List.length rows = List.length (transactions s).
Proof.
  intros Hdb Hr Htruth Hnd Hdir Hrows.
  assert (BOOKS_CSV cfg <> USERS_CSV cfg /\ BOOKS_CSV cfg <> TRANS_CSV cfg /\
          USERS_CSV cfg <> TRANS_CSV cfg) as (Hbu & Hbt & Hut).
  { apply NoDup_cons in Hnd as [H1 Hnd]. apply NoDup_cons in Hnd as [H2 _].
    set_solver. }
  assert (write_refused (BOOKS_CSV cfg) w = None) as Hdb1 by (apply Hdir; set_solver).
  assert (write_refused (USERS_CSV cfg) w = None) as Hdb2 by (apply Hdir; set_solver).
  assert (write_refused (TRANS_CSV cfg) w = None) as Hdb3 by (apply Hdir; set_solver).
  destruct (write_refused_not_dir _ _ Hdb2) as [Hnd2 _].
  destruct (write_refused_not_dir _ _ Hdb3) as [Hnd3 _].
  assert (forall p w', open_error w' = open_error w -> fs w' !! p <> Some Dir ->
                       write_refused p w = None -> write_refused p w' = None) as Hstill
    by (intros p w'; apply write_refused_files).
  rewrite rehydrate_eq. cbn. rewrite Hdb, Htruth. cbn.
  rewrite (with_store_ok Books w s) by done. cbn.
  rewrite run_bind.
  destruct (nonempty (books s)) eqn:Hb;
    [rewrite (dump_docs_run _ _ _ book_row) by done |]; cbn;
    (erewrite with_store_ok by (cbn; done)); cbn;
    rewrite run_bind;
    (destruct (nonempty (users s)) eqn:Hu;
      [rewrite (dump_docs_run _ _ _ user_row)
         by (apply Hstill; [done | cbn; by rewrite ?lookup_insert_ne | done]) |]);
    cbn;
    (erewrite with_store_ok by (cbn; done)); cbn;
    (destruct (nonempty (transactions s)) eqn:Ht;
      [rewrite (dump_txns_run _ _ rows)
         by (done || (apply Hstill; [done | cbn; by rewrite ?lookup_insert_ne | done]))
      | rewrite (bare_header_run (TRANS_CSV cfg))
          by (apply Hstill; [done | cbn; by rewrite ?lookup_insert_ne | done]) ]).
  all: eexists; (split; [reflexivity |]); cbn.
  all: rewrite !length_fmap, (txn_rows_length _ _ Hrows).
  all: repeat split; by simplify_map_eq.
Qed.

End Rehydration.

Section Counting.
Context {C : Codec}.

Lemma count_app (f : event -> bool) (l1 l2 : list event) :
  count f (l1 ++ l2) = (count f l1 + count f l2)%nat.
Proof. unfold count. by rewrite List.filter_app, length_app. Qed.

Lemma count_cons (f : event -> bool) (ev : event) (l : list event) :
  count f (ev :: l) = ((if f ev then 1 else 0) + count f l)%nat.
Proof. unfold count. simpl. by destruct (f ev). Qed.

(** What [start_backend] logs: nothing, a failed spawn, or a spawn and
    the banner read. *)
Lemma start_events_counts (h0 h : option pid) (evs : list event) :
  start_events h0 evs h ->
  count is_write evs = 0%nat /\ calls evs = 0%nat /\ count is_lock_event evs = 0%nat /\
  (count is_spawn evs <= 1)%nat /\
  count is_read evs = count (fun ev => match ev with EvSpawn _ _ _ => true | _ => false end) evs.
Proof.
  intros [| q evs' h' [args cwd | args cwd banner Hb]];
    [| | destruct banner; try done]; cbn; repeat split; lia.
Qed.

Lemma exchange_counts (q : pid) (line : string) (xs : list event) (r : json) :
  exchange q line xs r ->
  count is_write xs = 1%nat /\ calls xs = 0%nat /\ count is_lock_event xs = 0%nat /\
  count is_spawn xs = 0%nat /\ (count is_read xs <= 1)%nat /\
  count (fun ev => match ev with EvSpawn _ _ _ => true | _ => false end) xs = 0%nat.
Proof. intros []; repeat split; cbn; lia. Qed.

(** The shape of a call in numbers: no lock event inside, at most one
    write, at most two launches, and one read per launch that came up
    plus at most one read for the response. *)
Lemma call_body_counts (h0 : option pid) (line : string) (body : list event) (r : json) :
  call_body h0 line body r ->
  (count is_write body <= 1)%nat /\ calls body = 0%nat /\
  count is_lock_event body = 0%nat /\ (count is_spawn body <= 2)%nat /\
  (count is_read body
   <= count (fun ev => match ev with EvSpawn _ _ _ => true | _ => false end) body + 1)%nat.
Proof.
  intros [e | evs Hs | evs p xs r' Hs Hx | evs p code evs' Hs Hs'
          | evs p code evs' q xs r' Hs Hs' Hx];
    repeat match goal with
      | H : start_events _ _ _ |- _ => apply start_events_counts in H as (? & ? & ? & ? & ?)
      | H : exchange _ _ _ _ |- _ => apply exchange_counts in H as (? & ? & ? & ? & ? & ?)
      end;
    unfold calls in *;
    rewrite ?count_app, ?count_cons, ?count_app; cbn; repeat split; try lia; done.
Qed.

End Counting.

Section Retry.
Context {E : Engine} {C : Codec} (cfg : config).

(** Each call takes the lock exactly once. *)
Lemma send_to_backend_calls (payload : json) (w : world) :
  exists r w' evs,
    run (send_to_backend cfg payload) w = (Returned r, w') /\
    trace w' = trace w ++ evs /\
    calls evs = 1%nat.
Proof.
  destruct (send_to_backend_shape cfg payload w) as (r & w' & body & Hrun & Htr & Hbody).
  exists r, w', (EvAcquire :: body ++ [EvRelease]). split; [done |]. split; [done |].
  apply call_body_counts in Hbody as (_ & Hc & _).
  unfold calls in *. rewrite count_cons, count_app, Hc. done.
Qed.

Lemma run_ensure_user_registered (user_id name user_type : json) (w : world) :
  run (ensure_user_registered cfg user_id name user_type) w =
  (Returned (),
   (run (send_to_backend cfg (add_user_payload user_id name user_type)) w).2).
Proof.
  rewrite ensure_user_registered_eq, run_catch, run_bind.
  destruct (no_raise_run _ w (send_to_backend_no_raise cfg
              (add_user_payload user_id name user_type))) as [r Hr].
  destruct (run (send_to_backend cfg (add_user_payload user_id name user_type)) w)
    as [o w']. simpl in Hr. by subst o.
Qed.

(** The response of the first call decides: with a recoverable failure
    and a session identity, [send_with_retry] is the first call, the
    [add_user] call and the original call again; otherwise it is the
    first call alone. *)
Lemma run_send_with_retry (session : list (string * json)) (payload : json) (w : world)
    (w1 : world) (kv : list (string * json)) (b : bool) (m : string) :
  run (send_to_backend cfg payload) w = (Returned (JObj kv), w1) ->
  obj_lookup "success" kv = Some (JBool b) ->
  obj_lookup "message" kv = Some (JStr m) ->
  run (send_with_retry cfg session payload) w =
  match session_identity session with
  | Some add_user =>
      if negb b && has_marker m
      then run (send_to_backend cfg payload) (run (send_to_backend cfg add_user) w1).2
      else (Returned (JObj kv), w1)
  | None => (Returned (JObj kv), w1)
  end.
Proof.
  intros Hrun Hs Hm. unfold send_with_retry, session_identity, is_recoverable, has_marker.
  rewrite run_bind, Hrun. cbn. rewrite Hm, Hs. cbn.
  destruct b; cbn.
  { by destruct (obj_lookup "user_id" session). }
  destruct (contains "User not found" m); cbn;
    [| destruct (contains "Invalid user" m); cbn];
    try (by destruct (obj_lookup "user_id" session)).
  all: destruct (obj_lookup "user_id" session) as [uid |]; [| done].
  all: by rewrite run_bind, run_ensure_user_registered.
Qed.

Lemma session_identity_some (session : list (string * json)) :
  is_Some (session_identity session) <-> is_Some (obj_lookup "user_id" session).
Proof.
  unfold session_identity. destruct (obj_lookup "user_id" session); split; intros [? ?]; eauto;
    done.
Qed.

(** C2. Let the first response be a protocol response (boolean
    [success], string [message]). [send_with_retry] retries if and only
    if [success] is false, the message contains "User not found" or
    "Invalid user", and the session holds a user id. When it retries it
    makes exactly three calls: the original one, one [add_user] call with
    the session identity whose result is dropped, and the original
    payload once more, whose response it returns whatever it says. When
    it does not retry it makes the one call and returns its response. *)
Theorem retry_exactly_once (session : list (string * json)) (payload : json) (w w1 : world)
    (kv : list (string * json)) (b : bool) (m : string) :
  run (send_to_backend cfg payload) w = (Returned (JObj kv), w1) ->
  obj_lookup "success" kv = Some (JBool b) ->
  obj_lookup "message" kv = Some (JStr m) ->
  exists r w',
    run (send_with_retry cfg session payload) w = (Returned r, w') /\
    ((b = false /\ has_marker m = true /\ is_Some (obj_lookup "user_id" session))
     <-> calls (new_events w w') = 3%nat) /\
    (calls (new_events w w') <> 3%nat ->
     calls (new_events w w') = 1%nat /\ r = JObj kv /\ w' = w1) /\
    (calls (new_events w w') = 3%nat ->
     exists add_user ra wa,
       session_identity session = Some add_user /\
       run (send_to_backend cfg add_user) w1 = (Returned ra, wa) /\
       run (send_to_backend cfg payload) wa = (Returned r, w')).
Proof.
  intros Hrun Hs Hm.
  rewrite (run_send_with_retry session payload w w1 kv b m Hrun Hs Hm).
  destruct (send_to_backend_calls payload w) as (r1 & w1' & evs1 & Hrun1 & Htr1 & Hc1).
  rewrite Hrun in Hrun1. injection Hrun1 as <- <-.
  pose proof (session_identity_some session) as Hid.
  assert (calls (new_events w w1) = 1%nat) as Hone
    by (by rewrite (new_events_app _ _ _ Htr1)).
  destruct (session_identity session) as [add_user |] eqn:Hsess.
  2: { exists (JObj kv), w1. split; [done |]. rewrite Hone.
       split; [| split; [done | lia]].
       split; [| lia]. intros (_ & _ & Hu). apply Hid in Hu as [? ?]. done. }
  destruct (negb b && has_marker m) eqn:Hrec.
  2: { exists (JObj kv), w1. split; [done |]. rewrite Hone.
       split; [| split; [done | lia]].
       split; [| lia]. intros (-> & Hmk & _). by rewrite Hmk in Hrec. }
  destruct (send_to_backend_calls add_user w1) as (ra & wa & evs2 & Hrun2 & Htr2 & Hc2).
  destruct (send_to_backend_calls payload wa) as (r & w' & evs3 & Hrun3 & Htr3 & Hc3).
  rewrite Hrun2. cbn [snd]. rewrite Hrun3.
  exists r, w'. split; [done |].
  assert (calls (new_events w w') = 3%nat) as Hthree.
  { rewrite (new_events_app w w' (evs1 ++ evs2 ++ evs3)).
    - unfold calls in *. rewrite !count_app. lia.
    - rewrite Htr3, Htr2, Htr1. by rewrite <- !app_assoc. }
  rewrite Hthree. split; [| split; [done |]].
  - split; [done |]. intros _. apply andb_true_iff in Hrec as [Hb Hmk].
    split; [by destruct b |]. split; [done |]. apply Hid. by eexists.
  - intros _. by exists add_user, ra, wa.
Qed.

End Retry.

Section Interleaving.
Context {E : Engine}.

Lemma lock_free_flags {R} (o : op R) :
  lock_free R o -> is_acquire o = false /\ is_release o = false.
Proof. by destruct o. Qed.

Lemma well_bracketed_app (open : bool) (l1 l2 : list event) :
  well_bracketed open (l1 ++ l2) =
  match well_bracketed open l1 with
  | Some open' => well_bracketed open' l2
  | None => None
  end.
Proof.
  revert open. induction l1 as [| ev l1 IH]; intros open; simpl; [done |].
  destruct ev, open; simpl; try done; apply IH.
Qed.

(** Inside a call, an operation other than the lock's adds no lock
    event to the log. *)
Lemma handle_lock_free {R} (o : op R) (w : world) :
  lock_free R o ->
  exists evs, trace (handle o w).2 = trace w ++ evs /\ well_bracketed true evs = Some true.
Proof.
  intros Ho. destruct o; simpl in Ho; try done; handle_cases w;
    first [ by exists []; rewrite app_nil_r
          | by eexists [_]
          | match goal with
            | |- context [write_event _ _ ?r] => destruct r
            | |- context [flush_event _ ?r] => destruct r
            | |- context [read_event _ ?r] => destruct r
            end; by eexists [_] ].
Qed.

Lemma history_length (w0 : world) (ms : list (prog json)) (order : list nat)
    (outs : list (outcome json)) (wd : world) :
  history w0 ms order outs wd -> List.length outs = List.length order.
Proof. induction 1; [done |]. rewrite !length_app. simpl. lia. Qed.

Lemma pool_inv_init (w0 : world) (ms : list (prog json)) :
  Forall waiting ms -> pool_inv w0 ms (Pool w0 None ms).
Proof.
  intros Hms. exists [], [], w0. split; [constructor |]. split; [| split; [done |]].
  - intros i m Hi. simpl in *. destruct (decide (None = Some i)); [done |].
    left. split; [done |]. split; [by eapply Forall_lookup_1 | apply not_elem_of_nil].
  - exists []. by rewrite app_nil_r.
Qed.

(** The holder leaves its call with outcome [o]: the call joins the
    history. *)
Lemma pool_inv_release (w0 : world) (ms : list (prog json)) (s : pool) (t : nat)
    (fin : prog json) (o : outcome json) :
  pool_inv w0 ms s ->
  holder s = Some t ->
  threads s !! t = Some (Do LockRelease (fun _ => fin)) ->
  result_of fin = Some o ->
  run (Do LockRelease (fun _ => fin)) (shared s) = (o, log EvRelease (shared s)) ->
  pool_inv w0 ms (Pool (log EvRelease (shared s)) None (<[t := fin]> (threads s))).
Proof.
  intros (order & outs & wd & Hhist & Hthr & Hfree & evs & Htr & Hbr) Hhold Ht Hres Hrun.
  pose proof (Hthr t _ Ht) as Hm. rewrite decide_True in Hm by done.
  destruct Hm as (_ & Hnot & m0 & Hm0 & Hsame).
  exists (order ++ [t]), (outs ++ [o]), (log EvRelease (shared s)).
  split; [| split; [| split; [done |]]].
  - eapply history_snoc; eauto. by rewrite <- Hsame.
  - intros i m. simpl. intros Hi.
    destruct (decide (None = Some i)); [done |].
    destruct (decide (i = t)) as [-> | Hne].
    + rewrite list_lookup_insert_eq in Hi by (by eapply lookup_lt_Some).
      injection Hi as <-. right. exists (List.length order), o.
      split; [by rewrite lookup_app_r, Nat.sub_diag by lia |].
      split; [| done].
      rewrite <- (history_length _ _ _ _ _ Hhist).
      by rewrite lookup_app_r, Nat.sub_diag by lia.
    + rewrite list_lookup_insert_ne in Hi by done.
      specialize (Hthr i m Hi). rewrite decide_False in Hthr by congruence.
      destruct Hthr as [(? & ? & ?) | (k & o' & Hk & Ho & ?)].
      * left. split; [done |]. split; [done |].
        intros [Hin | Hin%list_elem_of_singleton]%elem_of_app; done.
      * right. exists k, o'.
        split; [by apply lookup_app_l_Some |]. split; [by apply lookup_app_l_Some | done].
  - exists (evs ++ [EvRelease]). simpl. rewrite Htr, app_assoc. split; [done |].
    rewrite well_bracketed_app, Hbr. unfold lock_held. by rewrite Hhold.
Qed.

Lemma pool_inv_step (w0 : world) (ms : list (prog json)) (s s' : pool) (t : nat) :
  pool_inv w0 ms s -> cstep t s = Some s' -> pool_inv w0 ms s'.
Proof.
  intros Hinv Hstep. unfold cstep in Hstep.
  destruct (threads s !! t) as [m |] eqn:Ht; [| done].
  pose proof Hinv as (order & outs & wd & Hhist & Hthr & Hfree & evs & Htr & Hbr).
  pose proof (Hthr t m Ht) as Hm.
  destruct (decide (holder s = Some t)) as [Hhold | Hhold].
  - (* the holder moves on inside its call *)
    destruct Hm as ((body & -> & Hbody) & Hnot & m0 & Hm0 & Hsame).
    assert (lock_held s = true) as Hheld by (unfold lock_held; by rewrite Hhold).
    destruct body as [a | e | R o k]; simpl in Hstep.
    + injection Hstep as <-. by eapply (pool_inv_release w0 ms s t (Ret a) (Returned a)).
    + injection Hstep as <-. by eapply (pool_inv_release w0 ms s t (Raise e) (Raised e)).
    + destruct Hbody as [Ho Hk].
      destruct (lock_free_flags o Ho) as [Ha Hr]. rewrite Ha, Hr in Hstep. simpl in Hstep.
      destruct (handle_lock_free o (shared s) Ho) as (evs' & Htr' & Hbr').
      simpl in Hsame.
      destruct (handle o (shared s)) as [r w'] eqn:Hh. injection Hstep as <-.
      simpl in Htr'. exists order, outs, wd.
      split; [done |]. split; [| split].
      * intros i m. simpl. intros Hi.
        destruct (decide (i = t)) as [-> | Hne].
        { rewrite list_lookup_insert_eq in Hi by (by eapply lookup_lt_Some).
          injection Hi as <-. rewrite decide_True by done.
          split; [by exists (k r) |]. split; [done |]. by exists m0. }
        rewrite list_lookup_insert_ne in Hi by done.
        specialize (Hthr i m Hi).
        destruct (decide (holder s = Some i)); [congruence | done].
      * simpl. congruence.
      * exists (evs ++ evs'). simpl. rewrite Htr', Htr, app_assoc. split; [done |].
        rewrite well_bracketed_app, Hbr, Hheld, Hbr'. unfold lock_held. simpl.
        by rewrite Hhold.
  - (* a thread that does not hold the lock can only take it *)
    destruct Hm as [(Hms & (body & -> & Hbody) & Hnot) | (k & o & _ & _ & Hres)];
      [| by destruct m].
    simpl in Hstep. destruct (holder s) as [t' |] eqn:Hh; [done |].
    injection Hstep as <-. exists order, outs, wd.
    split; [done |]. split; [| split; [done |]].
    + intros i m. simpl. intros Hi.
      destruct (decide (i = t)) as [-> | Hne].
      { rewrite list_lookup_insert_eq in Hi by (by eapply lookup_lt_Some).
        injection Hi as <-. rewrite decide_True by done.
        split; [by exists body |]. split; [done |].
        exists (with_lock body). split; [done |].
        by rewrite <- (Hfree eq_refl). }
      rewrite list_lookup_insert_ne in Hi by done.
      specialize (Hthr i m Hi). rewrite decide_False by congruence.
      destruct (decide (None = Some i)); done.
    + exists (evs ++ [EvAcquire]). simpl. rewrite Htr, app_assoc. split; [done |].
      rewrite well_bracketed_app, Hbr. unfold lock_held. by rewrite Hh.
Qed.

Lemma pool_inv_crun (w0 : world) (ms : list (prog json)) (schedule : list nat) (s : pool) :
  pool_inv w0 ms s -> pool_inv w0 ms (crun schedule s).
Proof.
  revert s. induction schedule as [| t rest IH]; intros s Hs; simpl; [done |].
  apply IH. destruct (cstep t s) as [s' |] eqn:Hstep; simpl; [| done].
  by eapply pool_inv_step.
Qed.

End Interleaving.

Section Serialization.
Context {E : Engine} {C : Codec} (cfg : config).

Lemma send_to_backend_waiting (payload : json) : waiting (send_to_backend cfg payload).
Proof.
  eexists. split; [reflexivity |].
  uses_tac.
Qed.

(** The call from the point where the mock prelude is over: the
    events before the exchange, the exchange if there is a process to
    talk to, and the handle the call leaves. *)
Lemma dispatch_served (payload : json) (w : world) :
  exists r w' pre xs,
    run (catch (start_backend cfg ;; reset_and_exchange cfg payload) on_exception) w
      = (Returned r, w') /\
    trace w' = trace w ++ pre ++ xs /\
    call_setup (BACKEND_PROCESS w) pre (BACKEND_PROCESS w') /\
    match BACKEND_PROCESS w' with
    | Some q => exchange q (json_dumps payload +:+ LF) xs r
    | None =>
        xs = [] /\
        (r = failure (exn_str (no_attribute "NoneType" "poll")) \/
         r = failure (exn_str (no_attribute "NoneType" "stdin")))
    end.
Proof.
  rewrite run_catch_bind.
  destruct (start_backend_shape cfg w) as (w1 & evs & -> & Htr1 & Hst1).
  unfold reset_and_exchange, backend_process. cbn.
  destruct (BACKEND_PROCESS w1) as [p |] eqn:Hh1; cbn.
  2: { eexists _, w1, evs, []. rewrite Hh1, app_nil_r.
       split; [done |]. split; [done |]. split; [by constructor | by split; [| left]]. }
  destruct (engine_poll (procs w1 p)) as [[code |] st] eqn:Hpoll; cbn.
  - rewrite run_catch_bind.
    set (w2 := set_BACKEND_PROCESS None (log (EvPoll p (Some code)) (set_proc p st w1))).
    destruct (start_backend_shape cfg w2) as (w3 & evs' & -> & Htr3 & Hst3).
    change (BACKEND_PROCESS w2) with (@None pid) in Hst3.
    destruct (BACKEND_PROCESS w3) as [q |] eqn:Hh3.
    + destruct (exchange_run payload w3 q Hh3) as (r & w4 & xs & -> & Htr4 & Hex & Hh4).
      exists r, w4, (evs ++ EvPoll p (Some code) :: evs'), xs.
      split; [done |]. split; [| split].
      * rewrite Htr4, Htr3. subst w2. cbn. rewrite Htr1. by rewrite <- !app_assoc.
      * rewrite Hh4. by eapply setup_restart.
      * by rewrite Hh4.
    + rewrite (exchange_no_process payload w3 Hh3).
      eexists _, w3, (evs ++ EvPoll p (Some code) :: evs'), [].
      split; [done |]. split; [| split].
      * rewrite Htr3, app_nil_r. subst w2. cbn. rewrite Htr1. by rewrite <- !app_assoc.
      * rewrite Hh3. by eapply setup_restart.
      * rewrite Hh3. by split; [| right].
  - set (w2 := log (EvPoll p None) (set_proc p st w1)).
    assert (BACKEND_PROCESS w2 = Some p) as Hh2 by done.
    destruct (exchange_run payload w2 p Hh2) as (r & w3 & xs & -> & Htr3 & Hex & Hh3).
    exists r, w3, (evs ++ [EvPoll p None]), xs.
    split; [done |]. split; [| split].
    + rewrite Htr3. subst w2. cbn. rewrite Htr1. by rewrite <- !app_assoc.
    + rewrite Hh3. by constructor.
    + by rewrite Hh3.
Qed.

Lemma call_setup_counts (h0 h : option pid) (pre : list event) :
  call_setup h0 pre h ->
  count is_write pre = 0%nat /\ count is_lock_event pre = 0%nat /\
  (count is_spawn pre <= 2)%nat /\ count is_read pre = count is_spawned pre.
Proof.
  intros [evs Hs | evs p Hs | evs p code evs' h' Hs Hs'];
    repeat match goal with
      | H : start_events _ _ _ |- _ => apply start_events_counts in H as (? & ? & ? & ? & ?)
      end;
    unfold is_spawned; rewrite ?count_app, ?count_cons; cbn; repeat split; lia.
Qed.


End Serialization.

(** ** The claims on the example worlds *)

Module Examples.
Import Scripted Worlds.

(** Scenario A of the specification on the code: the engine is absent,
    the search for Tolkien comes back as a failure. *)
Lemma absent_engine_search :
  exists w',
    run (send_to_backend cfg (JObj search)) bare =
      (Returned (failure "'NoneType' object has no attribute 'poll'"), w') /\
    new_events bare w' = [EvAcquire; EvRelease] /\
    USE_MOCK_BACKEND w' = true /\
    BACKEND_PROCESS w' = None /\
    (forall p, p ∈ candidates -> path_exists p w' = false).
Proof.
  apply (absent_engine_call_fails cfg (fun _ => false) candidates bare search).
  - reflexivity.
  - intros p _. reflexivity.
  - reflexivity.
Defined.

Lemma retry_on_forgotten_user :
  exists r w',
    run (send_with_retry cfg session issue) forgetful = (Returned r, w') /\
    ((false = false /\ has_marker "User not found" = true /\
      is_Some (obj_lookup "user_id" session))
     <-> calls (new_events forgetful w') = 3%nat) /\
    (calls (new_events forgetful w') <> 3%nat ->
     calls (new_events forgetful w') = 1%nat /\ r = user_not_found /\
     w' = (run (send_to_backend cfg issue) forgetful).2) /\
    (calls (new_events forgetful w') = 3%nat ->
     exists add_user ra wa,
       session_identity session = Some add_user /\
       run (send_to_backend cfg add_user) (run (send_to_backend cfg issue) forgetful).2
         = (Returned ra, wa) /\
       run (send_to_backend cfg issue) wa = (Returned r, w')).
Proof.
  assert (run (send_to_backend cfg issue) forgetful =
          (Returned user_not_found, (run (send_to_backend cfg issue) forgetful).2)) as H1
    by (vm_compute; reflexivity).
  exact (retry_exactly_once cfg session issue forgetful _ _ false "User not found"
           H1 eq_refl eq_refl).
Defined.

Lemma crashed_engine_restarted :
  exists r w' cwd banner xs,
    run (send_to_backend cfg (JObj search)) crashed = (Returned r, w') /\
    new_events crashed w' =
      [EvAcquire; EvPoll 0%nat (Some 1);
       EvSpawn (next_pid crashed) (backend_args cfg) cwd; banner] ++ xs ++ [EvRelease] /\
    is_banner_read (next_pid crashed) banner /\
    exchange (next_pid crashed) (json_dumps (JObj search) +:+ LF) xs r /\
    count is_spawn (new_events crashed w') = 1%nat /\
    BACKEND_PROCESS w' = Some (next_pid crashed).
Proof.
  assert (forall args cwd,
    EvSpawnFailed args cwd
      ∉ new_events crashed (run (send_to_backend cfg (JObj search)) crashed).2) as H4.
  { intros args cwd Hin. apply list_elem_of_In in Hin. vm_compute in Hin.
    intuition discriminate. }
  exact (dead_engine_restarted_once cfg search crashed 0%nat 1 (Script (Some 1) [] false)
           eq_refl eq_refl eq_refl H4).
Defined.

Lemma silent_engine_empty_output :
  (run (send_to_backend cfg (JObj search)) silent).1 =
    Returned (JObj [("success", JBool false);
                    ("message", JStr "Backend not responding (Empty Output)")]).
Proof.
  assert (new_events silent (run (send_to_backend cfg (JObj search)) silent).2 =
          [EvAcquire; EvPoll 0%nat None;
           EvWrite 0%nat (json_dumps (JObj search) +:+ LF); EvFlush 0%nat]
          ++ [EvReadline 0%nat ""; EvRelease]) as H1
    by (vm_compute; reflexivity).
  exact (empty_output_response cfg (JObj search) silent 0%nat _ H1).
Defined.

Lemma storeless_startup :
  run (initial_migration cfg) storeless = (Returned (), storeless) /\
  run (rehydrate_from_mongodb cfg) storeless = (Returned (), storeless) /\
  exists w',
    run (start_backend cfg) storeless = (Returned (), w') /\
    new_events storeless w' =
      [EvSpawn (next_pid storeless) (backend_args cfg) (launch_cwd cfg storeless);
       EvReadline (next_pid storeless) ("Library System Ready" +:+ LF)] /\
    BACKEND_PROCESS w' = Some (next_pid storeless) /\
    USE_MOCK_BACKEND w' = USE_MOCK_BACKEND storeless /\
    fs w' = fs storeless /\
    db w' = None.
Proof.
  assert (engine_spawn (backend_args cfg) (launch_cwd cfg storeless) (fs storeless)
          = inr (Script None ["Library System Ready" +:+ LF; say ok] true)) as H1
    by (vm_compute; reflexivity).
  exact (startup_without_store cfg storeless _ (Script None [say ok] true)
           ("Library System Ready" +:+ LF) eq_refl eq_refl eq_refl H1 eq_refl).
Defined.

Lemma populated_books_untouched :
  coll_of Books (run (initial_migration cfg) fresh).2 = Some [a_book] /\
  coll_of Books (run (startup_sync cfg) fresh).2 = Some [a_book].
Proof.
  apply (migration_leaves_nonempty_collection cfg Books fresh [a_book]).
  - reflexivity.
  - discriminate.
Defined.

(** The claim of C7 fails when the engine answers with a JSON value that
    is not a mapping: the caller gets that value. *)
Lemma list_reply_returned_verbatim :
  (run (send_to_backend cfg (JObj search)) (world0 (installed answering_list) None)).1
    = Returned (JArr []) /\
  is_response (JArr []) = false.
Proof. split; vm_compute; reflexivity. Qed.


(** [int()] and [splitlines()] on some edge cases, as CPython 3.11
    answers them. *)
Lemma conversions_as_python :
  py_int (VStr " 007 ") = inr 7 /\
  py_int (VStr "-1_000") = inr (-1000) /\
  py_int (VStr (String (ascii_of_nat 160) "5")) = inr 5 /\
  py_int (VStr (String (ascii_of_nat 28) "5")) =
    inl (Exn ValueError "invalid literal for int() with base 10: '\x1c5'") /\
  py_int (VStr "1__0") =
    inl (Exn ValueError "invalid literal for int() with base 10: '1__0'") /\
  py_int (VStr (String.concat "" (replicate 4301 "1"))) =
    inl (Exn ValueError
           ("Exceeds the limit (4300 digits) for integer string conversion: "
            +:+ "value has 4301 digits; use sys.set_int_max_str_digits() "
            +:+ "to increase the limit")) /\
  splitlines ("a" +:+ String (ascii_of_nat 12) "b" +:+ String (ascii_of_nat 133) "c")
    = ["a"; "b"; "c"] /\
  splitlines ("a" +:+ CRLF +:+ LF +:+ "b" +:+ LF) = ["a"; ""; "b"].
Proof. repeat split; vm_compute; reflexivity. Qed.

(** A Copies cell beyond eight bytes: [int()] reads it, the driver
    refuses the document, and nothing is migrated. *)
Lemma oversized_copies_not_migrated :
  run (initial_migration cfg)
      (world0 {[ LOCAL_BOOKS cfg :=
                   File ("ISBN,Title,Author,Category,Copies" +:+ LF +:+
                         "1,Dune,Herbert,SF,9223372036854775808" +:+ LF) ]}
              (Some empty_store))
  = (Raised int_overflow,
     world0 {[ LOCAL_BOOKS cfg :=
                 File ("ISBN,Title,Author,Category,Copies" +:+ LF +:+
                       "1,Dune,Herbert,SF,9223372036854775808" +:+ LF) ]}
            (Some empty_store)).
Proof. vm_compute. reflexivity. Qed.

(** With the engine running, the call writes once and reads once. *)
Lemma live_engine_one_write_one_read :
  count is_write
    (new_events forgetful (run (send_to_backend cfg (JObj search)) forgetful).2) = 1%nat /\
  count is_read
    (new_events forgetful (run (send_to_backend cfg (JObj search)) forgetful).2) = 1%nat.
Proof. split; vm_compute; reflexivity. Qed.

(** The claim of C4 fails for an empty books collection: the flat file
    is not rewritten as a header with no rows, it keeps what it held. *)
Lemma empty_collection_keeps_stale_file :
  (run (rehydrate_from_mongodb cfg) leftover).1 = Returned () /\
  coll_of Books leftover = Some [] /\
  fs (run (rehydrate_from_mongodb cfg) leftover).2 !! BOOKS_CSV cfg
    = Some (File stale_books) /\
  stale_books <> csv_table BOOK_FIELDS [].
Proof.
  split; [vm_compute; reflexivity |].
  split; [vm_compute; reflexivity |].
  split; [vm_compute; reflexivity |].
  intros H. vm_compute in H. discriminate.
Qed.

Lemma one_book_rehydrated :
  exists w',
    run (rehydrate_from_mongodb cfg) fresh = (Returned (), w') /\
    db w' = db fresh /\
    fs w' !! BOOKS_CSV cfg =
      (if nonempty (books one_book)
       then Some (File (csv_table BOOK_FIELDS (book_row <$> books one_book)))
       else fs fresh !! BOOKS_CSV cfg) /\
    fs w' !! USERS_CSV cfg =
      (if nonempty (users one_book)
       then Some (File (csv_table USER_FIELDS (user_row <$> users one_book)))
       else fs fresh !! USERS_CSV cfg) /\
    fs w' !! TRANS_CSV cfg =
      Some (File (if nonempty (transactions one_book)
                  then csv_table TXN_FIELDS []
                  else "TID,UID,BID,CID,Type,Timestamp" +:+ LF)) /\
    List.length (book_row <$> books one_book) = List.length (books one_book) /\
    List.length (user_row <$> users one_book) = List.length (users one_book) /\
    List.length (@nil (list value)) = List.length (transactions one_book).
Proof.
  assert (NoDup [BOOKS_CSV cfg; USERS_CSV cfg; TRANS_CSV cfg]) as H3
    by (apply (bool_decide_unpack _); vm_compute; exact I).
  assert (forall p, p ∈ [BOOKS_CSV cfg; USERS_CSV cfg; TRANS_CSV cfg] ->
                    write_refused p fresh = None) as H4
    by (intros p _; reflexivity).
  exact (rehydration_files cfg fresh one_book [] eq_refl eq_refl eq_refl H3 H4 eq_refl).
Defined.

(** The claim of C6 fails on the case of the type: the three rows are
    migrated, with the lower-case types the file has. *)
Lemma migrated_types_as_in_file :
  (fun docs : list doc => doc_get "type" <$> docs)
    <$> coll_of Users (run (startup_sync cfg) to_migrate).2
    = Some [VStr "student"; VStr "faculty"; VStr "student"] /\
  upper "student" = "STUDENT" /\ upper "faculty" = "FACULTY".
Proof. repeat split; vm_compute; reflexivity. Qed.

(** With a handle whose truth test raises, the synchronisation stops at
    its first line and migrates nothing. *)
Lemma strict_handle_stops_sync :
  run (startup_sync cfg) strict = (Raised no_truth_value, strict).
Proof. vm_compute. reflexivity. Qed.

(** Two calls scheduled step by step in turn end as the same two calls
    made one after the other. *)
Lemma alternating_calls_serial :
  holder (crun alternate (Pool forgetful None two_calls)) = None /\
  result_of <$> threads (crun alternate (Pool forgetful None two_calls))
    = Some <$> (serial two_calls forgetful).1 /\
  shared (crun alternate (Pool forgetful None two_calls))
    = (serial two_calls forgetful).2.
Proof. split; [| split]; vm_compute; reflexivity. Qed.

Lemma three_users_migrated :
  coll_of Users (run (startup_sync cfg) to_migrate).2
    = Some (user_doc <$> (reader_row USER_FIELDS <$> data_rows legacy_rows)) /\
  List.length (user_doc <$> (reader_row USER_FIELDS <$> data_rows legacy_rows))
    = List.length (data_rows legacy_rows).
Proof.
  assert ((run (migrate Books (LOCAL_BOOKS cfg) book_of_row) to_migrate).1 = Returned ())
    as H4 by (vm_compute; reflexivity).
  assert (fs to_migrate !! LOCAL_USERS cfg = Some (File legacy_users)) as H5
    by (vm_compute; reflexivity).
  assert (csv_reader legacy_users = (USER_FIELDS :: legacy_rows, None)) as H6
    by (vm_compute; reflexivity).
  exact (users_migrated_as_written cfg to_migrate empty_store legacy_users
           USER_FIELDS legacy_rows eq_refl eq_refl eq_refl eq_refl H4 H5 H6
           (fun k Hk => Hk)).
Defined.

End Examples.

(** ** Beyond the claims: the supervisor and the channel *)

Section Supervisor.
Context {E : Engine} {C : Codec} (cfg : config).

Lemma pipe_op_run {A} (m : prog A) (w : world) :
  uses pipe_op m -> same_site w (run m w).2.
Proof.
  apply (uses_run pipe_op same_site).
  - by intros ?.
  - unfold same_site.
    intros w1 w2 w3 (-> & -> & -> & -> & -> & -> & -> & ->)
      (-> & -> & -> & -> & -> & -> & -> & ->). done.
  - intros R o w0 Ho. unfold same_site.
    destruct o; simpl in Ho; try done; handle_cases w0; done.
Qed.

Lemma exchange_pipe (payload : json) :
  uses pipe_op (catch (exchange_prog payload) on_exception).
Proof. unfold exchange_prog, backend_process, on_exception. uses_tac. Qed.

Lemma startup_sync_sync : uses sync_op (startup_sync cfg).
Proof. unfold startup_sync, initial_migration, rehydrate_from_mongodb, migrate. uses_tac. Qed.

Lemma launch_keeps_flag (w : world) :
  USE_MOCK_BACKEND w = true -> USE_MOCK_BACKEND (run (launch cfg) w).2 = true.
Proof.
  intros Hf.
  destruct (engine_spawn (backend_args cfg) (launch_cwd cfg w) (fs w)) as [e | st] eqn:Hs.
  - by rewrite (launch_failed cfg w e Hs).
  - destruct (engine_readline st) as [r st'] eqn:Hr.
    rewrite (launch_ok cfg w st st' r Hs Hr). unfold started. by destruct r.
Qed.

(** X1. With the synchronisation failing, [start_backend] goes on to the
    launch: the bridge ends in mock mode and with whatever the launch
    made of the engine. *)
Theorem failed_sync_still_launches (w : world) (e : exn) :
  path_exists (BACKEND_EXECUTABLE cfg) w = true ->
  BACKEND_PROCESS w = None ->
  (run (startup_sync cfg) w).1 = Raised e ->
  exists w',
    run (start_backend cfg) w = (Returned (), w') /\
    USE_MOCK_BACKEND w' = true /\
    launch_events (next_pid w) (new_events w w') (BACKEND_PROCESS w').
Proof.
  intros Hexe Hh Hsync. rewrite (start_backend_cold cfg w Hexe Hh).
  unfold guarded_sync. rewrite run_catch.
  destruct (sync_op_run (startup_sync cfg) w startup_sync_sync) as (b & f & d & Hw).
  destruct (run (startup_sync cfg) w) as [o w1]. simpl in Hw, Hsync. subst o w1. cbn.
  set (ws := set_USE_MOCK_BACKEND true (set_USE_MOCK_BACKEND b (set_db d (set_fs f w)))).
  destruct (launch_shape cfg ws) as (w' & evs & h & Hrun & Htr & Hh' & Hev).
  exists w'. split; [done |]. split.
  - pose proof (launch_keeps_flag ws eq_refl) as Hflag. by rewrite Hrun in Hflag.
  - rewrite (new_events_app w w' evs) by done. rewrite Hh'. by apply Hev.
Qed.

(** A call that finds its process alive, from the point where the mock
    prelude is over. *)
Lemma dispatch_alive (payload : json) (w : world) (p : pid) (st : proc) :
  BACKEND_PROCESS w = Some p ->
  engine_poll (procs w p) = (None, st) ->
  exists r w' xs,
    run (catch (start_backend cfg ;; reset_and_exchange cfg payload) on_exception) w
      = (Returned r, w') /\
    trace w' = trace w ++ EvPoll p None :: xs /\
    exchange p (json_dumps payload +:+ LF) xs r /\
    BACKEND_PROCESS w' = Some p /\ next_pid w' = next_pid w /\
    fs w' = fs w /\ db w' = db w /\ MOCK_BOOKS w' = MOCK_BOOKS w /\
    USE_MOCK_BACKEND w' =
      USE_MOCK_BACKEND w || negb (path_exists (BACKEND_EXECUTABLE cfg) w).
Proof.
  intros Hh Hpoll. rewrite run_catch_bind.
  assert (exists b, run (start_backend cfg) w = (Returned (), set_USE_MOCK_BACKEND b w) /\
                    b = USE_MOCK_BACKEND w || negb (path_exists (BACKEND_EXECUTABLE cfg) w))
    as (b & -> & Hb).
  { destruct (path_exists (BACKEND_EXECUTABLE cfg) w) eqn:Hexe.
    - exists (USE_MOCK_BACKEND w). rewrite (start_backend_running cfg w p Hexe Hh).
      split; [by destruct w | by rewrite orb_false_r].
    - exists true. rewrite (start_backend_absent cfg w Hexe). by rewrite orb_true_r. }
  unfold reset_and_exchange, backend_process. cbn. rewrite Hh. cbn. rewrite Hpoll. cbn.
  set (w2 := log (EvPoll p None) (set_proc p st (set_USE_MOCK_BACKEND b w))).
  assert (BACKEND_PROCESS w2 = Some p) as Hh2 by done.
  destruct (exchange_run payload w2 p Hh2) as (r & w3 & xs & Hrun & Htr & Hex & Hh3).
  destruct (pipe_op_run _ w2 (exchange_pipe payload))
    as (_ & Hf & Hm & Hfs & _ & _ & Hdb & Hn).
  rewrite Hrun in *. simpl in Hf, Hm, Hfs, Hdb, Hn.
  exists r, w3, xs. split; [done |]. split.
  { rewrite Htr. subst w2. cbn. by rewrite <- app_assoc. }
  repeat split; try done. by rewrite Hf, <- Hb.
Qed.

(** Past the mock prelude a call on a mapping goes on as it would with
    the flag down, [MOCK_BOOKS] apart. *)
Lemma after_prelude (request : list (string * json)) (w : world) :
  exists l,
    run (catch (mock ← call GetUseMock;
                (if mock then mock_prelude cfg (JObj request) else Ret ()) ;;
                start_backend cfg ;; reset_and_exchange cfg (JObj request)) on_exception) w =
    run (catch (start_backend cfg ;; reset_and_exchange cfg (JObj request)) on_exception)
        (set_MOCK_BOOKS l w).
Proof.
  rewrite run_catch_bind. cbn. rewrite run_catch_bind. destruct (USE_MOCK_BACKEND w).
  - destruct (mock_prelude_run cfg request w) as [l ->]. by exists l.
  - exists (MOCK_BOOKS w). cbn. by rewrite set_MOCK_BOOKS_id.
Qed.

(** X2. The steady state of the channel. A call that finds the recorded
    process alive polls it once and exchanges one request with it:
    nothing is spawned, no file and no collection is touched. *)
Theorem live_engine_call (request : list (string * json)) (w : world) (p : pid)
    (st : proc) :
  BACKEND_PROCESS w = Some p ->
  engine_poll (procs w p) = (None, st) ->
  exists r w' xs,
    run (send_to_backend cfg (JObj request)) w = (Returned r, w') /\
    new_events w w' = EvAcquire :: EvPoll p None :: xs ++ [EvRelease] /\
    exchange p (json_dumps (JObj request) +:+ LF) xs r /\
    BACKEND_PROCESS w' = Some p /\ next_pid w' = next_pid w /\
    fs w' = fs w /\ db w' = db w /\
    USE_MOCK_BACKEND w' =
      USE_MOCK_BACKEND w || negb (path_exists (BACKEND_EXECUTABLE cfg) w).
Proof.
  intros Hh Hpoll.
  rewrite send_to_backend_eq, run_with_lock.
  destruct (after_prelude request (log EvAcquire w)) as [l ->].
  destruct (dispatch_alive (JObj request) (set_MOCK_BOOKS l (log EvAcquire w)) p st)
    as (r & w' & xs & -> & Htr & Hex & Hh' & Hn & Hfs & Hdb & _ & Hflag); [done | done |].
  exists r, (log EvRelease w'), xs. split; [done |]. split.
  { apply new_events_app. cbn. rewrite Htr. cbn. by rewrite <- !app_assoc. }
  done.
Qed.

(** X3. A call with no process recorded and none coming up: whether the
    executable is missing or [Popen] fails, the response is the failure
    built from the attribute error on the missing handle, nothing is
    written to any pipe, and the bridge is left in mock mode. *)
Theorem no_process_no_exchange (request : list (string * json)) (w : world) :
  BACKEND_PROCESS w = None ->
  (forall q args cwd,
     EvSpawn q args cwd ∉ new_events w (run (send_to_backend cfg (JObj request)) w).2) ->
  exists w' evs,
    run (send_to_backend cfg (JObj request)) w =
      (Returned (failure "'NoneType' object has no attribute 'poll'"), w') /\
    new_events w w' = EvAcquire :: evs ++ [EvRelease] /\
    (evs = [] \/ exists args cwd, evs = [EvSpawnFailed args cwd]) /\
    BACKEND_PROCESS w' = None /\
    USE_MOCK_BACKEND w' = true.
Proof.
  intros Hh. rewrite send_to_backend_eq, run_with_lock.
  destruct (after_prelude request (log EvAcquire w)) as [l ->].
  set (wm := set_MOCK_BOOKS l (log EvAcquire w)).
  assert (trace wm = trace w ++ [EvAcquire]) as Htm by done.
  rewrite run_catch_bind.
  destruct (path_exists (BACKEND_EXECUTABLE cfg) wm) eqn:Hexe.
  2: { rewrite (start_backend_absent cfg wm Hexe).
       unfold reset_and_exchange, backend_process. cbn. rewrite Hh. cbn. intros _.
       eexists _, []. split; [reflexivity |]. split; [| by auto].
       apply new_events_app. cbn. by rewrite <- app_assoc. }
  rewrite (start_backend_cold cfg wm Hexe Hh).
  destruct (sync_op_run (guarded_sync cfg) wm (guarded_sync_sync cfg)) as (b & f & d & ->).
  set (ws := set_USE_MOCK_BACKEND b (set_db d (set_fs f wm))).
  destruct (engine_spawn (backend_args cfg) (launch_cwd cfg ws) (fs ws)) as [e | st] eqn:Hs.
  - rewrite (launch_failed cfg ws e Hs).
    unfold reset_and_exchange, backend_process. cbn. rewrite Hh. cbn. intros _.
    eexists _, [_]. split; [reflexivity |]. split; [| by eauto 6].
    apply new_events_app. cbn. by rewrite <- !app_assoc.
  - destruct (engine_readline st) as [rb st'] eqn:Hr.
    rewrite (launch_ok cfg ws st st' rb Hs Hr).
    set (w1 := started cfg ws st st' rb).
    assert (trace w1 = trace w ++ [EvAcquire; EvSpawn (next_pid w) (backend_args cfg)
                                      (launch_cwd cfg ws); read_event (next_pid w) rb])
      as Ht1.
    { unfold w1, started. destruct rb; cbn; by rewrite <- !app_assoc. }
    destruct (run_trace (catch (reset_and_exchange cfg (JObj request)) on_exception) w1)
      as [more Hmore].
    intros Hnone. exfalso.
    apply (Hnone (next_pid w) (backend_args cfg) (launch_cwd cfg ws)).
    rewrite (new_events_app w _ ([EvAcquire; EvSpawn (next_pid w) (backend_args cfg)
                                    (launch_cwd cfg ws); read_event (next_pid w) rb]
                                 ++ more ++ [EvRelease])).
    + set_solver.
    + cbn [snd]. cbn. rewrite Hmore, Ht1. by rewrite <- !app_assoc.
Qed.

End Supervisor.


(** ** Beyond the claims: the bundled snapshot and the migration *)

Section Snapshot.
Context {E : Engine} {C : Codec} (cfg : config).

Lemma gather_line_run (line : string) (w : world) :
  run (gather_line line) w =
  match mock_book_of_line line with
  | inl e => (Raised e, w)
  | inr (Some book) => (Returned (), set_MOCK_BOOKS (MOCK_BOOKS w ++ [book]) w)
  | inr None => (Returned (), w)
  end.
Proof. unfold gather_line. by destruct (mock_book_of_line line) as [e | [book |]]. Qed.

Lemma snapshot_loop (lines : list string) (w : world) :
  match snapshot_books lines with
  | inr bs =>
      run (for_each lines gather_line) w =
      (Returned (), set_MOCK_BOOKS (MOCK_BOOKS w ++ bs) w)
  | inl e => exists l, run (for_each lines gather_line) w = (Raised e, set_MOCK_BOOKS l w)
  end.
Proof.
  revert w. induction lines as [| line rest IH]; intros w; cbn [snapshot_books for_each].
  - cbn. by rewrite app_nil_r, set_MOCK_BOOKS_id.
  - rewrite run_bind, gather_line_run.
    destruct (mock_book_of_line line) as [e | [book |]]; cbn [bind_err].
    + exists (MOCK_BOOKS w). by rewrite set_MOCK_BOOKS_id.
    + specialize (IH (set_MOCK_BOOKS (MOCK_BOOKS w ++ [book]) w)).
      destruct (snapshot_books rest) as [e | bs]; cbn [bind_err].
      * destruct IH as [l ->]. by exists l.
      * rewrite IH. cbn. by rewrite <- app_assoc.
    + specialize (IH w).
      destruct (snapshot_books rest) as [e | bs]; cbn [bind_err]; [| done].
      destruct IH as [l ->]. by exists l.
Qed.

Lemma snapshot_books_fails (lines : list string) (line : string) (e : exn) :
  line ∈ lines -> mock_book_of_line line = inl e ->
  exists e', snapshot_books lines = inl e'.
Proof.
  induction lines as [| l rest IH]; intros Hin Hl; [by apply elem_of_nil in Hin |].
  simpl. destruct (mock_book_of_line l) as [e1 | b] eqn:Hb; simpl; [by eexists |].
  apply elem_of_cons in Hin as [-> | Hin]; [congruence |].
  destruct (IH Hin Hl) as [e' ->]. by eexists.
Qed.


End Snapshot.

Section Migration.
Context {E : Engine} {C : Codec} (cfg : config).

(** One half of the migration, in closed form. *)
Lemma migrate_run (c : coll) (p : path) (of_row : doc -> exn + doc) (w : world)
    (s : store) :
  db w = Some s -> reachable s = true ->
  run (migrate c p of_row) w =
  match collection c s with
  | _ :: _ => (Returned (), w)
  | [] =>
      match fs w !! p with
      | None => (Returned (), w)
      | Some Dir => (Raised (Exn OSError ("[Errno 21] Is a directory: '" +:+ p +:+ "'")), w)
      | Some (File text) =>
          match to_insert of_row text with
          | inl e => (Raised e, w)
          | inr [] => (Returned (), w)
          | inr to_add =>
              if forallb encodable to_add
              then (Returned (), set_db (Some (insert_many c to_add s)) w)
              else (Raised int_overflow, w)
          end
      end
  end.
Proof.
  intros Hdb Hr. unfold migrate, to_insert. cbn. unfold with_store. rewrite Hdb, Hr. cbn.
  destruct (collection c s) as [| d ds]; cbn; [| done].
  unfold path_exists. destruct (fs w !! p) as [[text |] |] eqn:Hf; cbn; rewrite ?Hf; cbn;
    try done.
  destruct (map_rows of_row (dict_reader (csv_reader text).1)) as [e | to_add]; cbn;
    [done |].
  destruct (csv_reader text).2 as [e |]; cbn; [done |].
  destruct to_add as [| d ds]; cbn -[forallb]; [done |].
  unfold store_insert. rewrite Hdb, Hr. by destruct (forallb encodable (d :: ds)).
Qed.

Lemma migrate_unreachable (c : coll) (p : path) (of_row : doc -> exn + doc) (w : world)
    (s : store) :
  db w = Some s -> reachable s = false ->
  run (migrate c p of_row) w = (Raised (unreachable_error s), w).
Proof. intros Hdb Hr. unfold migrate. cbn. unfold with_store. by rewrite Hdb, Hr. Qed.

Lemma initial_migration_run (w : world) (s : store) :
  db w = Some s -> truth_error s = None ->
  run (initial_migration cfg) w =
  match run (migrate Books (LOCAL_BOOKS cfg) book_of_row) w with
  | (Returned _, w1) => run (migrate Users (LOCAL_USERS cfg) user_of_row) w1
  | (Raised e, w1) => (Raised e, w1)
  end.
Proof.
  intros Hdb Ht. unfold initial_migration. cbn. rewrite Hdb, Ht. cbn. by rewrite run_bind.
Qed.

Lemma map_rows_fails (f : doc -> exn + doc) (rows : list doc) (row : doc) (e0 : exn) :
  row ∈ rows -> f row = inl e0 -> exists e, map_rows f rows = inl e.
Proof.
  induction rows as [| r rest IH]; intros Hin Hf; [by apply elem_of_nil in Hin |].
  simpl. destruct (f r) as [e1 | d] eqn:Hr; simpl; [by eexists |].
  apply elem_of_cons in Hin as [-> | Hin]; [congruence |].
  destruct (IH Hin Hf) as [e ->]. by eexists.
Qed.

(** X5. The books half of the migration is all or nothing, and it comes
    first: one row of the legacy books file that cannot be converted
    stops the whole synchronisation with nothing inserted in any
    collection and no flat file staged, and [start_backend] answers by
    raising the mock flag. *)
Theorem bad_books_row_aborts_sync (w : world) (s : store) (text : string) (row : doc)
    (e0 : exn) :
  db w = Some s -> reachable s = true -> truth_error s = None ->
  books s = [] ->
  fs w !! LOCAL_BOOKS cfg = Some (File text) ->
  row ∈ dict_reader (csv_reader text).1 ->
  book_of_row row = inl e0 ->
  exists e,
    run (startup_sync cfg) w = (Raised e, w) /\
    run (guarded_sync cfg) w = (Returned (), set_USE_MOCK_BACKEND true w).
Proof.
  intros Hdb Hr Ht Hb Hfile Hin Hrow.
  destruct (map_rows_fails _ _ _ _ Hin Hrow) as [e He].
  assert (run (startup_sync cfg) w = (Raised e, w)) as Hsync.
  { unfold startup_sync. rewrite run_bind, (initial_migration_run w s Hdb Ht).
    rewrite (migrate_run Books _ _ w s Hdb Hr). cbn [collection]. rewrite Hb, Hfile.
    unfold to_insert. by rewrite He. }
  exists e. split; [done |]. unfold guarded_sync. by rewrite run_catch, Hsync.
Qed.

Lemma settled_run (c : coll) (p : path) (of_row : doc -> exn + doc) (w : world)
    (s : store) :
  db w = Some s -> reachable s = true ->
  settled c p of_row s (fs w) ->
  run (migrate c p of_row) w = (Returned (), w).
Proof.
  intros Hdb Hr Hs. rewrite (migrate_run c p of_row w s Hdb Hr). unfold settled in Hs.
  destruct (collection c s) as [| d ds]; [| done].
  destruct Hs as [? | [-> | (text & -> & ->)]]; done.
Qed.

Lemma migrate_settles (c : coll) (p : path) (of_row : doc -> exn + doc) (w w1 : world)
    (s : store) :
  db w = Some s -> reachable s = true ->
  run (migrate c p of_row) w = (Returned (), w1) ->
  exists s1,
    db w1 = Some s1 /\ reachable s1 = true /\ truth_error s1 = truth_error s /\
    fs w1 = fs w /\
    (forall c', c' <> c -> collection c' s1 = collection c' s) /\
    settled c p of_row s1 (fs w1).
Proof.
  intros Hdb Hr. rewrite (migrate_run c p of_row w s Hdb Hr). unfold settled.
  destruct (collection c s) as [| d ds] eqn:Hc.
  2: { intros [= <-]. exists s. rewrite Hc. repeat split; auto. }
  destruct (fs w !! p) as [[text |] |] eqn:Hf; [| done |].
  2: { intros [= <-]. exists s. repeat split; auto. }
  destruct (to_insert of_row text) as [e | [| d ds]] eqn:Hins; [done | |].
  - intros [= <-]. exists s. repeat split; eauto.
  - destruct (forallb encodable (d :: ds)); [| done].
    intros [= <-]. exists (insert_many c (d :: ds) s). cbn.
    split; [done |]. split; [by destruct c |]. split; [by destruct c |].
    split; [done |]. split.
    + intros c' Hne. by destruct c, c'.
    + left. destruct c; cbn; intros Habs; by apply app_eq_nil in Habs as [_ ?].
Qed.

(** X6. The migration is a bootstrap: once it has returned, running it
    again returns and changes nothing, whatever the legacy files
    hold. *)
Theorem migration_runs_once (w w1 : world) :
  run (initial_migration cfg) w = (Returned (), w1) ->
  run (initial_migration cfg) w1 = (Returned (), w1).
Proof.
  intros Hrun. destruct (db w) as [s |] eqn:Hdb.
  2: { rewrite (initial_migration_no_store cfg w Hdb) in Hrun. injection Hrun as <-.
       by apply initial_migration_no_store. }
  destruct (truth_error s) as [e |] eqn:Ht.
  { unfold initial_migration in Hrun. cbn in Hrun. by rewrite Hdb, Ht in Hrun. }
  rewrite (initial_migration_run w s Hdb Ht) in Hrun.
  destruct (reachable s) eqn:Hr.
  2: { by rewrite (migrate_unreachable Books _ _ w s Hdb Hr) in Hrun. }
  destruct (run (migrate Books (LOCAL_BOOKS cfg) book_of_row) w) as [[[] | e] wb] eqn:Hb;
    [| done].
  destruct (migrate_settles _ _ _ _ _ _ Hdb Hr Hb)
    as (sb & Hdbb & Hrb & Htb & Hfb & _ & Hsb).
  destruct (migrate_settles _ _ _ _ _ _ Hdbb Hrb Hrun)
    as (s1 & Hdb1 & Hr1 & Ht1 & Hf1 & Hkeep & Hs1).
  rewrite (initial_migration_run w1 s1 Hdb1) by congruence.
  rewrite (settled_run Books _ _ w1 s1 Hdb1 Hr1).
  - by apply settled_run with s1.
  - unfold settled in *. rewrite Hf1, (Hkeep Books) by done. exact Hsb.
Qed.

End Migration.


(** ** Beyond the claims: the rehydration pass, block by block *)

Section Staging.
Context {E : Engine} {C : Codec} (cfg : config).

Lemma run_bind_assoc {A B D} (m : prog A) (f : A -> prog B) (g : prog D) (w : world) :
  run (x ← m; (f x ;; g)) w =
  match run (x ← m; f x) w with
  | (Returned _, w1) => run g w1
  | (Raised e, w1) => (Raised e, w1)
  end.
Proof.
  rewrite !run_bind. destruct (run m w) as [[a | e] w1]; [| done]. by rewrite run_bind.
Qed.

Lemma rehydrate_blocks (w : world) (s : store) :
  db w = Some s -> truth_error s = None ->
  run (rehydrate_from_mongodb cfg) w =
  match run (stage_books cfg) w with
  | (Returned _, w1) =>
      match run (stage_users cfg) w1 with
      | (Returned _, w2) => run (stage_txns cfg) w2
      | (Raised e, w2) => (Raised e, w2)
      end
  | (Raised e, w1) => (Raised e, w1)
  end.
Proof.
  intros Hdb Ht. rewrite rehydrate_eq, run_bind, run_perform. cbn [handle].
  rewrite Hdb, Ht. cbn [fst snd negb].
  rewrite run_bind_assoc. fold (stage_books cfg).
  destruct (run (stage_books cfg) w) as [[[] | e] w1]; [| done].
  rewrite run_bind_assoc. by fold (stage_users cfg).
Qed.

Lemma open_refused {A} (p : path) (k : prog A) (w : world) (e : exn) :
  write_refused p w = Some e -> run (perform (OpenTrunc p) ;; k) w = (Raised e, w).
Proof. intros H. rewrite run_bind, run_perform. cbn. by rewrite H. Qed.

Lemma stage_table_run (c : coll) (p : path) (fieldnames : list string)
    (row : doc -> list value) (w : world) (s : store) :
  db w = Some s -> reachable s = true ->
  run (docs ← perform (DbFind c);
       if nonempty docs
       then dump_table p fieldnames docs (fun d => csv_line (cell_text <$> row d))
       else Ret ()) w =
  if nonempty (collection c s) then
    match write_refused p w with
    | Some e => (Raised e, w)
    | None => (Returned (), set_fs (staged p fieldnames row (collection c s) (fs w)) w)
    end
  else (Returned (), w).
Proof.
  intros Hdb Hr. rewrite run_bind, run_perform. cbn [handle].
  rewrite (with_store_ok c w s) by done. cbn [fst snd]. unfold staged.
  destruct (nonempty (collection c s)) eqn:Hne; [| done].
  destruct (write_refused p w) as [e |] eqn:Hw.
  - unfold dump_table. by apply open_refused.
  - by rewrite dump_docs_run.
Qed.

Lemma stage_unreachable (c : coll) (k : list doc -> prog unit) (w : world) (s : store) :
  db w = Some s -> reachable s = false ->
  run (docs ← perform (DbFind c); k docs) w = (Raised (unreachable_error s), w).
Proof.
  intros Hdb Hr. rewrite run_bind, run_perform. cbn. unfold with_store. by rewrite Hdb, Hr.
Qed.

Lemma txn_prefix_rows (txns : list doc) (rows : list (list value)) :
  txn_rows txns = inr rows -> txn_prefix txns = rows.
Proof.
  revert rows. induction txns as [| t ts IH]; intros rows; simpl; [by intros [= <-] |].
  destruct (txn_row t) as [e | r]; simpl; [done |].
  destruct (txn_rows ts) as [e | rs]; simpl; [done |].
  intros [= <-]. by rewrite (IH rs).
Qed.

Lemma txn_prefix_app (pre post : list doc) (t : doc) (rows : list (list value)) (e : exn) :
  txn_rows pre = inr rows -> txn_row t = inl e ->
  txn_prefix (pre ++ t :: post) = rows /\ txn_rows (pre ++ t :: post) = inl e.
Proof.
  revert rows. induction pre as [| d ds IH]; intros rows; simpl.
  - intros [= <-] ->. done.
  - destruct (txn_row d) as [e' | r]; simpl; [done |].
    destruct (txn_rows ds) as [e' | rs]; simpl; [done |].
    intros [= <-] Ht. destruct (IH rs eq_refl Ht) as [-> ->]. done.
Qed.

(** The loop over the transactions writes the rows that build, up to
    the first that does not. *)
Lemma txn_loop_any (p : path) (txns : list doc) (w : world) (c : string) :
  fs w !! p = Some (File c) ->
  run (for_each txns (fun t =>
         row ← lift (txn_row t);
         call (WriteText p (csv_line (cell_text <$> row))))) w =
  (match txn_rows txns with inl e => Raised e | inr _ => Returned () end,
   set_fs (<[p := File (c +:+ String.concat ""
                          ((fun r => csv_line (cell_text <$> r)) <$> txn_prefix txns))]>
             (fs w)) w).
Proof.
  revert w c. induction txns as [| t ts IH]; intros w c Hp; simpl.
  - cbn. by rewrite append_empty_r, set_fs_same.
  - destruct (txn_row t) as [e | r] eqn:Hr; simpl.
    + cbn. by rewrite append_empty_r, set_fs_same.
    + cbn. rewrite Hp.
      rewrite (IH _ (c +:+ csv_line (cell_text <$> r))) by (cbn; apply lookup_insert_eq).
      cbn. unfold set_fs. cbn. rewrite insert_insert_eq.
      rewrite append_assoc_r,
        <- (concat_cons _ ((fun r0 => csv_line (cell_text <$> r0)) <$> txn_prefix ts)).
      by destruct (txn_rows ts).
Qed.

Lemma stage_txns_run (w : world) (s : store) :
  db w = Some s -> reachable s = true ->
  run (stage_txns cfg) w =
  match write_refused (TRANS_CSV cfg) w with
  | Some e => (Raised e, w)
  | None =>
      match txn_rows (transactions s) with
      | inl e =>
          (Raised e,
           set_fs (<[TRANS_CSV cfg :=
                       File (csv_table TXN_FIELDS (txn_prefix (transactions s)))]> (fs w)) w)
      | inr rows => (Returned (), set_fs (staged_txns cfg rows (fs w)) w)
      end
  end.
Proof.
  intros Hdb Hr. unfold stage_txns. rewrite run_bind, run_perform. cbn [handle].
  rewrite (with_store_ok Transactions w s) by done. cbn [fst snd collection].
  destruct (write_refused (TRANS_CSV cfg) w) as [e |] eqn:Hw.
  { destruct (nonempty (transactions s)); by apply open_refused. }
  unfold staged_txns.
  destruct (transactions s) as [| t ts] eqn:Htx.
  { cbn [nonempty txn_rows]. by rewrite bare_header_run. }
  rewrite <- Htx. assert (nonempty (transactions s) = true) as -> by (by rewrite Htx).
  unfold dump_txns, csv_table.
  rewrite run_bind, run_perform. cbn. rewrite Hw. cbn. rewrite lookup_insert_eq. cbn.
  rewrite (txn_loop_any _ (transactions s) _ (csv_line TXN_FIELDS))
    by (cbn; apply lookup_insert_eq).
  cbn. unfold set_fs. cbn. rewrite !insert_insert_eq.
  destruct (txn_rows (transactions s)) as [e | rows] eqn:Hrows; [done |].
  rewrite (txn_prefix_rows _ _ Hrows).
  pose proof (txn_rows_length _ _ Hrows) as Hlen. rewrite Htx in Hlen.
  by destruct rows.
Qed.

Lemma staged_not_dir (p q : path) (fieldnames : list string) (row : doc -> list value)
    (docs : list doc) (files : gmap path node) :
  files !! q <> Some Dir -> staged p fieldnames row docs files !! q <> Some Dir.
Proof.
  unfold staged. destruct (nonempty docs); [| done].
  destruct (decide (p = q)) as [-> | Hne]; by simplify_map_eq.
Qed.

(** The whole pass in closed form, when every file it has to open can
    be opened. *)
Lemma rehydrate_run (w : world) (s : store) :
  db w = Some s -> reachable s = true -> truth_error s = None ->
  (nonempty (books s) = true -> write_refused (BOOKS_CSV cfg) w = None) ->
  (nonempty (users s) = true -> write_refused (USERS_CSV cfg) w = None) ->
  write_refused (TRANS_CSV cfg) w = None ->
  run (rehydrate_from_mongodb cfg) w =
  (match txn_rows (transactions s) with inl e => Raised e | inr _ => Returned () end,
   set_fs (rehydrated cfg s (fs w)) w).
Proof.
  intros Hdb Hr Ht Hb Hu Htx. rewrite (rehydrate_blocks w s Hdb Ht).
  unfold stage_books, stage_users, rehydrated.
  rewrite (stage_table_run Books _ _ book_row w s Hdb Hr). cbn [collection].
  set (f1 := staged (BOOKS_CSV cfg) BOOK_FIELDS book_row (books s) (fs w)).
  assert (run (stage_users cfg) (set_fs f1 w) =
          (Returned (), set_fs (staged (USERS_CSV cfg) USER_FIELDS user_row (users s) f1) w))
    as Husers.
  { unfold stage_users.
    rewrite (stage_table_run Users _ _ user_row (set_fs f1 w) s) by done. cbn [collection].
    destruct (nonempty (users s)) eqn:Hnu; [| unfold staged at 1; by rewrite Hnu].
    specialize (Hu eq_refl).
    rewrite (write_refused_files _ w) by
      (try done; apply staged_not_dir; by apply write_refused_not_dir).
    done. }
  set (f2 := staged (USERS_CSV cfg) USER_FIELDS user_row (users s) f1) in *.
  assert (run (stage_txns cfg) (set_fs f2 w) =
          (match txn_rows (transactions s) with inl e => Raised e | inr _ => Returned () end,
           set_fs (match txn_rows (transactions s) with
                   | inr rows => staged_txns cfg rows f2
                   | inl _ => <[TRANS_CSV cfg :=
                                  File (csv_table TXN_FIELDS (txn_prefix (transactions s)))]> f2
                   end) w)) as Htxns.
  { rewrite (stage_txns_run (set_fs f2 w) s) by done.
    rewrite (write_refused_files _ w) by
      (try done; do 2 apply staged_not_dir; by apply write_refused_not_dir).
    by destruct (txn_rows (transactions s)). }
  destruct (nonempty (books s)) eqn:Hnb.
  - rewrite Hb by done. fold (stage_users cfg). by rewrite Husers, Htxns.
  - assert (f1 = fs w) as Hf1 by (unfold f1, staged; by rewrite Hnb).
    assert (set_fs f1 w = w) as Hw by (rewrite Hf1; by destruct w).
    fold (stage_users cfg). rewrite Hw in Husers. by rewrite Husers, Htxns.
Qed.

Lemma rehydrated_not_dir (s : store) (q : path) (files : gmap path node) :
  files !! q <> Some Dir -> rehydrated cfg s files !! q <> Some Dir.
Proof.
  intros H. unfold rehydrated, staged_txns.
  destruct (txn_rows (transactions s));
    (destruct (decide (TRANS_CSV cfg = q)) as [-> | Hne];
     [by rewrite lookup_insert_eq | rewrite lookup_insert_ne by done]);
    by do 2 apply staged_not_dir.
Qed.

Lemma rehydrated_idem (s : store) (files : gmap path node) :
  rehydrated cfg s (rehydrated cfg s files) = rehydrated cfg s files.
Proof.
  apply map_eq. intros i. unfold rehydrated, staged_txns, staged.
  destruct (txn_rows (transactions s)), (nonempty (users s)), (nonempty (books s));
    rewrite ?lookup_insert; repeat case_decide; done.
Qed.

Lemma rehydrated_lookups (s : store) (files : gmap path node) :
  NoDup [BOOKS_CSV cfg; USERS_CSV cfg; TRANS_CSV cfg] ->
  rehydrated cfg s files !! BOOKS_CSV cfg =
    (if nonempty (books s)
     then Some (File (csv_table BOOK_FIELDS (book_row <$> books s)))
     else files !! BOOKS_CSV cfg) /\
  rehydrated cfg s files !! USERS_CSV cfg =
    (if nonempty (users s)
     then Some (File (csv_table USER_FIELDS (user_row <$> users s)))
     else files !! USERS_CSV cfg) /\
  rehydrated cfg s files !! TRANS_CSV cfg =
    Some (File (match txn_rows (transactions s) with
                | inr rows =>
                    if nonempty rows then csv_table TXN_FIELDS rows
                    else "TID,UID,BID,CID,Type,Timestamp" +:+ LF
                | inl _ => csv_table TXN_FIELDS (txn_prefix (transactions s))
                end)).
Proof.
  intros Hnd.
  assert (BOOKS_CSV cfg <> USERS_CSV cfg /\ BOOKS_CSV cfg <> TRANS_CSV cfg /\
          USERS_CSV cfg <> TRANS_CSV cfg) as (Hbu & Hbt & Hut).
  { apply NoDup_cons in Hnd as [H1 Hnd]. apply NoDup_cons in Hnd as [H2 _].
    set_solver. }
  unfold rehydrated, staged_txns, staged.
  destruct (txn_rows (transactions s)), (nonempty (users s)), (nonempty (books s));
    repeat split; by simplify_map_eq.
Qed.

(** X7. A transaction whose time stamp [int()] rejects stops the pass in
    the middle of the transactions file: the books and users files are
    staged as usual, the transactions file holds the header and the rows
    of the transactions before the offending one, and the exception of
    [int()] leaves the pass. *)
Theorem bad_timestamp_cuts_transactions (w : world) (s : store) (pre post : list doc)
    (t : doc) (rows : list (list value)) (e : exn) :
  db w = Some s -> reachable s = true -> truth_error s = None ->
  NoDup [BOOKS_CSV cfg; USERS_CSV cfg; TRANS_CSV cfg] ->
  (forall p, p ∈ [BOOKS_CSV cfg; USERS_CSV cfg; TRANS_CSV cfg] ->
             write_refused p w = None) ->
  transactions s = pre ++ t :: post ->
  txn_rows pre = inr rows ->
  py_int (doc_get_default "timestamp" (VInt 0) t) = inl e ->
  exists w',
    run (rehydrate_from_mongodb cfg) w = (Raised e, w') /\
    db w' = db w /\
    fs w' !! TRANS_CSV cfg = Some (File (csv_table TXN_FIELDS rows)) /\
    fs w' !! BOOKS_CSV cfg =
      (if nonempty (books s)
       then Some (File (csv_table BOOK_FIELDS (book_row <$> books s)))
       else fs w !! BOOKS_CSV cfg) /\
    fs w' !! USERS_CSV cfg =
      (if nonempty (users s)
       then Some (File (csv_table USER_FIELDS (user_row <$> users s)))
       else fs w !! USERS_CSV cfg).
Proof.
  intros Hdb Hr Ht Hnd Hw Htx Hpre Hint.
  assert (txn_row t = inl e) as Hrow by (unfold txn_row; by rewrite Hint).
  destruct (txn_prefix_app pre post t rows e Hpre Hrow) as [Hpref Hfail].
  rewrite (rehydrate_run w s Hdb Hr Ht) by (intros; apply Hw; set_solver).
  rewrite Htx, Hfail. eexists. split; [reflexivity |]. split; [done |].
  destruct (rehydrated_lookups s (fs w) Hnd) as (Hb & Hu & Htr).
  cbn [fs set_fs]. rewrite Hb, Hu, Htr, Htx, Hfail, Hpref. done.
Qed.

Lemma write_refused_staged (p q : path) (fieldnames : list string)
    (row : doc -> list value) (docs : list doc) (w : world) :
  p <> q ->
  write_refused q (set_fs (staged p fieldnames row docs (fs w)) w) = write_refused q w.
Proof.
  intros Hne. unfold write_refused, staged. cbn.
  destruct (nonempty docs); by simplify_map_eq.
Qed.

(** What a pass that returned tells about the world it started in. *)
Lemma rehydrate_returned (w w1 : world) (s : store) :
  NoDup [BOOKS_CSV cfg; USERS_CSV cfg; TRANS_CSV cfg] ->
  db w = Some s ->
  run (rehydrate_from_mongodb cfg) w = (Returned (), w1) ->
  reachable s = true /\ truth_error s = None /\
  (nonempty (books s) = true -> write_refused (BOOKS_CSV cfg) w = None) /\
  (nonempty (users s) = true -> write_refused (USERS_CSV cfg) w = None) /\
  write_refused (TRANS_CSV cfg) w = None /\
  exists rows, txn_rows (transactions s) = inr rows.
Proof.
  intros Hnd Hdb Hrun.
  assert (BOOKS_CSV cfg <> USERS_CSV cfg /\ BOOKS_CSV cfg <> TRANS_CSV cfg /\
          USERS_CSV cfg <> TRANS_CSV cfg) as (Hbu & Hbt & Hut).
  { apply NoDup_cons in Hnd as [H1 Hnd']. apply NoDup_cons in Hnd' as [H2 _].
    set_solver. }
  destruct (truth_error s) as [e |] eqn:Ht.
  { rewrite rehydrate_eq, run_bind, run_perform in Hrun. cbn in Hrun.
    by rewrite Hdb, Ht in Hrun. }
  rewrite (rehydrate_blocks w s Hdb Ht) in Hrun.
  destruct (reachable s) eqn:Hr.
  2: { unfold stage_books in Hrun. by rewrite (stage_unreachable Books _ w s Hdb Hr) in Hrun. }
  unfold stage_books in Hrun.
  rewrite (stage_table_run Books _ _ book_row w s Hdb Hr) in Hrun. cbn [collection] in Hrun.
  set (f1 := staged (BOOKS_CSV cfg) BOOK_FIELDS book_row (books s) (fs w)) in *.
  assert ((nonempty (books s) = true -> write_refused (BOOKS_CSV cfg) w = None) /\
          match run (stage_users cfg) (set_fs f1 w) with
          | (Returned _, w2) => run (stage_txns cfg) w2
          | (Raised e, w2) => (Raised e, w2)
          end = (Returned (), w1)) as [Hb Hrun'].
  { destruct (nonempty (books s)) eqn:Hnb.
    - destruct (write_refused (BOOKS_CSV cfg) w); [done |]. done.
    - split; [done |]. assert (set_fs f1 w = w) as ->; [| done].
      unfold f1, staged. rewrite Hnb. by destruct w. }
  clear Hrun. unfold stage_users in Hrun'.
  rewrite (stage_table_run Users _ _ user_row (set_fs f1 w) s) in Hrun' by done.
  cbn [collection] in Hrun'. unfold f1 in Hrun' at 1.
  rewrite write_refused_staged in Hrun' by done.
  cbn [fs set_fs] in Hrun'.
  set (f2 := staged (USERS_CSV cfg) USER_FIELDS user_row (users s) f1) in *.
  assert ((nonempty (users s) = true -> write_refused (USERS_CSV cfg) w = None) /\
          run (stage_txns cfg) (set_fs f2 w) = (Returned (), w1)) as [Hu Hrun].
  { destruct (nonempty (users s)) eqn:Hnu.
    - destruct (write_refused (USERS_CSV cfg) w); [done |]. split; [done |].
      by destruct w.
    - split; [done |]. assert (set_fs f2 w = set_fs f1 w) as ->; [| done].
      unfold f2, staged. by rewrite Hnu. }
  clear Hrun'.
  rewrite (stage_txns_run (set_fs f2 w) s) in Hrun by done.
  unfold f2, f1 in Hrun.
  assert (write_refused (TRANS_CSV cfg) (set_fs f2 w) = write_refused (TRANS_CSV cfg) w)
    as Hsame.
  { unfold f2. rewrite <- (write_refused_staged (BOOKS_CSV cfg) (TRANS_CSV cfg)
                             BOOK_FIELDS book_row (books s) w) by done.
    fold f1.
    by rewrite <- (write_refused_staged (USERS_CSV cfg) (TRANS_CSV cfg) USER_FIELDS user_row
                     (users s) (set_fs f1 w)) by done. }
  fold f1 in Hrun. fold f2 in Hrun. rewrite Hsame in Hrun.
  destruct (write_refused (TRANS_CSV cfg) w); [done |].
  destruct (txn_rows (transactions s)) as [e | rows]; [done |].
  repeat split; eauto.
Qed.

(** X8. The pass is idempotent: once it has returned, running it again
    returns and leaves every file as the first run left it. *)
Theorem rehydration_idempotent (w w1 : world) :
  NoDup [BOOKS_CSV cfg; USERS_CSV cfg; TRANS_CSV cfg] ->
  run (rehydrate_from_mongodb cfg) w = (Returned (), w1) ->
  run (rehydrate_from_mongodb cfg) w1 = (Returned (), w1).
Proof.
  intros Hnd Hrun. destruct (db w) as [s |] eqn:Hdb.
  2: { rewrite (rehydrate_no_store cfg w Hdb) in Hrun. injection Hrun as <-.
       by apply rehydrate_no_store. }
  destruct (rehydrate_returned w w1 s Hnd Hdb Hrun)
    as (Hr & Ht & Hb & Hu & Htx & rows & Hrows).
  rewrite (rehydrate_run w s Hdb Hr Ht Hb Hu Htx), Hrows in Hrun. injection Hrun as <-.
  rewrite (rehydrate_run _ s); try done.
  - rewrite Hrows. cbn [fs set_fs]. rewrite rehydrated_idem. by destruct w.
  - intros Hnb. apply (write_refused_files _ w); [done | | by apply Hb].
    cbn. apply rehydrated_not_dir. by apply write_refused_not_dir, Hb.
  - intros Hnu. apply (write_refused_files _ w); [done | | by apply Hu].
    cbn. apply rehydrated_not_dir. by apply write_refused_not_dir, Hu.
  - apply (write_refused_files _ w); [done | | done].
    cbn. apply rehydrated_not_dir. by apply write_refused_not_dir.
Qed.

End Staging.


(** ** Beyond the claims: from the legacy file to the engine's file *)

Section LegacyToEngine.
Context {E : Engine} {C : Codec} (cfg : config).

(** The cells of a legacy users row, picked by column name. *)
Lemma user_row_of_doc (r : doc) :
  user_row (user_doc r) =
  [doc_get "UserID" r; doc_get "Name" r; doc_get "Email" r; doc_get "Type" r].
Proof. reflexivity. Qed.

(** X9. A legacy users file migrated into an empty collection comes out
    again in the flat file staged for the engine: the fixed header, then
    for each data row of the legacy file its four cells picked by column
    name, in the order of the file. *)
Theorem legacy_users_reach_engine_file (w : world) (s : store) (text : string)
    (fieldnames : list string) (rows : list (list string)) (trows : list (list value)) :
  db w = Some s -> reachable s = true -> truth_error s = None ->
  users s = [] ->
  (run (migrate Books (LOCAL_BOOKS cfg) book_of_row) w).1 = Returned () ->
  fs w !! LOCAL_USERS cfg = Some (File text) ->
  csv_reader text = (fieldnames :: rows, None) ->
  (forall k, k ∈ USER_FIELDS -> k ∈ fieldnames) ->
  data_rows rows <> [] ->
  txn_rows (transactions s) = inr trows ->
  NoDup [BOOKS_CSV cfg; USERS_CSV cfg; TRANS_CSV cfg] ->
  (forall p, p ∈ [BOOKS_CSV cfg; USERS_CSV cfg; TRANS_CSV cfg] ->
             write_refused p w = None) ->
  exists w',
    run (startup_sync cfg) w = (Returned (), w') /\
    coll_of Users w' = Some (user_doc <$> dict_reader (fieldnames :: rows)) /\
    fs w' !! USERS_CSV cfg =
      Some (File (csv_table USER_FIELDS
                    ((fun r => [doc_get "UserID" r; doc_get "Name" r;
                                doc_get "Email" r; doc_get "Type" r])
                       <$> dict_reader (fieldnames :: rows)))).
Proof.
  intros Hdb Hr Ht Hu Hbooks Hfile Hcsv Hf Hrows Htx Hnd Hw.
  unfold startup_sync. rewrite run_bind, (initial_migration_run cfg w s Hdb Ht).
  destruct (run (migrate Books (LOCAL_BOOKS cfg) book_of_row) w) as [[[] | e] wb] eqn:Hb;
    [| done].
  destruct (migrate_settles _ _ _ _ _ _ Hdb Hr Hb)
    as (sb & Hdbb & Hrb & Htb & Hfb & Hkeep & _).
  pose proof (file_reader_run _ w (migrate_file_reader Books (LOCAL_BOOKS cfg) book_of_row))
    as Hfs.
  assert (open_error wb = open_error w) as Hoe.
  { destruct (sync_op_run _ w (migrate_sync Books (LOCAL_BOOKS cfg) book_of_row))
      as (b & f & d & Hwb). rewrite Hb in Hwb. simpl in Hwb. by subst wb. }
  set (docs := user_doc <$> dict_reader (fieldnames :: rows)).
  assert (docs <> []) as Hdocs.
  { unfold docs, dict_reader. fold (data_rows rows).
    destruct (data_rows rows); [done | by cbn]. }
  rewrite (migrate_run Users _ _ wb sb Hdbb Hrb).
  rewrite (Hkeep Users) by done. cbn [collection]. rewrite Hu, Hfb, Hfile.
  unfold to_insert. rewrite Hcsv. cbn [fst snd].
  rewrite (users_rows_mapped fieldnames rows Hf). cbn [bind_err]. fold docs.
  pose proof (user_docs_encodable fieldnames rows) as Henc. fold docs in Henc.
  destruct docs as [| d ds] eqn:Hd; [done |]. rewrite <- Hd. rewrite <- ?Hd in Henc.
  rewrite Henc.
  set (s2 := insert_many Users docs sb).
  assert (users s2 = docs) as Hu2.
  { unfold s2. cbn. change (users sb) with (collection Users sb).
    rewrite (Hkeep Users) by done. cbn. by rewrite Hu. }
  assert (transactions s2 = transactions s) as Ht2.
  { unfold s2. cbn. change (transactions sb) with (collection Transactions sb).
    by rewrite (Hkeep Transactions) by done. }
  rewrite (rehydrate_run cfg (set_db (Some s2) wb) s2); try done.
  - rewrite Ht2, Htx. eexists. split; [reflexivity |]. split.
    + change (Some (users s2) = Some docs). by rewrite Hu2.
    + destruct (rehydrated_lookups cfg s2 (fs wb) Hnd) as (_ & Hlook & _).
      change (rehydrated cfg s2 (fs wb) !! USERS_CSV cfg = Some (File (csv_table USER_FIELDS
               ((fun r => [doc_get "UserID" r; doc_get "Name" r;
                           doc_get "Email" r; doc_get "Type" r])
                  <$> dict_reader (fieldnames :: rows))))).
      rewrite Hlook, Hu2, Hd. cbn [nonempty]. rewrite <- Hd. unfold docs.
      by rewrite <- list_fmap_compose.
  - unfold s2. cbn. congruence.
  - intros _. apply (write_refused_files _ w); [done | | apply Hw; set_solver].
    cbn. rewrite Hfb. apply write_refused_not_dir, Hw. set_solver.
  - intros _. apply (write_refused_files _ w); [done | | apply Hw; set_solver].
    cbn. rewrite Hfb. apply write_refused_not_dir, Hw. set_solver.
  - apply (write_refused_files _ w); [done | | apply Hw; set_solver].
    cbn. rewrite Hfb. apply write_refused_not_dir, Hw. set_solver.
Qed.

Lemma row_item_inr (k : string) (r : doc) (v : value) :
  row_item k r = inr v -> doc_get k r = v.
Proof. unfold row_item, doc_get. destruct (doc_lookup k r); by intros [= <-]. Qed.

Lemma book_of_row_inr (r d : doc) :
  book_of_row r = inr d ->
  exists n, py_int (doc_get "Copies" r) = inr n /\
            (encodable d = true -> int64 n = true) /\
            book_row d = [doc_get "ISBN" r; doc_get "Title" r; doc_get "Author" r;
                          doc_get "Category" r; VInt n].
Proof.
  unfold book_of_row.
  destruct (row_item "ISBN" r) as [e | isbn] eqn:H1; [done |].
  destruct (row_item "Title" r) as [e | title] eqn:H2; [done |].
  destruct (row_item "Author" r) as [e | author] eqn:H3; [done |].
  destruct (row_item "Category" r) as [e | category] eqn:H4; [done |].
  destruct (row_item "Copies" r) as [e | copies] eqn:H5; [done |].
  cbn [bind_err]. destruct (py_int copies) as [e | n] eqn:H6; [done |].
  cbn [bind_err]. intros [= <-]. exists n.
  apply row_item_inr in H1, H2, H3, H4, H5. subst. split; [done |]. split; [| done].
  unfold encodable. cbn [forallb snd]. intros Henc.
  do 4 (apply andb_prop in Henc as [_ Henc]). by apply andb_prop in Henc as [Henc _].
Qed.

Lemma Forall2_with_r {A B} (P : A -> B -> Prop) (Q : B -> Prop) (l : list A)
    (k : list B) :
  Forall2 P l k -> Forall Q k -> Forall2 (fun x y => P x y /\ Q y) l k.
Proof.
  induction 1 as [| x y l k Hxy _ IH]; intros HQ; [constructor |].
  apply Forall_cons in HQ as [Hy HQ]. constructor; auto.
Qed.

Lemma map_rows_inr (f : doc -> exn + doc) (rows docs : list doc) :
  map_rows f rows = inr docs -> Forall2 (fun r d => f r = inr d) rows docs.
Proof.
  revert docs. induction rows as [| r rows IH]; intros docs; simpl.
  - intros [= <-]. constructor.
  - destruct (f r) as [e | d] eqn:Hr; simpl; [done |].
    destruct (map_rows f rows) as [e | ds]; simpl; [done |].
    intros [= <-]. constructor; [done | by apply IH].
Qed.

(** X10. A legacy books file migrated into an empty collection comes out
    again, when the synchronisation returns, in the flat file staged for
    the engine: one line per data row, with the four text cells as the
    legacy file has them and the Copies cell printed again from the
    integer [int()] read in it, which fits eight bytes. *)
Theorem legacy_books_reach_engine_file (w w' : world) (s : store) (text : string)
    (fieldnames : list string) (rows : list (list string)) :
  NoDup [BOOKS_CSV cfg; USERS_CSV cfg; TRANS_CSV cfg] ->
  db w = Some s -> books s = [] ->
  fs w !! LOCAL_BOOKS cfg = Some (File text) ->
  csv_reader text = (fieldnames :: rows, None) ->
  data_rows rows <> [] ->
  run (startup_sync cfg) w = (Returned (), w') ->
  exists lines,
    fs w' !! BOOKS_CSV cfg = Some (File (csv_table BOOK_FIELDS lines)) /\
    Forall2 (fun r cells =>
               exists n, py_int (doc_get "Copies" r) = inr n /\ int64 n = true /\
                         cells = [doc_get "ISBN" r; doc_get "Title" r; doc_get "Author" r;
                                  doc_get "Category" r; VInt n])
            (dict_reader (fieldnames :: rows)) lines.
Proof.
  intros Hnd Hdb Hb Hfile Hcsv Hrows Hrun.
  unfold startup_sync in Hrun. rewrite run_bind in Hrun.
  destruct (run (initial_migration cfg) w) as [[[] | e] w1] eqn:Hmig; [| done].
  destruct (truth_error s) as [e |] eqn:Ht.
  { unfold initial_migration in Hmig. cbn in Hmig. by rewrite Hdb, Ht in Hmig. }
  rewrite (initial_migration_run cfg w s Hdb Ht) in Hmig.
  destruct (reachable s) eqn:Hr.
  2: { by rewrite (migrate_unreachable Books _ _ w s Hdb Hr) in Hmig. }
  rewrite (migrate_run Books _ _ w s Hdb Hr) in Hmig. cbn [collection] in Hmig.
  rewrite Hb, Hfile in Hmig. unfold to_insert in Hmig. rewrite Hcsv in Hmig.
  cbn [fst snd] in Hmig.
  destruct (map_rows book_of_row (dict_reader (fieldnames :: rows))) as [e | docs] eqn:Hmap;
    [done |].
  cbn [bind_err] in Hmig.
  apply map_rows_inr in Hmap.
  assert (docs <> []) as Hdocs.
  { intros ->. apply Forall2_nil_inv_r in Hmap. unfold dict_reader in Hmap.
    fold (data_rows rows) in Hmap. by destruct (data_rows rows). }
  destruct docs as [| d ds] eqn:Hd; [done |]. rewrite <- Hd in *. clear Hd.
  destruct (forallb encodable docs) eqn:Henc; [| done].
  set (sb := insert_many Books docs s) in *.
  destruct (migrate_settles _ _ _ (set_db (Some sb) w) w1 sb eq_refl Hr Hmig)
    as (s1 & Hdb1 & Hr1 & Ht1 & Hf1 & Hkeep & _).
  destruct (rehydrate_returned cfg w1 w' s1 Hnd Hdb1 Hrun)
    as (_ & Ht1' & Hwb & Hwu & Hwt & trows & Htx).
  rewrite (rehydrate_run cfg w1 s1 Hdb1 Hr1 Ht1' Hwb Hwu Hwt), Htx in Hrun.
  injection Hrun as <-.
  assert (books s1 = docs) as Hb1.
  { change (collection Books s1 = docs). rewrite (Hkeep Books) by done.
    unfold sb. cbn. by rewrite Hb. }
  exists (book_row <$> docs). split.
  - destruct (rehydrated_lookups cfg s1 (fs w1) Hnd) as (Hlook & _).
    change (rehydrated cfg s1 (fs w1) !! BOOKS_CSV cfg =
            Some (File (csv_table BOOK_FIELDS (book_row <$> docs)))).
    rewrite Hlook, Hb1. by destruct docs.
  - apply Forall2_fmap_r.
    assert (Forall (fun d0 => encodable d0 = true) docs) as Hall.
    { apply Forall_forall. intros d0 Hin. apply list_elem_of_In in Hin.
      by apply (proj1 (forallb_forall _ _) Henc). }
    eapply Forall2_impl; [exact (Forall2_with_r _ _ _ _ Hmap Hall) |].
    intros r d0 [Hrd Hd0]. apply book_of_row_inr in Hrd as (n & Hn & Hfit & Hrow).
    exists n. auto.
Qed.

End LegacyToEngine.


(** ** Beyond the claims: the retry wrapper on malformed responses *)

Section Malformed.
Context {E : Engine} {C : Codec} (cfg : config).

(** X11. [send_to_backend] hands over whatever the engine's line decodes
    to, and [send_with_retry] reads [message] and [success] off it
    unguarded. A response that is not a mapping makes it raise the
    attribute error of [.get]; a mapping whose [success] is true in
    Python's sense is returned whatever its message is; a mapping that
    reports failure with a null, boolean or numeric message makes the
    test for the markers raise a type error. In each case the one call
    has been made and no other follows. *)
Theorem retry_on_malformed_response (session : list (string * json)) (payload : json)
    (w w1 : world) (r : json) :
  run (send_to_backend cfg payload) w = (Returned r, w1) ->
  match r with
  | JObj kv =>
      if truthy (default JNull (obj_lookup "success" kv))
      then run (send_with_retry cfg session payload) w = (Returned r, w1)
      else match default (JStr "") (obj_lookup "message" kv) with
           | JNull | JBool _ | JInt _ =>
               run (send_with_retry cfg session payload) w =
               (Raised (Exn TypeError
                          ("argument of type '"
                           +:+ type_name (default (JStr "") (obj_lookup "message" kv))
                           +:+ "' is not iterable")), w1)
           | _ => True
           end
  | _ =>
      run (send_with_retry cfg session payload) w =
      (Raised (no_attribute (type_name r) "get"), w1)
  end.
Proof.
  intros Hrun. unfold send_with_retry. rewrite run_bind, Hrun.
  destruct r as [| b | z | s | l | kv]; try done.
  cbn. unfold is_recoverable. cbn.
  destruct (truthy (default JNull (obj_lookup "success" kv))); cbn; [done |].
  by destruct (default (JStr "") (obj_lookup "message" kv)).
Qed.

End Malformed.

(** ** Beyond the claims: the search for the executable *)

(** X12. The executable the module settles on (lines 51-63) is the first
    candidate that exists when the module is imported; when none exists
    it is the first candidate, existing or not. *)
Theorem locate_executable_first_existing (exists_ : path -> bool)
    (possible_paths : list path) (exe : path) :
  locate_executable exists_ possible_paths = Some exe ->
  (exists before after,
     possible_paths = before ++ exe :: after /\
     Forall (fun q => exists_ q = false) before /\ exists_ exe = true) \/
  (Forall (fun q => exists_ q = false) possible_paths /\ head possible_paths = Some exe).
Proof.
  unfold locate_executable.
  induction possible_paths as [| p ps IH]; simpl; [done |].
  destruct (exists_ p) eqn:Hp.
  - intros [= <-]. left. exists [], ps. by repeat split.
  - destruct (List.find exists_ ps) as [q |] eqn:Hfind.
    + intros [= <-]. destruct (IH eq_refl) as [(before & after & -> & Hb & He) | [Hall _]].
      * left. exists (p :: before), after. repeat split; [| done]. by constructor.
      * apply find_some in Hfind as [Hin Hq]. apply list_elem_of_In in Hin.
        rewrite Forall_forall in Hall. specialize (Hall _ Hin). congruence.
    + intros [= <-]. right. split; [| done]. constructor; [done |].
      apply Forall_forall. intros q Hq. apply list_elem_of_In in Hq.
      by eapply find_none in Hfind.
Qed.

(** ** Beyond the claims: no call is left waiting for ever *)

Section Progress.
Context {E : Engine}.

Lemma crun_app (l1 l2 : list nat) (s : pool) :
  crun (l1 ++ l2) s = crun l2 (crun l1 s).
Proof. revert s. induction l1 as [| t l1 IH]; intros s; simpl; [done | apply IH]. Qed.

Lemma ended_finished {A} (m : prog A) (w : world) : finished (ended m w) = true.
Proof. unfold ended. by destruct ((run m w).1). Qed.

(** The holder of the lock runs to the end of its call, whatever the
    other threads are. *)
Lemma crun_inside (body : prog json) (t : nat) (w : world) (h : option nat)
    (ths : list (prog json)) :
  uses lock_free body ->
  ths !! t = Some (releasing body) ->
  crun (replicate (steps (releasing body) w) t) (Pool w h ths) =
  Pool (run (releasing body) w).2 None (<[t := ended (releasing body) w]> ths).
Proof.
  revert w h ths. induction body as [a | e | R o k IH]; intros w h ths Hfree Ht.
  - cbn. unfold cstep. cbn. by rewrite Ht.
  - cbn. unfold cstep. cbn. by rewrite Ht.
  - destruct Hfree as [Ho Hk]. cbn [releasing] in Ht. cbn [releasing steps replicate crun].
    unfold cstep at 1. cbn [threads holder shared]. rewrite Ht.
    destruct (lock_free_flags o Ho) as [-> ->]. cbn [andb default].
    destruct (handle o w) as [r w'] eqn:Hh. cbn [fst snd default from_option id].
    rewrite (IH r w' h (<[t := releasing (k r)]> ths) (Hk r)).
    + unfold ended. cbn [run releasing]. rewrite Hh. by rewrite list_insert_insert_eq.
    + apply list_lookup_insert_eq. by eapply lookup_lt_Some.
Qed.

(** A waiting thread that finds the lock free runs its whole call. *)
Lemma crun_call (body : prog json) (t : nat) (w : world) (ths : list (prog json)) :
  uses lock_free body ->
  ths !! t = Some (with_lock body) ->
  crun (replicate (steps (with_lock body) w) t) (Pool w None ths) =
  Pool (run (with_lock body) w).2 None (<[t := ended (with_lock body) w]> ths).
Proof.
  intros Hfree Ht. unfold with_lock. cbn [steps replicate crun].
  unfold cstep at 1. cbn [threads holder shared]. rewrite Ht. cbn.
  rewrite (crun_inside body t _ _ _ Hfree).
  - by rewrite list_insert_insert_eq.
  - apply list_lookup_insert_eq. by eapply lookup_lt_Some.
Qed.

Lemma cstep_holder_valid (t : nat) (s s' : pool) :
  cstep t s = Some s' -> holder_valid s -> holder_valid s'.
Proof.
  unfold cstep, holder_valid.
  destruct (threads s !! t) as [[a | e | R o k] |] eqn:Ht; try done.
  destruct (is_acquire o && _); [done |].
  destruct (handle o (shared s)) as [r w']. intros [= <-] Hv i. cbn.
  rewrite length_insert. apply lookup_lt_Some in Ht.
  destruct (is_acquire o); [by intros [= <-] |].
  destruct (is_release o); [done | apply Hv].
Qed.

Lemma crun_holder_valid (schedule : list nat) (s : pool) :
  holder_valid s -> holder_valid (crun schedule s).
Proof.
  revert s. induction schedule as [| t rest IH]; intros s Hs; simpl; [done |].
  apply IH. destruct (cstep t s) as [s' |] eqn:Hstep; simpl; [| done].
  by eapply cstep_holder_valid.
Qed.

(** With the lock free, the first [k] threads can be brought to their
    end one after the other. *)
Lemma finish_first (k : nat) (s : pool) :
  holder s = None ->
  (forall i m, threads s !! i = Some m -> waiting m \/ finished m = true) ->
  exists more,
    holder (crun more s) = None /\
    forall i m, threads (crun more s) !! i = Some m ->
                (waiting m \/ finished m = true) /\ ((i < k)%nat -> finished m = true).
Proof.
  intros Hh Hall. induction k as [| k (more & Hh' & Hk)].
  - exists []. split; [done |]. intros i m Hi. split; [by eapply Hall | lia].
  - remember (crun more s) as s1 eqn:Hs1. destruct s1 as [w1 h1 ths1].
    cbn [holder threads] in Hh', Hk. subst h1.
    destruct (ths1 !! k) as [m |] eqn:Hm.
    2: { exists more. rewrite <- Hs1. split; [done |]. intros i m Hi.
         cbn [threads] in Hi. split; [by eapply Hk |].
         intros Hlt. destruct (decide (i = k)) as [-> | ?]; [congruence |].
         eapply Hk; [done | lia]. }
    destruct (Hk k m Hm) as [[(body & -> & Hfree) | Hfin] _].
    + exists (more ++ replicate (steps (with_lock body) w1) k).
      rewrite crun_app, <- Hs1, (crun_call body k _ _ Hfree Hm). cbn.
      split; [done |]. intros i m Hi.
      destruct (decide (i = k)) as [-> | Hne].
      * rewrite list_lookup_insert_eq in Hi by (by eapply lookup_lt_Some).
        injection Hi as <-. split; [right |]; intros; apply ended_finished.
      * rewrite list_lookup_insert_ne in Hi by done. split; [by eapply Hk |].
        intros Hlt. eapply Hk; [done | lia].
    + exists more. rewrite <- Hs1. split; [done |]. intros i m' Hi.
      cbn [threads] in Hi. split; [by eapply Hk |].
      intros Hlt. destruct (decide (i = k)) as [-> | ?]; [congruence |].
      eapply Hk; [done | lia].
Qed.

End Progress.


Section Liveness.
Context {E : Engine} {C : Codec} (cfg : config).

Lemma cstep_length (t : nat) (s s' : pool) :
  cstep t s = Some s' -> List.length (threads s') = List.length (threads s).
Proof.
  unfold cstep. destruct (threads s !! t) as [[a | e | R o k] |]; try done.
  destruct (is_acquire o && _); [done |].
  destruct (handle o (shared s)) as [r w']. intros [= <-]. cbn. apply length_insert.
Qed.

Lemma crun_length (schedule : list nat) (s : pool) :
  List.length (threads (crun schedule s)) = List.length (threads s).
Proof.
  revert s. induction schedule as [| t rest IH]; intros s; simpl; [done |].
  rewrite IH. destruct (cstep t s) as [s' |] eqn:Hstep; simpl; [| done].
  by eapply cstep_length.
Qed.

Lemma result_finished {A} (m : prog A) (o : outcome A) :
  result_of m = Some o -> finished m = true.
Proof. by destruct m. Qed.

Lemma waiting_unfinished {A} (m : prog A) : waiting m -> finished m = false.
Proof. by intros (body & -> & _). Qed.

(** X13. No interleaving leaves a call waiting for ever. Whatever the
    scheduler has done so far, it can go on so that every request
    thread finishes its call and the lock is free; and then the calls
    have the outcomes, and leave the world, of running all of them one
    after the other in the order they took the lock. (Every pipe
    operation answers here; a read that blocks for ever is outside the
    model.) *)
Theorem calls_can_always_finish (w : world) (payloads : list json) (schedule : list nat) :
  exists more order outs,
    let ms := send_to_backend cfg <$> payloads in
    let s := crun (schedule ++ more) (Pool w None ms) in
    holder s = None /\
    history w ms order outs (shared s) /\
    forall i, (i < List.length payloads)%nat ->
      exists m k o, threads s !! i = Some m /\ result_of m = Some o /\
                    order !! k = Some i /\ outs !! k = Some o.
Proof.
  set (ms := send_to_backend cfg <$> payloads).
  assert (forall l, pool_inv w ms (crun l (Pool w None ms))) as Hinv.
  { intros l. apply pool_inv_crun, pool_inv_init. subst ms.
    apply Forall_fmap, Forall_forall. intros p _. apply send_to_backend_waiting. }
  assert (forall l, holder_valid (crun l (Pool w None ms))) as Hvalid.
  { intros l. apply crun_holder_valid. by intros i. }
  assert (exists more, holder (crun (schedule ++ more) (Pool w None ms)) = None /\
            forall i m, threads (crun (schedule ++ more) (Pool w None ms)) !! i = Some m ->
                        finished m = true) as (more & Hfree & Hfin).
  { remember (crun schedule (Pool w None ms)) as s0 eqn:Hs0.
    assert (exists more1, holder (crun more1 s0) = None /\
              forall i m, threads (crun more1 s0) !! i = Some m ->
                          waiting m \/ finished m = true) as (more1 & Hh1 & Hall1).
    { specialize (Hinv schedule). specialize (Hvalid schedule). rewrite <- Hs0 in Hinv, Hvalid.
      destruct Hinv as (order & outs & wd & _ & Hthr & _).
      destruct s0 as [w0 h0 ths0]. cbn [holder threads shared] in *.
      destruct h0 as [t |].
      - specialize (Hvalid t eq_refl). cbn in Hvalid.
        destruct (lookup_lt_is_Some_2 ths0 t Hvalid) as [m Hm].
        pose proof (Hthr t m Hm) as Ht. rewrite decide_True in Ht by done.
        destruct Ht as [(body & -> & Hbody) _].
        exists (replicate (steps (releasing body) w0) t).
        rewrite (crun_inside body t w0 _ ths0 Hbody Hm). cbn. split; [done |].
        intros i m Hi. destruct (decide (i = t)) as [-> | Hne].
        + rewrite list_lookup_insert_eq in Hi by done. injection Hi as <-.
          right. apply ended_finished.
        + rewrite list_lookup_insert_ne in Hi by done.
          specialize (Hthr i m Hi). rewrite decide_False in Hthr by congruence.
          destruct Hthr as [(_ & ? & _) | (k & o & _ & _ & Hres)]; [by left | right].
          by eapply result_finished.
      - exists []. cbn. split; [done |]. intros i m Hi.
        specialize (Hthr i m Hi). rewrite decide_False in Hthr by done.
        destruct Hthr as [(_ & ? & _) | (k & o & _ & _ & Hres)]; [by left | right].
        by eapply result_finished. }
    destruct (finish_first (List.length (threads (crun more1 s0))) (crun more1 s0) Hh1 Hall1)
      as (more2 & Hh2 & Hall2).
    exists (more1 ++ more2). rewrite !crun_app, <- Hs0. split; [done |].
    intros i m Hi. eapply Hall2; [done |].
    apply lookup_lt_Some in Hi. by rewrite crun_length in Hi. }
  destruct (Hinv (schedule ++ more)) as (order & outs & wd & Hhist & Hthr & Hwd & _).
  exists more, order, outs. cbn zeta. split; [done |].
  rewrite (Hwd Hfree). split; [done |].
  intros i Hi.
  destruct (lookup_lt_is_Some_2 (threads (crun (schedule ++ more) (Pool w None ms))) i)
    as [m Hm].
  { rewrite crun_length. cbn. subst ms. by rewrite length_fmap. }
  specialize (Hthr i m Hm). rewrite decide_False in Hthr by (rewrite Hfree; done).
  destruct Hthr as [(_ & Hwait & _) | (k & o & Hk & Ho & Hres)].
  - apply waiting_unfinished in Hwait. rewrite (Hfin i m Hm) in Hwait. done.
  - by exists m, k, o.
Qed.

End Liveness.


(** ** Beyond the claims: the web layer *)

Module ViewFacts.
Import Views.
Local Open Scope view_scope.

Section Guards.
Context {E : Engine} {C : Codec} (cfg : config) (write_error : exn).

(** X14. Without a logged-in user no view that needs one reaches the
    engine or the store. The three pages redirect to the login page,
    the profile and the personalised recommendations answer 401 with
    "Not authenticated"; issuing and returning a book have no such
    guard and raise the [KeyError] of [session['user_id']]. *)
Theorem anonymous_requests_stay_out (session : list (string * json)) (w : world)
    (body : json) (request : list (string * json)) (stamp_tid stamp : Z) :
  has_key "user_id" session = false ->
  home session w = Some (Returned (Redirect "/"), session, w) /\
  profile session w = Some (Returned (Redirect "/"), session, w) /\
  search session w = Some (Returned (Redirect "/"), session, w) /\
  api_profile cfg session w = Some (Returned (Jsonify NOT_AUTHENTICATED 401), session, w) /\
  api_recommendations_personalized cfg body session w =
    Some (Returned (Jsonify NOT_AUTHENTICATED 401), session, w) /\
  api_issue cfg write_error (JObj request) stamp_tid stamp session w =
    Some (Raised (Exn KeyError "'user_id'"), session, w) /\
  api_return cfg write_error (JObj request) stamp_tid stamp session w =
    Some (Raised (Exn KeyError "'user_id'"), session, w).
Proof.
  intros Hanon.
  unfold home, profile, search, api_profile, api_recommendations_personalized,
    api_issue, api_return, vbind, get_session, get_item, py, vret.
  rewrite Hanon. cbn.
  unfold has_key in Hanon. destruct (obj_lookup "user_id" session); [done |].
  repeat split.
Qed.

(** X15. The three views that go to the engine without a user make exactly
    one call of [send_to_backend], on the payload of the source, and
    always answer with what that call returned and status 200, whatever
    the engine does: its failures come back as the body of a normal
    reply. The session is left alone, and the world is the one the call
    left. *)
Theorem plain_calls_always_reply (session : list (string * json)) (w : world)
    (request : list (string * json)) (isbn : option string) :
  (exists r w',
     run (send_to_backend cfg
            (JObj [("action", JStr "search");
                   ("query", default JNull (obj_lookup "query" request));
                   ("type", default (JStr "title") (obj_lookup "type" request))])) w
       = (Returned r, w') /\
     api_search cfg (JObj request) session w = Some (Returned (Jsonify r 200), session, w') /\
     calls (new_events w w') = 1%nat) /\
  (exists r w',
     run (send_to_backend cfg
            (JObj [("action", JStr "recommendations");
                   ("isbn", match isbn with Some i => JStr i | None => JNull end);
                   ("limit", JInt 6)])) w
       = (Returned r, w') /\
     api_recommendations cfg isbn session w = Some (Returned (Jsonify r 200), session, w') /\
     calls (new_events w w') = 1%nat) /\
  (exists r w',
     run (send_to_backend cfg (JObj [("action", JStr "undo")])) w = (Returned r, w') /\
     api_undo cfg session w = Some (Returned (Jsonify r 200), session, w') /\
     calls (new_events w w') = 1%nat).
Proof.
  split; [| split].
  all: match goal with
       | |- context [run (send_to_backend cfg ?p) ?w0] =>
           destruct (send_to_backend_calls cfg p w0) as (r & w' & evs & Hrun & Htr & Hc)
       end.
  all: exists r, w'; split; [exact Hrun |]; split;
    [| by rewrite (new_events_app _ _ _ Htr)].
  all: unfold api_search, api_recommendations, api_undo, vbind, bridge, py, vret, py_get.
  all: by rewrite Hrun.
Qed.

End Guards.

(** *** Mappings and documents *)

Lemma obj_lookup_set_eq (k : string) (v : json) (kv : list (string * json)) :
  obj_lookup k (obj_set k v kv) = Some v.
Proof.
  induction kv as [| [k' v'] kv IH]; simpl.
  - by rewrite String.eqb_refl.
  - destruct (String.eqb_spec k k') as [-> | Hne]; simpl.
    + by rewrite String.eqb_refl.
    + by destruct (String.eqb_spec k k').
Qed.

Lemma obj_lookup_set_ne (k k' : string) (v : json) (kv : list (string * json)) :
  k <> k' -> obj_lookup k (obj_set k' v kv) = obj_lookup k kv.
Proof.
  intros Hne. induction kv as [| [k0 v0] kv IH]; simpl.
  - by destruct (String.eqb_spec k k').
  - destruct (String.eqb_spec k' k0) as [<- | Hne0]; simpl.
    + by destruct (String.eqb_spec k k').
    + by destruct (String.eqb_spec k k0).
Qed.

Lemma doc_lookup_set_eq (k : string) (v : value) (d : doc) :
  doc_lookup k (dict_set k v d) = Some v.
Proof.
  induction d as [| [k' v'] d IH]; simpl.
  - by rewrite String.eqb_refl.
  - destruct (String.eqb_spec k k') as [-> | Hne]; simpl.
    + by rewrite String.eqb_refl.
    + by destruct (String.eqb_spec k k').
Qed.

Lemma doc_lookup_set_ne (k k' : string) (v : value) (d : doc) :
  k <> k' -> doc_lookup k (dict_set k' v d) = doc_lookup k d.
Proof.
  intros Hne. induction d as [| [k0 v0] d IH]; simpl.
  - by destruct (String.eqb_spec k k').
  - destruct (String.eqb_spec k' k0) as [<- | Hne0]; simpl.
    + by destruct (String.eqb_spec k k').
    + by destruct (String.eqb_spec k k0).
Qed.

Lemma dict_set_same (k : string) (v : value) (d : doc) :
  doc_lookup k d = Some v -> dict_set k v d = d.
Proof.
  induction d as [| [k' v'] d IH]; simpl; [done |].
  destruct (String.eqb_spec k k') as [-> | Hne]; [by intros [= ->] |].
  intros H. by rewrite IH.
Qed.

Lemma dict_set_twice (k : string) (v v' : value) (d : doc) :
  dict_set k v' (dict_set k v d) = dict_set k v' d.
Proof.
  induction d as [| [k0 v0] d IH]; simpl.
  - by rewrite String.eqb_refl.
  - destruct (String.eqb_spec k k0) as [-> | Hne]; simpl.
    + by rewrite String.eqb_refl.
    + destruct (String.eqb_spec k k0); [done |]. by rewrite IH.
Qed.

(** *** [update_one] *)

Lemma update_first_split (sel : doc -> bool) (upd : doc -> exn + doc)
    (pre post : list doc) (d : doc) :
  Forall (fun x => sel x = false) pre -> sel d = true ->
  update_first sel upd (pre ++ d :: post) =
  match upd d with
  | inl e => inl e
  | inr d' => inr (Some (pre ++ d' :: post))
  end.
Proof.
  intros Hpre Hd. induction Hpre as [| x pre Hx _ IH]; simpl.
  - rewrite Hd. by destruct (upd d).
  - rewrite Hx, IH. by destruct (upd d).
Qed.

Lemma update_first_no_match (sel : doc -> bool) (upd : doc -> exn + doc) (l : list doc) :
  Forall (fun x => sel x = false) l -> update_first sel upd l = inr None.
Proof. induction 1 as [| x l Hx _ IH]; simpl; [done |]. by rewrite Hx, IH. Qed.

Lemma first_match (sel : doc -> bool) (l : list doc) :
  Forall (fun x => sel x = false) l \/
  exists pre d post, l = pre ++ d :: post /\
                     Forall (fun x => sel x = false) pre /\ sel d = true.
Proof.
  induction l as [| x l IH]; [left; constructor |].
  destruct (sel x) eqn:Hx.
  - right. exists [], x, l. by repeat split.
  - destruct IH as [Hall | (pre & d & post & -> & Hpre & Hd)].
    + left. by constructor.
    + right. exists (x :: pre), d, post. repeat split; [by constructor | done].
Qed.

Section Login.
Context {E : Engine} {C : Codec} (cfg : config).

Lemma no_store_run {A} (m : prog A) (w : world) :
  db w = None -> db (run m w).2 = None.
Proof.
  apply (uses_run (fun _ _ => True) (fun w w' => db w = None -> db w' = None)).
  - done.
  - intros w1 w2 w3 H1 H2 H. by apply H2, H1.
  - intros R o w0 _. destruct o; handle_cases w0; try done.
    all: by intros ?; simplify_eq.
  - apply uses_any.
Qed.

(** The session a login leaves: the three keys taken from the body,
    with the defaults of lines 303-304. *)
Lemma home_after_login (session : list (string * json)) (user_id name user_type : json)
    (w : world) :
  home (obj_set "user_type" user_type
          (obj_set "name" name (obj_set "user_id" user_id session))) w =
  Some (Returned (Render "home.html" [("name", name); ("user_type", user_type)]),
        obj_set "user_type" user_type
          (obj_set "name" name (obj_set "user_id" user_id session)), w).
Proof.
  unfold home, vbind, get_session, vret, has_key, item.
  rewrite obj_lookup_set_eq.
  rewrite !(obj_lookup_set_ne "user_id") by done. rewrite obj_lookup_set_eq.
  rewrite (obj_lookup_set_ne "name" "user_type") by done. by rewrite obj_lookup_set_eq.
Qed.

(** X16. Any mapping logs in. Without a store, the login view puts the
    identity of the body in the session, missing fields included,
    makes the [add_user] exchange through [send_with_retry], and
    answers "Login successful" whatever the engine said: it raises only
    if [send_with_retry] does. From then on the pages behind the login
    render for that session. *)
Theorem login_without_store (request session : list (string * json)) (w : world) :
  db w = None ->
  let user_id := default JNull (obj_lookup "userID" request) in
  let name := default (JStr "User") (obj_lookup "name" request) in
  let user_type := default (JStr "student") (obj_lookup "userType" request) in
  let session' :=
    obj_set "user_type" user_type (obj_set "name" name (obj_set "user_id" user_id session)) in
  let exchange := send_with_retry cfg session' (add_user_payload user_id name user_type) in
  login cfg (JObj request) session w =
    Some (match (run exchange w).1 with
          | Returned _ => Returned (Jsonify LOGGED_IN 200)
          | Raised e => Raised e
          end, session', (run exchange w).2) /\
  home session' (run exchange w).2 =
    Some (Returned (Render "home.html" [("name", name); ("user_type", user_type)]),
          session', (run exchange w).2).
Proof.
  intros Hdb. cbn zeta. split; [| apply home_after_login].
  unfold login, vbind, py, set_item, bridge, db_truth, vret. cbn.
  fold (add_user_payload (default JNull (obj_lookup "userID" request))
          (default (JStr "User") (obj_lookup "name" request))
          (default (JStr "student") (obj_lookup "userType" request))).
  pose proof (no_store_run
    (send_with_retry cfg
       (obj_set "user_type" (default (JStr "student") (obj_lookup "userType" request))
          (obj_set "name" (default (JStr "User") (obj_lookup "name" request))
             (obj_set "user_id" (default JNull (obj_lookup "userID" request)) session)))
       (add_user_payload (default JNull (obj_lookup "userID" request))
          (default (JStr "User") (obj_lookup "name" request))
          (default (JStr "student") (obj_lookup "userType" request)))) w Hdb) as Hdb'.
  destruct (run _ w) as [[r | e] w1]; cbn in *; [| done].
  by rewrite Hdb'.
Qed.

(** The document a login leaves for its user. *)
Lemma set_fields_login (nm em ty : value) (d : doc) :
  let d' := set_fields [("name", nm); ("email", em); ("type", ty)] d in
  doc_lookup "name" d' = Some nm /\ doc_lookup "email" d' = Some em /\
  doc_lookup "type" d' = Some ty /\ doc_lookup "userID" d' = doc_lookup "userID" d /\
  set_fields [("name", nm); ("email", em); ("type", ty)] d' = d'.
Proof.
  cbn zeta. unfold set_fields. cbn [foldl fst snd].
  set (d1 := dict_set "name" nm d).
  set (d2 := dict_set "email" em d1).
  set (d3 := dict_set "type" ty d2).
  assert (doc_lookup "name" d3 = Some nm) as Hn.
  { unfold d3, d2. rewrite !doc_lookup_set_ne by done. apply doc_lookup_set_eq. }
  assert (doc_lookup "email" d3 = Some em) as He.
  { unfold d3. rewrite doc_lookup_set_ne by done. apply doc_lookup_set_eq. }
  assert (doc_lookup "type" d3 = Some ty) as Ht by apply doc_lookup_set_eq.
  repeat split; try done.
  - unfold d3, d2, d1. by rewrite !doc_lookup_set_ne by done.
  - rewrite (dict_set_same "name" nm d3 Hn), (dict_set_same "email" em d3 He).
    by apply dict_set_same.
Qed.

Lemma upsert_users (v nm em ty : value) (s : store) :
  let fields := [("name", nm); ("email", em); ("type", ty)] in
  let s' := update_one_upsert Users "userID" v fields s in
  books s' = books s /\ transactions s' = transactions s /\
  reachable s' = reachable s /\ truth_error s' = truth_error s /\
  (exists d, d ∈ users s' /\ field_matches "userID" v d = true /\
             doc_get "name" d = nm /\ doc_get "email" d = em /\ doc_get "type" d = ty) /\
  List.length (users s') =
    (List.length (users s)
     + (if existsb (field_matches "userID" v) (users s) then 0 else 1))%nat /\
  update_one_upsert Users "userID" v fields s' = s'.
Proof.
  cbn zeta. unfold update_one_upsert. cbn [collection].
  set (fields := [("name", nm); ("email", em); ("type", ty)]).
  destruct (first_match (field_matches "userID" v) (users s))
    as [Hnone | (pre & d & post & Hu & Hpre & Hd)].
  - rewrite (update_first_no_match _ _ _ Hnone). cbn.
    set (new := set_fields fields [("userID", v)]).
    destruct (set_fields_login nm em ty [("userID", v)]) as (Hn & He & Ht & Hid & Hsame).
    fold fields in Hn, He, Ht, Hid, Hsame. fold new in Hn, He, Ht, Hid, Hsame.
    assert (field_matches "userID" v new = true) as Hm.
    { unfold field_matches. rewrite Hid. cbn. by apply bool_decide_eq_true. }
    repeat split.
    + exists new. unfold doc_get. rewrite Hn, He, Ht. repeat split; try done.
      apply elem_of_app. right. by apply list_elem_of_singleton.
    + rewrite length_app. cbn.
      assert (existsb (field_matches "userID" v) (users s) = false) as ->; [| done].
      apply not_true_is_false. intros (x & Hin & Hx)%existsb_exists.
      apply list_elem_of_In in Hin. rewrite Forall_forall in Hnone.
      by rewrite (Hnone x Hin) in Hx.
    + rewrite (update_first_split _ _ (users s) [] new Hnone Hm).
      change (dict_set "type" ty (dict_set "email" em (dict_set "name" nm new)))
        with (set_fields fields new).
      by rewrite Hsame.
  - rewrite Hu, (update_first_split _ _ pre post d Hpre Hd). cbn.
    destruct (set_fields_login nm em ty d) as (Hn & He & Ht & Hid & Hsame).
    fold fields in Hn, He, Ht, Hid, Hsame.
    assert (field_matches "userID" v (set_fields fields d) = true) as Hm.
    { unfold field_matches in *. by rewrite Hid. }
    repeat split.
    + exists (set_fields fields d). unfold doc_get. rewrite Hn, He, Ht.
      repeat split; try done. apply elem_of_app. right. left.
    + rewrite !length_app. cbn.
      assert (existsb (field_matches "userID" v) (pre ++ d :: post) = true) as ->; [| lia].
      apply existsb_exists. exists d. split; [| done].
      apply list_elem_of_In, elem_of_app. right. left.
    + rewrite (update_first_split _ _ pre post _ Hpre Hm).
      change (dict_set "type" ty (dict_set "email" em
                (dict_set "name" nm (set_fields fields d))))
        with (set_fields fields (set_fields fields d)).
      by rewrite Hsame.
Qed.

(** X17. With a store, a login records its user: the users collection
    gets, or already has and keeps, one document for the user id, with
    the name of the body, the e-mail address derived from the user id
    and the role in upper case; the other collections are left alone,
    and recording the same login again changes nothing. *)
Theorem login_records_user (request session : list (string * json)) (w w1 : world)
    (r : json) (s1 : store) (u t : string) (nm : value) :
  obj_lookup "userID" request = Some (JStr u) ->
  bson (default (JStr "User") (obj_lookup "name" request)) = Some nm ->
  default (JStr "student") (obj_lookup "userType" request) = JStr t ->
  is_ascii t = true ->
  let name := default (JStr "User") (obj_lookup "name" request) in
  let session' :=
    obj_set "user_type" (JStr t) (obj_set "name" name (obj_set "user_id" (JStr u) session)) in
  run (send_with_retry cfg session' (add_user_payload (JStr u) name (JStr t))) w
    = (Returned r, w1) ->
  db w1 = Some s1 -> truth_error s1 = None -> reachable s1 = true ->
  let fields := [("name", nm); ("email", VStr (u +:+ "@library.edu"));
                 ("type", VStr (upper t))] in
  exists s2,
    login cfg (JObj request) session w =
      Some (Returned (Jsonify LOGGED_IN 200), session', set_db (Some s2) w1) /\
    books s2 = books s1 /\ transactions s2 = transactions s1 /\
    (exists d, d ∈ users s2 /\ doc_get "userID" d = VStr u /\ doc_get "name" d = nm /\
               doc_get "email" d = VStr (u +:+ "@library.edu") /\
               doc_get "type" d = VStr (upper t)) /\
    List.length (users s2) =
      (List.length (users s1)
       + (if existsb (field_matches "userID" (VStr u)) (users s1) then 0 else 1))%nat /\
    update_one_upsert Users "userID" (VStr u) fields s2 = s2.
Proof.
  intros Hu Hnm Ht Hascii. cbn zeta. intros Hrun Hdb Htruth Hreach.
  exists (update_one_upsert Users "userID" (VStr u)
            [("name", nm); ("email", VStr (u +:+ "@library.edu")); ("type", VStr (upper t))]
            s1).
  destruct (upsert_users (VStr u) nm (VStr (u +:+ "@library.edu")) (VStr (upper t)) s1)
    as (Hb & Htx & _ & _ & (d & Hin & Hm & Hdn & Hde & Hdt) & Hlen & Hidem).
  split; [| repeat split; try done].
  - unfold login, vbind, py, set_item, bridge, db_truth, modelled, store_write, vret. cbn.
    rewrite Hu, Ht. cbn.
    fold (add_user_payload (JStr u) (default (JStr "User") (obj_lookup "name" request))
            (JStr t)).
    rewrite Hrun, Hdb, Htruth, Hnm. cbn. by rewrite Hascii, Hdb, Hreach.
  - exists d. repeat split; try done.
    unfold field_matches in Hm. unfold doc_get.
    destruct (doc_lookup "userID" d); [| by apply bool_decide_eq_true in Hm].
    apply bool_decide_eq_true in Hm. by subst.
Qed.

End Login.

(** Unfolding a view one layer at a time. *)
Ltac view_red :=
  lazy beta iota zeta delta
    [api_issue api_return vbind py get_item set_item get_session bridge
     succeeded_with_store db_truth record_loan modelled store_write vret
     py_get default from_option id fst snd issue_payload return_payload].

Section Loans.
Context {E : Engine} {C : Codec} (cfg : config) (write_error : exn).

(** [$inc] on the first book of an ISBN whose copies are a number. *)
Lemma inc_copies (bid : value) (amount n : Z) (s : store) (pre post : list doc) (b : doc) :
  books s = pre ++ b :: post ->
  Forall (fun d => field_matches "isbn" bid d = false) pre ->
  field_matches "isbn" bid b = true ->
  doc_lookup "copies" b = Some (VInt n) ->
  int64 (n + amount) = true ->
  update_one_inc write_error Books "isbn" bid "copies" amount s =
  inr (set_collection Books (pre ++ dict_set "copies" (VInt (n + amount)) b :: post) s).
Proof.
  intros Hb Hpre Hm Hc Hfit. unfold update_one_inc. cbn [collection].
  rewrite Hb, (update_first_split _ _ pre post b Hpre Hm).
  unfold inc_field. by rewrite Hc, Hfit.
Qed.

(** The store after the book-keeping of a loan. *)
Lemma loan_recorded (kind : string) (amount : Z) (user_id isbn : json) (uid bid : value)
    (stamp_tid stamp : Z) (session : list (string * json)) (w : world) (s : store)
    (pre post : list doc) (b : doc) (n : Z) :
  bson user_id = Some uid -> bson isbn = Some bid ->
  db w = Some s -> reachable s = true ->
  books s = pre ++ b :: post ->
  Forall (fun d => field_matches "isbn" bid d = false) pre ->
  field_matches "isbn" bid b = true ->
  doc_lookup "copies" b = Some (VInt n) ->
  int64 (n + amount) = true -> int64 stamp = true ->
  record_loan write_error user_id isbn amount kind stamp_tid stamp session w =
  Some (Returned (), session,
        set_db (Some (insert_many Transactions [loan_doc kind uid bid stamp_tid stamp]
                        (set_collection Books
                           (pre ++ dict_set "copies" (VInt (n + amount)) b :: post) s))) w).
Proof.
  intros Huid Hbid Hdb Hreach Hb Hpre Hm Hc Hfit Hstamp. view_red.
  rewrite Hbid. view_red. rewrite Hdb. view_red. rewrite Hreach.
  rewrite (inc_copies bid amount n s pre post b Hb Hpre Hm Hc Hfit). view_red.
  rewrite Huid. view_red. cbn [bson]. rewrite Hstamp. view_red.
  cbn [db set_db reachable set_collection]. by rewrite Hreach.
Qed.

(** X18. A successful issue is recorded in the store after the engine has
    answered: the first book of that ISBN has one copy less, whatever
    the count was, and the transactions gain one ISSUE document whose
    [tid] is made of the first clock reading and whose time stamp is
    the second; the next rehydration writes it as the row (tid, user,
    isbn, empty copy id, ISSUE, time stamp). The reply is the engine's
    response with status 200. *)
Theorem issue_records_loan (request session : list (string * json)) (w w1 : world)
    (resp : list (string * json)) (user_id : json) (uid bid : value) (s1 : store)
    (pre post : list doc) (b : doc) (n stamp_tid stamp : Z) :
  obj_lookup "user_id" session = Some user_id ->
  bson user_id = Some uid ->
  bson (default JNull (obj_lookup "isbn" request)) = Some bid ->
  run (send_with_retry cfg session
         (issue_payload user_id (default JNull (obj_lookup "isbn" request)))) w
    = (Returned (JObj resp), w1) ->
  truthy (default JNull (obj_lookup "success" resp)) = true ->
  db w1 = Some s1 -> truth_error s1 = None -> reachable s1 = true ->
  books s1 = pre ++ b :: post ->
  Forall (fun d => field_matches "isbn" bid d = false) pre ->
  field_matches "isbn" bid b = true ->
  doc_lookup "copies" b = Some (VInt n) ->
  int64 (n - 1) = true -> int64 stamp = true ->
  exists s2 txn,
    api_issue cfg write_error (JObj request) stamp_tid stamp session w =
      Some (Returned (Jsonify (JObj resp) 200), session, set_db (Some s2) w1) /\
    books s2 = pre ++ dict_set "copies" (VInt (n - 1)) b :: post /\
    users s2 = users s1 /\
    transactions s2 = transactions s1 ++ [txn] /\
    txn_row txn = inr [VStr ("TXN_" +:+ pretty stamp_tid); uid; bid; VStr "";
                       VStr "ISSUE"; VInt stamp].
Proof.
  intros Hsess Huid Hbid Hrun Hok Hdb Htruth Hreach Hb Hpre Hm Hc Hfit Hstamp.
  pose proof (loan_recorded "ISSUE" (-1) user_id _ uid bid stamp_tid stamp session w1 s1
                pre post b n Huid Hbid Hdb Hreach Hb Hpre Hm Hc Hfit Hstamp) as Hloan.
  eexists _, _. split; [| split; [| split; [| split]]].
  - revert Hrun Hok Hloan. view_red. intros Hrun Hok Hloan.
    rewrite Hsess. view_red. rewrite Hrun. view_red. rewrite Hok. view_red.
    rewrite Hdb. view_red. rewrite Htruth. view_red. rewrite Hsess. view_red.
    rewrite Hloan. reflexivity.
  - reflexivity.
  - reflexivity.
  - reflexivity.
  - reflexivity.
Qed.

(** X19. Issuing a book and returning it, both accepted by the engine,
    leave the books of the store as they were and the transactions two
    documents longer, an ISSUE and then a RETURN. *)
Theorem issue_then_return_restores_books (request session : list (string * json))
    (w w1 : world) (r1 : list (string * json)) (user_id : json) (uid bid : value)
    (s1 : store) (pre post : list doc) (b : doc) (n t1 t2 t3 t4 : Z) :
  obj_lookup "user_id" session = Some user_id ->
  bson user_id = Some uid ->
  bson (default JNull (obj_lookup "isbn" request)) = Some bid ->
  run (send_with_retry cfg session
         (issue_payload user_id (default JNull (obj_lookup "isbn" request)))) w
    = (Returned (JObj r1), w1) ->
  truthy (default JNull (obj_lookup "success" r1)) = true ->
  db w1 = Some s1 -> truth_error s1 = None -> reachable s1 = true ->
  books s1 = pre ++ b :: post ->
  Forall (fun d => field_matches "isbn" bid d = false) pre ->
  field_matches "isbn" bid b = true ->
  doc_lookup "copies" b = Some (VInt n) ->
  int64 (n - 1) = true -> int64 n = true ->
  int64 t2 = true -> int64 t4 = true ->
  exists s2,
    api_issue cfg write_error (JObj request) t1 t2 session w =
      Some (Returned (Jsonify (JObj r1) 200), session, set_db (Some s2) w1) /\
    forall (w2 : world) (r2 : list (string * json)),
      run (send_with_retry cfg session
             (return_payload user_id (default JNull (obj_lookup "isbn" request))))
          (set_db (Some s2) w1)
        = (Returned (JObj r2), w2) ->
      truthy (default JNull (obj_lookup "success" r2)) = true ->
      db w2 = Some s2 ->
      exists s3,
        api_return cfg write_error (JObj request) t3 t4 session (set_db (Some s2) w1) =
          Some (Returned (Jsonify (JObj r2) 200), session, set_db (Some s3) w2) /\
        books s3 = books s1 /\ users s3 = users s1 /\
        transactions s3 =
          transactions s1
          ++ [loan_doc "ISSUE" uid bid t1 t2; loan_doc "RETURN" uid bid t3 t4].
Proof.
  intros Hsess Huid Hbid Hrun1 Hok1 Hdb1 Htruth Hreach Hb Hpre Hm Hc Hfit1 Hfit Ht2 Ht4.
  pose proof (loan_recorded "ISSUE" (-1) user_id _ uid bid t1 t2 session w1 s1
                pre post b n Huid Hbid Hdb1 Hreach Hb Hpre Hm Hc Hfit1 Ht2) as Hloan1.
  set (b' := dict_set "copies" (VInt (n + -1)) b) in *.
  set (s2 := insert_many Transactions [loan_doc "ISSUE" uid bid t1 t2]
               (set_collection Books (pre ++ b' :: post) s1)) in *.
  exists s2. split.
  { revert Hrun1 Hok1 Hloan1. view_red. intros Hrun1 Hok1 Hloan1.
    rewrite Hsess. view_red. rewrite Hrun1. view_red. rewrite Hok1. view_red.
    rewrite Hdb1. view_red. rewrite Htruth. view_red. rewrite Hsess. view_red.
    rewrite Hloan1. reflexivity. }
  intros w2 r2 Hrun2 Hok2 Hdb2.
  assert (field_matches "isbn" bid b' = true) as Hm'.
  { unfold field_matches, b' in *. by rewrite doc_lookup_set_ne. }
  assert (doc_lookup "copies" b' = Some (VInt (n + -1))) as Hc'
    by apply doc_lookup_set_eq.
  assert (int64 (n + -1 + 1) = true) as Hfit2 by (by replace (n + -1 + 1) with n by lia).
  pose proof (loan_recorded "RETURN" 1 user_id _ uid bid t3 t4 session w2 s2
                pre post b' (n + -1) Huid Hbid Hdb2 Hreach eq_refl Hpre Hm' Hc' Hfit2 Ht4)
    as Hloan2.
  eexists. split; [| split; [| split]].
  - revert Hrun2 Hok2 Hloan2. view_red. intros Hrun2 Hok2 Hloan2.
    rewrite Hsess. view_red. rewrite Hrun2. view_red. rewrite Hok2. view_red.
    rewrite Hdb2. view_red. change (truth_error s2) with (truth_error s1).
    rewrite Htruth. view_red. rewrite Hsess. view_red.
    rewrite Hloan2. reflexivity.
  - cbn. rewrite Hb. do 2 f_equal. unfold b'. rewrite dict_set_twice.
    apply dict_set_same. rewrite Hc. do 2 f_equal. lia.
  - reflexivity.
  - cbn. by rewrite <- app_assoc.
Qed.

(** X20. A loan the engine refuses leaves no mark: when the response does
    not report success, issuing and returning a book reply with that
    response, status 200, and write nothing to the store. *)
Theorem refused_loans_leave_no_mark (request session : list (string * json)) (w : world)
    (user_id : json) (stamp_tid stamp : Z) :
  obj_lookup "user_id" session = Some user_id ->
  (forall (w1 : world) (resp : list (string * json)),
     run (send_with_retry cfg session
            (issue_payload user_id (default JNull (obj_lookup "isbn" request)))) w
       = (Returned (JObj resp), w1) ->
     truthy (default JNull (obj_lookup "success" resp)) = false ->
     api_issue cfg write_error (JObj request) stamp_tid stamp session w =
       Some (Returned (Jsonify (JObj resp) 200), session, w1)) /\
  (forall (w1 : world) (resp : list (string * json)),
     run (send_with_retry cfg session
            (return_payload user_id (default JNull (obj_lookup "isbn" request)))) w
       = (Returned (JObj resp), w1) ->
     truthy (default JNull (obj_lookup "success" resp)) = false ->
     api_return cfg write_error (JObj request) stamp_tid stamp session w =
       Some (Returned (Jsonify (JObj resp) 200), session, w1)).
Proof.
  intros Hsess. split; intros w1 resp; view_red; intros Hrun Hno.
  - rewrite Hsess. view_red. rewrite Hrun. view_red. by rewrite Hno.
  - rewrite Hsess. view_red. rewrite Hrun. view_red. by rewrite Hno.
Qed.

(** X21. The book-keeping of an issue is not atomic with the engine: when
    the engine has accepted the issue and the store cannot be reached,
    the view raises the error of the store instead of replying, with
    nothing recorded in the store. *)
Theorem accepted_issue_lost_offline (request session : list (string * json))
    (w w1 : world) (resp : list (string * json)) (user_id : json) (bid : value)
    (s1 : store) (stamp_tid stamp : Z) :
  obj_lookup "user_id" session = Some user_id ->
  run (send_with_retry cfg session
         (issue_payload user_id (default JNull (obj_lookup "isbn" request)))) w
    = (Returned (JObj resp), w1) ->
  truthy (default JNull (obj_lookup "success" resp)) = true ->
  bson (default JNull (obj_lookup "isbn" request)) = Some bid ->
  db w1 = Some s1 -> truth_error s1 = None -> reachable s1 = false ->
  api_issue cfg write_error (JObj request) stamp_tid stamp session w =
    Some (Raised (unreachable_error s1), session, w1).
Proof.
  intros Hsess. view_red. intros Hrun Hok Hbid Hdb Htruth Hreach.
  rewrite Hsess. view_red. rewrite Hrun. view_red. rewrite Hok. view_red.
  rewrite Hdb. view_red. rewrite Htruth. view_red. rewrite Hsess. view_red.
  rewrite Hbid. view_red. rewrite Hdb. view_red. by rewrite Hreach.
Qed.

End Loans.

End ViewFacts.


(** ** The further properties on the example worlds *)

Module Scenarios.
Import Scripted Worlds Scenes.

Lemma offline_store_still_launches :
  exists w',
    run (start_backend cfg) offline = (Returned (), w') /\
    USE_MOCK_BACKEND w' = true /\
    launch_events (next_pid offline) (new_events offline w') (BACKEND_PROCESS w').
Proof.
  assert ((run (startup_sync cfg) offline).1 = Raised no_such_server) as H
    by (vm_compute; reflexivity).
  exact (failed_sync_still_launches cfg offline no_such_server eq_refl eq_refl H).
Defined.

Lemma silent_engine_polled_once :
  exists r w' xs,
    run (send_to_backend cfg (JObj search)) silent = (Returned r, w') /\
    new_events silent w' = EvAcquire :: EvPoll 0%nat None :: xs ++ [EvRelease] /\
    exchange 0%nat (json_dumps (JObj search) +:+ LF) xs r /\
    BACKEND_PROCESS w' = Some 0%nat /\ next_pid w' = next_pid silent /\
    fs w' = fs silent /\ db w' = db silent /\
    USE_MOCK_BACKEND w' =
      USE_MOCK_BACKEND silent || negb (path_exists (BACKEND_EXECUTABLE cfg) silent).
Proof.
  exact (live_engine_call cfg search silent 0%nat (Script None [] true) eq_refl eq_refl).
Defined.

Lemma directory_is_no_engine :
  exists w' evs,
    run (send_to_backend cfg (JObj search)) undeployable =
      (Returned (failure "'NoneType' object has no attribute 'poll'"), w') /\
    new_events undeployable w' = EvAcquire :: evs ++ [EvRelease] /\
    (evs = [] \/ exists args cwd, evs = [EvSpawnFailed args cwd]) /\
    BACKEND_PROCESS w' = None /\
    USE_MOCK_BACKEND w' = true.
Proof.
  assert (new_events undeployable (run (send_to_backend cfg (JObj search)) undeployable).2
          = [EvAcquire; EvSpawnFailed (backend_args cfg) "/app"; EvRelease]) as H
    by (vm_compute; reflexivity).
  apply (no_process_no_exchange cfg search undeployable eq_refl).
  intros q args cwd Hin. rewrite H in Hin.
  repeat (apply elem_of_cons in Hin as [Hin | Hin]; [discriminate |]).
  by apply elem_of_nil in Hin.
Defined.

Lemma bad_copies_abort_migration :
  exists e,
    run (startup_sync cfg) with_bad_books = (Raised e, with_bad_books) /\
    run (guarded_sync cfg) with_bad_books =
      (Returned (), set_USE_MOCK_BACKEND true with_bad_books).
Proof.
  assert (reader_row BOOK_FIELDS ["2"; "Emma"; "Austen"; "Novel"; "many"]
          ∈ dict_reader (csv_reader bad_books).1) as Hin.
  { assert (dict_reader (csv_reader bad_books).1 =
            [reader_row BOOK_FIELDS ["1"; "Dune"; "Herbert"; "SF"; "2"];
             reader_row BOOK_FIELDS ["2"; "Emma"; "Austen"; "Novel"; "many"]]) as ->
      by (vm_compute; reflexivity).
    set_solver. }
  assert (book_of_row (reader_row BOOK_FIELDS ["2"; "Emma"; "Austen"; "Novel"; "many"])
          = inl (Exn ValueError "invalid literal for int() with base 10: 'many'")) as Hrow
    by (vm_compute; reflexivity).
  exact (bad_books_row_aborts_sync cfg with_bad_books empty_store bad_books _ _
           eq_refl eq_refl eq_refl eq_refl eq_refl Hin Hrow).
Defined.

Lemma second_migration_changes_nothing :
  run (initial_migration cfg) migrated = (Returned (), migrated).
Proof.
  assert (run (initial_migration cfg) to_migrate = (Returned (), migrated)) as H
    by (vm_compute; reflexivity).
  exact (migration_runs_once cfg to_migrate migrated H).
Defined.

Lemma transactions_cut_at_bad_stamp :
  exists w',
    run (rehydrate_from_mongodb cfg) with_dated =
      (Raised (Exn ValueError "invalid literal for int() with base 10: 'soon'"), w') /\
    db w' = db with_dated /\
    fs w' !! TRANS_CSV cfg =
      Some (File (csv_table TXN_FIELDS
                    [[VStr "TXN_1"; VStr "u1"; VStr "9780261103573"; VStr "";
                      VStr "ISSUE"; VInt 1700000000]])) /\
    fs w' !! BOOKS_CSV cfg =
      (if nonempty (books dated)
       then Some (File (csv_table BOOK_FIELDS (book_row <$> books dated)))
       else fs with_dated !! BOOKS_CSV cfg) /\
    fs w' !! USERS_CSV cfg =
      (if nonempty (users dated)
       then Some (File (csv_table USER_FIELDS (user_row <$> users dated)))
       else fs with_dated !! USERS_CSV cfg).
Proof.
  assert (NoDup [BOOKS_CSV cfg; USERS_CSV cfg; TRANS_CSV cfg]) as Hnd
    by (apply (bool_decide_unpack _); vm_compute; exact I).
  assert (forall p, p ∈ [BOOKS_CSV cfg; USERS_CSV cfg; TRANS_CSV cfg] ->
                    write_refused p with_dated = None) as Hw
    by (intros p _; reflexivity).
  exact (bad_timestamp_cuts_transactions cfg with_dated dated
           [loan "TXN_1" (VInt 1700000000)] [loan "TXN_3" (VInt 1700000002)]
           (loan "TXN_2" (VStr "soon")) _ _
           eq_refl eq_refl eq_refl Hnd Hw eq_refl eq_refl eq_refl).
Defined.

Lemma second_rehydration_changes_nothing :
  run (rehydrate_from_mongodb cfg) staged_once = (Returned (), staged_once).
Proof.
  assert (NoDup [BOOKS_CSV cfg; USERS_CSV cfg; TRANS_CSV cfg]) as Hnd
    by (apply (bool_decide_unpack _); vm_compute; exact I).
  assert (run (rehydrate_from_mongodb cfg) fresh = (Returned (), staged_once)) as H
    by (vm_compute; reflexivity).
  exact (rehydration_idempotent cfg fresh staged_once Hnd H).
Defined.

Ltac writable_paths :=
  let p := fresh "p" in
  let Hp := fresh "Hp" in
  intros p Hp;
  repeat (apply elem_of_cons in Hp as [-> | Hp]; [vm_compute; reflexivity |]);
  by apply elem_of_nil in Hp.

Lemma three_users_staged :
  exists w',
    run (startup_sync cfg) to_migrate = (Returned (), w') /\
    coll_of Users w' = Some (user_doc <$> dict_reader (USER_FIELDS :: legacy_rows)) /\
    fs w' !! USERS_CSV cfg =
      Some (File (csv_table USER_FIELDS
                    ((fun r => [doc_get "UserID" r; doc_get "Name" r;
                                doc_get "Email" r; doc_get "Type" r])
                       <$> dict_reader (USER_FIELDS :: legacy_rows)))).
Proof.
  assert ((run (migrate Books (LOCAL_BOOKS cfg) book_of_row) to_migrate).1 = Returned ())
    as H4 by (vm_compute; reflexivity).
  assert (fs to_migrate !! LOCAL_USERS cfg = Some (File legacy_users)) as H5
    by (vm_compute; reflexivity).
  assert (csv_reader legacy_users = (USER_FIELDS :: legacy_rows, None)) as H6
    by (vm_compute; reflexivity).
  assert (data_rows legacy_rows <> []) as H7 by (vm_compute; discriminate).
  assert (NoDup [BOOKS_CSV cfg; USERS_CSV cfg; TRANS_CSV cfg]) as Hnd
    by (apply (bool_decide_unpack _); vm_compute; exact I).
  assert (forall p, p ∈ [BOOKS_CSV cfg; USERS_CSV cfg; TRANS_CSV cfg] ->
                    write_refused p to_migrate = None) as Hw by writable_paths.
  exact (legacy_users_reach_engine_file cfg to_migrate empty_store legacy_users
           USER_FIELDS legacy_rows [] eq_refl eq_refl eq_refl eq_refl H4 H5 H6
           (fun k Hk => Hk) H7 eq_refl Hnd Hw).
Defined.

Lemma two_books_staged :
  exists lines,
    fs booked !! BOOKS_CSV cfg = Some (File (csv_table BOOK_FIELDS lines)) /\
    Forall2 (fun r cells =>
               exists n, py_int (doc_get "Copies" r) = inr n /\ int64 n = true /\
                         cells = [doc_get "ISBN" r; doc_get "Title" r; doc_get "Author" r;
                                  doc_get "Category" r; VInt n])
            (dict_reader (BOOK_FIELDS :: legacy_book_rows)) lines.
Proof.
  assert (NoDup [BOOKS_CSV cfg; USERS_CSV cfg; TRANS_CSV cfg]) as Hnd
    by (apply (bool_decide_unpack _); vm_compute; exact I).
  assert (fs with_legacy_books !! LOCAL_BOOKS cfg = Some (File legacy_books)) as H1
    by (vm_compute; reflexivity).
  assert (csv_reader legacy_books = (BOOK_FIELDS :: legacy_book_rows, None)) as H2
    by (vm_compute; reflexivity).
  assert (data_rows legacy_book_rows <> []) as H3 by (vm_compute; discriminate).
  assert (run (startup_sync cfg) with_legacy_books = (Returned (), booked)) as H4
    by (vm_compute; reflexivity).
  exact (legacy_books_reach_engine_file cfg with_legacy_books booked empty_store
           legacy_books BOOK_FIELDS legacy_book_rows Hnd eq_refl eq_refl H1 H2 H3 H4).
Defined.

(** The copies of the two books as the engine's file has them. *)
Lemma copies_printed_again :
  fs booked !! BOOKS_CSV cfg =
  Some (File ("ISBN,Title,Author,Category,Copies" +:+ CRLF +:+
              "1,Dune,Herbert,SF,2" +:+ CRLF +:+
              "2,Emma,Austen,Novel,7" +:+ CRLF)).
Proof. vm_compute. reflexivity. Qed.

Lemma list_reply_breaks_retry :
  run (send_with_retry cfg session issue) (serving [say (JArr [])] None) =
  (Raised (no_attribute "list" "get"),
   (run (send_to_backend cfg issue) (serving [say (JArr [])] None)).2).
Proof.
  assert (run (send_to_backend cfg issue) (serving [say (JArr [])] None) =
          (Returned (JArr []),
           (run (send_to_backend cfg issue) (serving [say (JArr [])] None)).2)) as H
    by (vm_compute; reflexivity).
  exact (retry_on_malformed_response cfg session issue _ _ (JArr []) H).
Defined.

Lemma third_candidate_found :
  (exists before after,
     candidates = before ++ "/srv/library" :: after /\
     Forall (fun q => String.eqb q "/srv/library" = false) before /\
     String.eqb "/srv/library" "/srv/library" = true) \/
  (Forall (fun q => String.eqb q "/srv/library" = false) candidates /\
   head candidates = Some "/srv/library").
Proof.
  exact (locate_executable_first_existing (fun q => String.eqb q "/srv/library")
           candidates "/srv/library" eq_refl).
Defined.

Lemma strangers_are_kept_out :
  Views.home [] bare = Some (Returned (Views.Redirect "/"), [], bare) /\
  Views.api_profile cfg [] bare =
    Some (Returned (Views.Jsonify Views.NOT_AUTHENTICATED 401), [], bare) /\
  Views.api_issue cfg refused (JObj hobbit) 1700000000 1700000000 [] bare =
    Some (Raised (Exn KeyError "'user_id'"), [], bare).
Proof.
  destruct (ViewFacts.anonymous_requests_stay_out cfg refused [] bare JNull hobbit
              1700000000 1700000000 eq_refl) as (H1 & _ & _ & H4 & _ & H6 & _).
  exact (conj H1 (conj H4 H6)).
Defined.

Lemma login_with_the_engine_down :
  exists w',
    Views.login cfg (JObj ann) [] bare =
      Some (Returned (Views.Jsonify Views.LOGGED_IN 200),
            [("user_id", JStr "u1"); ("name", JStr "Ann"); ("user_type", JStr "faculty")],
            w') /\
    Views.home [("user_id", JStr "u1"); ("name", JStr "Ann"); ("user_type", JStr "faculty")]
      w' =
      Some (Returned (Views.Render "home.html"
                        [("name", JStr "Ann"); ("user_type", JStr "faculty")]),
            [("user_id", JStr "u1"); ("name", JStr "Ann"); ("user_type", JStr "faculty")],
            w').
Proof.
  destruct (ViewFacts.login_without_store cfg ann [] bare eq_refl) as [H1 H2].
  assert ((run (send_with_retry cfg
                  [("user_id", JStr "u1"); ("name", JStr "Ann");
                   ("user_type", JStr "faculty")]
                  (add_user_payload (JStr "u1") (JStr "Ann") (JStr "faculty"))) bare).1
          = Returned (failure "'NoneType' object has no attribute 'poll'")) as Hr
    by (vm_compute; reflexivity).
  cbn [default from_option id obj_lookup ann String.eqb Ascii.eqb Bool.eqb Views.obj_set]
    in H1, H2.
  rewrite Hr in H1. eexists. split; [exact H1 | exact H2].
Defined.

(** Hypotheses that hold by evaluation. *)
Ltac feed H :=
  repeat match type of H with
         | ?P -> _ =>
             let Hx := fresh in
             assert P as Hx by first [vm_compute; reflexivity | constructor];
             specialize (H Hx); clear Hx
         end.

Lemma ann_is_recorded :
  exists s2 d,
    Views.login cfg (JObj ann) [] (serving [say user_added] (Some empty_store)) =
      Some (Returned (Views.Jsonify Views.LOGGED_IN 200), ann_session,
            set_db (Some s2) ann_added) /\
    d ∈ users s2 /\ doc_get "userID" d = VStr "u1" /\
    doc_get "email" d = VStr "u1@library.edu" /\ doc_get "type" d = VStr "FACULTY" /\
    List.length (users s2) = 1%nat.
Proof.
  pose proof (ViewFacts.login_records_user cfg ann []
                (serving [say user_added] (Some empty_store)) ann_added user_added
                empty_store "u1" "faculty" (VStr "Ann")) as H.
  feed H. cbn zeta in H. feed H.
  destruct H as (s2 & Hlogin & _ & _ & (d & Hin & Hid & _ & Hmail & Hty) & Hlen & _).
  match type of Hlogin with
  | _ = Some (_, ?ss, _) => change ss with ann_session in Hlogin
  end.
  exists s2, d.
  exact (conj Hlogin (conj Hin (conj Hid (conj Hmail (conj Hty Hlen))))).
Defined.

Lemma hobbit_is_issued :
  exists s2 txn,
    Views.api_issue cfg refused (JObj hobbit) 1700000000 1700000001 session
      (serving [say ok] (Some one_book)) =
      Some (Returned (Views.Jsonify ok 200), session,
            set_db (Some s2) (hobbit_asked [say ok])) /\
    books s2 = [] ++ dict_set "copies" (VInt (3 - 1)) a_book :: [] /\
    users s2 = users one_book /\
    transactions s2 = transactions one_book ++ [txn] /\
    txn_row txn = inr [VStr ("TXN_" +:+ pretty 1700000000); VStr "u1";
                       VStr "9780261103573"; VStr ""; VStr "ISSUE"; VInt 1700000001].
Proof.
  pose proof (ViewFacts.issue_records_loan cfg refused hobbit session
                (serving [say ok] (Some one_book)) (hobbit_asked [say ok])
                [("success", JBool true); ("message", JStr "OK")] (JStr "u1")
                (VStr "u1") (VStr "9780261103573") one_book [] [] a_book 3
                1700000000 1700000001) as H.
  feed H. exact H.
Defined.

Lemma hobbit_issued_and_returned :
  exists s2 s3,
    Views.api_issue cfg refused (JObj hobbit) 1700000000 1700000001 session
      (serving [say ok; say ok] (Some one_book)) =
      Some (Returned (Views.Jsonify ok 200), session,
            set_db (Some s2) (hobbit_asked [say ok; say ok])) /\
    Views.api_return cfg refused (JObj hobbit) 1700000600 1700000601 session
      (set_db (Some s2) (hobbit_asked [say ok; say ok])) =
      Some (Returned (Views.Jsonify ok 200), session,
            set_db (Some s3) (hobbit_back s2)) /\
    books s3 = books one_book /\ users s3 = users one_book /\
    transactions s3 =
      transactions one_book
      ++ [Views.loan_doc "ISSUE" (VStr "u1") (VStr "9780261103573") 1700000000 1700000001;
          Views.loan_doc "RETURN" (VStr "u1") (VStr "9780261103573") 1700000600
            1700000601].
Proof.
  pose proof (ViewFacts.issue_then_return_restores_books cfg refused hobbit session
                (serving [say ok; say ok] (Some one_book))
                (hobbit_asked [say ok; say ok])
                [("success", JBool true); ("message", JStr "OK")] (JStr "u1")
                (VStr "u1") (VStr "9780261103573") one_book [] [] a_book 3
                1700000000 1700000001 1700000600 1700000601) as H.
  feed H. destruct H as (s2 & Hissue & Hback).
  specialize (Hback (hobbit_back s2) [("success", JBool true); ("message", JStr "OK")]).
  feed Hback. destruct Hback as (s3 & Hret & Hbooks & Husers & Htxns).
  exists s2, s3.
  exact (conj Hissue (conj Hret (conj Hbooks (conj Husers Htxns)))).
Defined.

Lemma refusals_leave_no_mark :
  Views.api_issue cfg refused (JObj hobbit) 1700000000 1700000001 session
    (serving [say book_not_available] (Some one_book)) =
    Some (Returned (Views.Jsonify book_not_available 200), session,
          hobbit_asked [say book_not_available]) /\
  Views.api_return cfg refused (JObj hobbit) 1700000000 1700000001 session
    (serving [say book_not_available] (Some one_book)) =
    Some (Returned (Views.Jsonify book_not_available 200), session, hobbit_kept).
Proof.
  pose proof (ViewFacts.refused_loans_leave_no_mark cfg refused hobbit session
                (serving [say book_not_available] (Some one_book)) (JStr "u1")
                1700000000 1700000001) as H.
  feed H. destruct H as [Hissue Hreturn].
  specialize (Hissue (hobbit_asked [say book_not_available])
                [("success", JBool false); ("message", JStr "Book not available")]).
  specialize (Hreturn hobbit_kept
                [("success", JBool false); ("message", JStr "Book not available")]).
  feed Hissue. feed Hreturn.
  exact (conj Hissue Hreturn).
Defined.

Lemma issue_lost_with_store_down :
  Views.api_issue cfg refused (JObj hobbit) 1700000000 1700000001 session
    (serving [say ok] (Some out_of_reach)) =
  Some (Raised no_such_server, session, hobbit_lost).
Proof.
  pose proof (ViewFacts.accepted_issue_lost_offline cfg refused hobbit session
                (serving [say ok] (Some out_of_reach)) hobbit_lost
                [("success", JBool true); ("message", JStr "OK")] (JStr "u1")
                (VStr "9780261103573") out_of_reach 1700000000 1700000001) as H.
  feed H. exact H.
Defined.

End Scenarios.
